(** * update_contributions.py: a shallow embedding and its properties

    The script fetches a user's GitHub contributions through the search
    API (page by page, waiting on HTTP 403), normalises them into flat
    records, groups the records by calendar quarter and writes one
    Markdown report per quarter.

    Layout of this development:
    - [Py]: the fragment of Python the script relies on (values,
      truthiness, [dict] access, [str] methods, [datetime.strptime]);
    - the effect model ([world], [outcome], the monad [M]);
    - the program, function by function, under the source's names;
    - the properties. *)

From stdpp Require Import base option list strings gmap.
From Stdlib Require Import ZArith Ascii String DecimalString Lia.

Local Open Scope string_scope.
Local Open Scope list_scope.
Local Open Scope Z_scope.

(* ===================================================================== *)
(** * Python values and library functions *)
(* ===================================================================== *)

Module Py.

(** Values that flow through the script: decoded JSON and the records the
    script builds from it.  A [dict] keeps its insertion order; numbers
    are restricted to integers. *)
#[warnings="-register-all"]
Inductive pyval : Type :=
| PNone
| PBool (b : bool)
| PInt (z : Z)
| PStr (s : string)
| PList (l : list pyval)
| PDict (d : list (string * pyval)).

(** Exceptions the script can meet. *)
Inductive exn : Type :=
| HTTPError (status : Z)
| ConnectionError
| JSONDecodeError
| KeyError (k : string)
| IndexError
| TypeError
| AttributeError
| ValueError.

(** A computation without effects that returns or raises. *)
Inductive result (A : Type) : Type :=
| Ok (a : A)
| Raise (e : exn).
Arguments Ok {A} a.
Arguments Raise {A} e.

#[export] Instance result_ret : MRet result := fun A a => Ok a.
#[export] Instance result_bind : MBind result := fun A B f m =>
  match m with
  | Ok a => f a
  | Raise e => Raise e
  end.

(** ** Truthiness and [or] *)

Definition is_empty_string (s : string) : bool :=
  match s with EmptyString => true | String _ _ => false end.

Definition is_nil {A} (l : list A) : bool :=
  match l with [] => true | _ :: _ => false end.

(** [bool(v)] *)
Definition truthy (v : pyval) : bool :=
  match v with
  | PNone => false
  | PBool b => b
  | PInt z => negb (z =? 0)
  | PStr s => negb (is_empty_string s)
  | PList l => negb (is_nil l)
  | PDict d => negb (is_nil d)
  end.

(** [a or b], both operands already evaluated. *)
Definition py_or (a b : pyval) : pyval := if truthy a then a else b.

(** ** Dictionaries as insertion-ordered association lists *)

Fixpoint dict_get {V} (k : string) (d : list (string * V)) : option V :=
  match d with
  | [] => None
  | (k', v) :: rest => if String.eqb k k' then Some v else dict_get k rest
  end.

(** [k in d] *)
Definition dict_mem {V} (k : string) (d : list (string * V)) : bool :=
  match dict_get k d with Some _ => true | None => false end.

(** [d[k] = v]: an existing key keeps its position, a new key goes last. *)
Fixpoint dict_set {V} (k : string) (v : V) (d : list (string * V))
  : list (string * V) :=
  match d with
  | [] => [(k, v)]
  | (k', v') :: rest =>
      if String.eqb k k' then (k', v) :: rest
      else (k', v') :: dict_set k v rest
  end.

(** [obj[k]] with a string key. *)
Definition py_getitem (obj : pyval) (k : string) : result pyval :=
  match obj with
  | PDict d =>
      match dict_get k d with
      | Some v => Ok v
      | None => Raise (KeyError k)
      end
  | _ => Raise TypeError
  end.

(** [obj.get(k)] *)
Definition py_get (obj : pyval) (k : string) : result pyval :=
  match obj with
  | PDict d => Ok (default PNone (dict_get k d))
  | _ => Raise AttributeError
  end.

(** ** Strings: one [ascii] stands for one character *)

Definition newline : ascii := ascii_of_nat 10.
Definition space : ascii := ascii_of_nat 32.

Fixpoint str_map (f : ascii -> ascii) (s : string) : string :=
  match s with
  | EmptyString => EmptyString
  | String c rest => String (f c) (str_map f rest)
  end.

(** [s.replace("\n", " ")] *)
Definition replace_newlines (s : string) : string :=
  str_map (fun c => if Ascii.eqb c newline then space else c) s.

(** [s[:n]] *)
Fixpoint str_take (n : nat) (s : string) : string :=
  match n, s with
  | S n', String c rest => String c (str_take n' rest)
  | _, _ => EmptyString
  end.

(** [s.split(sep)] for a one-character separator, as the pair of the
    first field and the remaining fields. *)
Fixpoint split_fields (sep : ascii) (s : string) : string * list string :=
  match s with
  | EmptyString => (EmptyString, [])
  | String c rest =>
      let '(field, fields) := split_fields sep rest in
      if Ascii.eqb c sep then (EmptyString, field :: fields)
      else (String c field, fields)
  end.

Definition py_split (sep : ascii) (s : string) : list string :=
  let '(field, fields) := split_fields sep s in field :: fields.

(** [l[-1]] and [l[-2]] *)
Definition last_item {A} (l : list A) : result A :=
  match reverse l with
  | x :: _ => Ok x
  | [] => Raise IndexError
  end.

Definition second_last_item {A} (l : list A) : result A :=
  match reverse l with
  | _ :: x :: _ => Ok x
  | _ => Raise IndexError
  end.

(** [str(n)] for an integer *)
Definition str_of_int (z : Z) : string := NilZero.string_of_int (Z.to_int z).

(** Iterating a value ([list.extend(v)]): a list yields its elements, a
    string its characters, a dict its keys; other values are not iterable. *)
Definition py_iter (v : pyval) : result (list pyval) :=
  match v with
  | PList l => Ok l
  | PStr s => Ok ((fun c => PStr (String c EmptyString)) <$> list_ascii_of_string s)
  | PDict d => Ok ((fun kv => PStr (fst kv)) <$> d)
  | _ => Raise TypeError
  end.

(** ** [datetime.datetime.strptime(s, "%Y-%m-%dT%H:%M:%SZ")]

    CPython turns the format into a regular expression, matched without
    regard to case, in which [%Y] is four digits and the other fields are
    one or two digits within their range; the whole string must be
    consumed, and the fields must form a date and time that exist.
    Digits are the ASCII digits here; CPython's [\d] also accepts the
    decimal digits of other scripts. *)

Record datetime : Type := {
  year : Z; month : Z; day : Z; hour : Z; minute : Z; second : Z
}.

Definition is_digit (c : ascii) : bool :=
  let n := nat_of_ascii c in (48 <=? n)%nat && (n <=? 57)%nat.

Definition digit_val (c : ascii) : Z := Z.of_nat (nat_of_ascii c - 48).

Definition in_range (lo hi : Z) (c : ascii) : bool :=
  is_digit c && (lo <=? digit_val c) && (digit_val c <=? hi).

(** A parser reads a value off the front of the input or fails. *)
Definition parser (A : Type) : Type := string -> option (A * string).

(** [\d\d\d\d] *)
Definition p_year : parser Z := fun s =>
  match s with
  | String a (String b (String c (String d rest))) =>
      if is_digit a && is_digit b && is_digit c && is_digit d
      then Some (1000 * digit_val a + 100 * digit_val b
                 + 10 * digit_val c + digit_val d, rest)
      else None
  | _ => None
  end.

(** A field made of two-digit alternatives [two], tried first, and a
    one-digit alternative [one].  The field is always followed by a
    literal that is not a digit, so once a two-digit alternative matches
    no shorter alternative can make the rest of the expression match. *)
Definition p_field (two : ascii -> ascii -> bool) (one : ascii -> bool)
  : parser Z := fun s =>
  match s with
  | String a (String b rest) =>
      if two a b then Some (10 * digit_val a + digit_val b, rest)
      else if one a then Some (digit_val a, String b rest)
      else None
  | String a EmptyString =>
      if one a then Some (digit_val a, EmptyString) else None
  | EmptyString => None
  end.

(** [1[0-2]|0[1-9]|[1-9]] *)
Definition p_month : parser Z :=
  p_field (fun a b => in_range 1 1 a && in_range 0 2 b
                      || in_range 0 0 a && in_range 1 9 b)
          (in_range 1 9).

(** [3[0-1]|[1-2]\d|0[1-9]|[1-9]| [1-9]]; in the last alternative the
    leading blank is skipped by [int]. *)
Definition p_day : parser Z := fun s =>
  match p_field (fun a b => in_range 3 3 a && in_range 0 1 b
                            || in_range 1 2 a && is_digit b
                            || in_range 0 0 a && in_range 1 9 b)
                (in_range 1 9) s with
  | Some r => Some r
  | None =>
      match s with
      | String a (String b rest) =>
          if Ascii.eqb a space && in_range 1 9 b
          then Some (digit_val b, rest) else None
      | _ => None
      end
  end.

(** [2[0-3]|[0-1]\d|\d] *)
Definition p_hour : parser Z :=
  p_field (fun a b => in_range 2 2 a && in_range 0 3 b
                      || in_range 0 1 a && is_digit b)
          is_digit.

(** [[0-5]\d|\d] *)
Definition p_minute : parser Z :=
  p_field (fun a b => in_range 0 5 a && is_digit b) is_digit.

(** [6[0-1]|[0-5]\d|\d] *)
Definition p_second : parser Z :=
  p_field (fun a b => in_range 6 6 a && in_range 0 1 b
                      || in_range 0 5 a && is_digit b)
          is_digit.

(** A literal character of the format; [alt] is its other case. *)
Definition p_lit (c alt : ascii) : parser unit := fun s =>
  match s with
  | String a rest =>
      if Ascii.eqb a c || Ascii.eqb a alt then Some (tt, rest) else None
  | EmptyString => None
  end.

Definition p_bind {A B} (p : parser A) (f : A -> parser B) : parser B :=
  fun s => match p s with
           | Some (a, rest) => f a rest
           | None => None
           end.

(** The fields of a string that matches the whole format. *)
Definition match_format : string -> option datetime :=
  fun s =>
  match
    p_bind p_year (fun y =>
    p_bind (p_lit "-" "-") (fun _ =>
    p_bind p_month (fun m =>
    p_bind (p_lit "-" "-") (fun _ =>
    p_bind p_day (fun d =>
    p_bind (p_lit "T" "t") (fun _ =>
    p_bind p_hour (fun h =>
    p_bind (p_lit ":" ":") (fun _ =>
    p_bind p_minute (fun mi =>
    p_bind (p_lit ":" ":") (fun _ =>
    p_bind p_second (fun sec =>
    p_bind (p_lit "Z" "z") (fun _ rest =>
      Some ({| year := y; month := m; day := d;
               hour := h; minute := mi; second := sec |}, rest)))))))))))))
    s
  with
  | Some (dt, EmptyString) => Some dt
  | _ => None
  end.

Definition is_leap (y : Z) : bool :=
  (y mod 4 =? 0) && (negb (y mod 100 =? 0) || (y mod 400 =? 0)).

Definition days_in_month (y m : Z) : Z :=
  if m =? 2 then (if is_leap y then 29 else 28)
  else if (m =? 4) || (m =? 6) || (m =? 9) || (m =? 11) then 30
  else 31.

(** The checks of the [datetime] constructor. *)
Definition valid_datetime (dt : datetime) : bool :=
  (1 <=? year dt) && (year dt <=? 9999)
  && (1 <=? month dt) && (month dt <=? 12)
  && (1 <=? day dt) && (day dt <=? days_in_month (year dt) (month dt))
  && (0 <=? hour dt) && (hour dt <=? 23)
  && (0 <=? minute dt) && (minute dt <=? 59)
  && (0 <=? second dt) && (second dt <=? 59).

(** On a string: the parsed value, or [None] where CPython raises
    [ValueError]. *)
Definition strptime_str (s : string) : option datetime :=
  match match_format s with
  | Some dt => if valid_datetime dt then Some dt else None
  | None => None
  end.

(** On any value: a value that is not a string raises [TypeError]. *)
Definition strptime (v : pyval) : result datetime :=
  match v with
  | PStr s =>
      match strptime_str s with
      | Some dt => Ok dt
      | None => Raise ValueError
      end
  | _ => Raise TypeError
  end.

(** [n] printed with at least [width] digits, padded with zeros. *)
Definition zero_pad (width : nat) (n : Z) : string :=
  let s := str_of_int n in
  String.concat "" (replicate (width - String.length s) "0") +:+ s.

(** [d.strftime("%Y-%m-%d")]; the year is at least 1, and for years below
    1000 the zero padding shown here is the one of platforms whose C
    library pads [%Y]. *)
Definition strftime_ymd (dt : datetime) : string :=
  zero_pad 4 (year dt) +:+ "-" +:+ zero_pad 2 (month dt) +:+ "-"
  +:+ zero_pad 2 (day dt).

End Py.
Export Py.

(* ===================================================================== *)
(** * Effects: the network, the file system, the console *)
(* ===================================================================== *)

(** What the script looks at in a [requests.Response]. *)
Record response : Type := {
  status_code : Z;
  links_next : bool;        (* ["next" in response.links] *)
  json : option pyval       (* [response.json()]; [None] when it raises *)
}.

(** What a call of [session.get] can come back with. *)
Inductive reply : Type :=
| ConnFail                  (* the call itself raises *)
| Reply (r : response).

Inductive event : Type :=
| Get (url : string)
| Sleep (secs : Z)
| Print (msg : string)
| Makedirs (path : string)
| WriteFile (path : string).

(** The world of a run: the replies the network will give, in the order
    of the calls; the files written so far; what has been done so far. *)
Record world : Type := {
  replies : list reply;
  files : gmap string string;
  trace : list event
}.

(** A run returns, raises, or is still waiting for a reply when the
    scripted replies are used up. *)
Inductive outcome (A : Type) : Type :=
| Done (a : A) (w : world)
| Raised (e : exn) (w : world)
| Starved (w : world).
Arguments Done {A} a w.
Arguments Raised {A} e w.
Arguments Starved {A} w.

Definition final_world {A} (o : outcome A) : world :=
  match o with
  | Done _ w => w
  | Raised _ w => w
  | Starved w => w
  end.

Definition M (A : Type) : Type := world -> outcome A.

#[export] Instance M_ret : MRet M := fun A a w => Done a w.
#[export] Instance M_bind : MBind M := fun A B f m w =>
  match m w with
  | Done a w' => f a w'
  | Raised e w' => Raised e w'
  | Starved w' => Starved w'
  end.

Definition lift {A} (r : result A) : M A := fun w =>
  match r with
  | Ok a => Done a w
  | Raise e => Raised e w
  end.

Definition emit (e : event) : M unit := fun w =>
  Done tt {| replies := replies w; files := files w;
             trace := trace w ++ [e] |}.

(** [session.get(url)] *)
Definition session_get (url : string) : M response := fun w =>
  let tr := trace w ++ [Get url] in
  match replies w with
  | [] => Starved {| replies := []; files := files w; trace := tr |}
  | ConnFail :: rest =>
      Raised ConnectionError {| replies := rest; files := files w; trace := tr |}
  | Reply r :: rest =>
      Done r {| replies := rest; files := files w; trace := tr |}
  end.

(** [with open(path, "w") as f: f.write(content)] *)
Definition write_file (path content : string) : M unit := fun w =>
  Done tt {| replies := replies w; files := <[path := content]> (files w);
             trace := trace w ++ [WriteFile path] |}.

(** [for x in xs: ...] over a state threaded through the body. *)
Fixpoint for_each {A S} (xs : list A) (body : A -> S -> M S) (s : S) : M S :=
  match xs with
  | [] => mret s
  | x :: rest => s' ← body x s; for_each rest body s'
  end.

(* ===================================================================== *)
(** * The program *)
(* ===================================================================== *)

Definition GITHUB_USERNAME : string := "adiati98".
Definition SINCE_YEAR : Z := 2019.
Definition BASE_URL : string := "https://api.github.com".

Definition nl : string := String newline EmptyString.

(** The four categories, the fixed keys of [contributions] and of every
    bucket of [grouped]. *)
Inductive category : Type := PullRequests | Issues | TriagedIssues | ReviewedPrs.

Definition category_name (c : category) : string :=
  match c with
  | PullRequests => "pullRequests"
  | Issues => "issues"
  | TriagedIssues => "triagedIssues"
  | ReviewedPrs => "reviewedPrs"
  end.

Definition category_of_name (name : string) : option category :=
  if String.eqb name "pullRequests" then Some PullRequests
  else if String.eqb name "issues" then Some Issues
  else if String.eqb name "triagedIssues" then Some TriagedIssues
  else if String.eqb name "reviewedPrs" then Some ReviewedPrs
  else None.

(** A dict with exactly the four category keys, each holding a list. *)
Record contribution_set : Type := {
  pullRequests : list pyval;
  issues : list pyval;
  triagedIssues : list pyval;
  reviewedPrs : list pyval
}.

Definition empty_set : contribution_set :=
  {| pullRequests := []; issues := []; triagedIssues := []; reviewedPrs := [] |}.

(** [data[c]] *)
Definition section_items (c : category) (data : contribution_set) : list pyval :=
  match c with
  | PullRequests => pullRequests data
  | Issues => issues data
  | TriagedIssues => triagedIssues data
  | ReviewedPrs => reviewedPrs data
  end.

(** [data[c].append(item)] *)
Definition append_to (c : category) (item : pyval) (data : contribution_set)
  : contribution_set :=
  match c with
  | PullRequests =>
      {| pullRequests := pullRequests data ++ [item]; issues := issues data;
         triagedIssues := triagedIssues data; reviewedPrs := reviewedPrs data |}
  | Issues =>
      {| pullRequests := pullRequests data; issues := issues data ++ [item];
         triagedIssues := triagedIssues data; reviewedPrs := reviewedPrs data |}
  | TriagedIssues =>
      {| pullRequests := pullRequests data; issues := issues data;
         triagedIssues := triagedIssues data ++ [item];
         reviewedPrs := reviewedPrs data |}
  | ReviewedPrs =>
      {| pullRequests := pullRequests data; issues := issues data;
         triagedIssues := triagedIssues data;
         reviewedPrs := reviewedPrs data ++ [item] |}
  end.

(** [contributions.items()], in insertion order. *)
Definition set_items (data : contribution_set) : list (string * list pyval) :=
  [("pullRequests", pullRequests data); ("issues", issues data);
   ("triagedIssues", triagedIssues data); ("reviewedPrs", reviewedPrs data)].

(** ** [get_all_pages] *)

(** [response.raise_for_status()] raises for 4xx and 5xx. *)
Definition raises_for_status (r : response) : bool :=
  (400 <=? status_code r) && (status_code r <? 600).

Definition response_json (r : response) : result pyval :=
  match json r with
  | Some data => Ok data
  | None => Raise JSONDecodeError
  end.

(** What [results.extend(response.json()["items"])] appends. *)
Definition page_items (r : response) : result (list pyval) :=
  data ← response_json r;
  items ← py_getitem data "items";
  py_iter items.

Definition search_url (query : string) (page : Z) : string :=
  BASE_URL +:+ "/search/issues?q=" +:+ query +:+ "&per_page=100&page="
  +:+ str_of_int page.

Definition rate_limit_events : list event :=
  [Print "Rate limit hit. Waiting for 60 seconds..."; Sleep 60].

(** The [while True] loop.  Every iteration calls [session.get] once, so
    the loop is written by recursion on the replies still to come; [fs],
    [tr], [results] and [page] are the state at the top of an iteration. *)
Fixpoint get_all_pages_loop (query : string) (script : list reply)
    (fs : gmap string string) (tr : list event)
    (results : list pyval) (page : Z) : outcome (list pyval) :=
  let tr := tr ++ [Get (search_url query page)] in
  match script with
  | [] => Starved {| replies := []; files := fs; trace := tr |}
  | ConnFail :: rest =>
      Raised ConnectionError {| replies := rest; files := fs; trace := tr |}
  | Reply response :: rest =>
      if raises_for_status response then
        if status_code response =? 403 then
          get_all_pages_loop query rest fs (tr ++ rate_limit_events)
                             results page
        else
          Raised (HTTPError (status_code response))
                 {| replies := rest; files := fs; trace := tr |}
      else
        match page_items response with
        | Raise e => Raised e {| replies := rest; files := fs; trace := tr |}
        | Ok items =>
            let results := results ++ items in
            if links_next response then
              get_all_pages_loop query rest fs tr results (page + 1)
            else
              Done results {| replies := rest; files := fs; trace := tr |}
        end
  end.

Definition get_all_pages (query : string) : M (list pyval) := fun w =>
  get_all_pages_loop query (replies w) (files w) (trace w) [] 1.

Section Program.

(** Library functions the script calls and this development leaves open:
    [str(v)] as applied by an f-string to a value, [str(e)] for an
    exception, and [urlparse(u).path] ([None] where [urlparse] raises
    [ValueError]). *)
Variable py_str : pyval -> string.
Variable exn_str : exn -> string.
Variable urlparse_path : string -> option string.

(** ** [fetch_contributions] *)

Definition NO_DESCRIPTION : pyval := PStr "No description provided.".

(** [urlparse(item["repository_url"]).path.split("/")] *)
Definition repo_parts (item : pyval) : result (list string) :=
  u ← py_getitem item "repository_url";
  match u with
  | PStr s =>
      match urlparse_path s with
      | Some path => Ok (py_split "/" path)
      | None => Raise ValueError
      end
  | _ => Raise (if truthy u then AttributeError else TypeError)
  end.

Definition pull_url (owner repo_name : string) (number : pyval) : string :=
  BASE_URL +:+ "/repos/" +:+ owner +:+ "/" +:+ repo_name +:+ "/pulls/"
  +:+ py_str number.

(** The record built from the detail payload of a merged pull request. *)
Definition pr_record (repo_name : string) (pr_data : pyval) : result pyval :=
  title ← py_getitem pr_data "title";
  html_url ← py_getitem pr_data "html_url";
  body ← py_getitem pr_data "body";
  merged_at ← py_getitem pr_data "merged_at";
  Ok (PDict [("title", title); ("url", html_url); ("repo", PStr repo_name);
             ("description", py_or body NO_DESCRIPTION);
             ("merged_at", merged_at)]).

(** The record built from a search item; [date_key] is the record's
    timestamp key and [date_field] the field of the item it is read from. *)
Definition search_record (date_key date_field : string) (item : pyval)
  : result pyval :=
  title ← py_getitem item "title";
  html_url ← py_getitem item "html_url";
  parts ← repo_parts item;
  repo ← last_item parts;
  body ← py_getitem item "body";
  date ← py_getitem item date_field;
  Ok (PDict [("title", title); ("url", html_url); ("repo", PStr repo);
             ("description", py_or body NO_DESCRIPTION);
             (date_key, date)]).

Definition issue_record : pyval -> result pyval :=
  search_record "created_at" "created_at".
Definition reviewed_record : pyval -> result pyval :=
  search_record "reviewed_at" "updated_at".
Definition triaged_record : pyval -> result pyval :=
  search_record "triaged_at" "updated_at".

(** The body of [for pr in prs]. *)
Definition fetch_pr (pr : pyval) (contributions : contribution_set)
  : M contribution_set :=
  parts ← lift (repo_parts pr);
  owner ← lift (second_last_item parts);
  repo_name ← lift (last_item parts);
  number ← lift (py_getitem pr "number");
  pr_details ← session_get (pull_url owner repo_name number);
  if status_code pr_details =? 200 then
    pr_data ← lift (response_json pr_details);
    record ← lift (pr_record repo_name pr_data);
    mret (append_to PullRequests record contributions)
  else
    html_url ← lift (py_getitem pr "html_url");
    _ ← emit (Print ("Could not fetch details for " +:+ py_str html_url));
    mret contributions.

(** The body of the three loops that use the search payload directly. *)
Definition add_record (c : category) (normalise : pyval -> result pyval)
    (item : pyval) (contributions : contribution_set) : M contribution_set :=
  record ← lift (normalise item);
  mret (append_to c record contributions).

Definition merged_query (year_start year_end : string) : string :=
  "is:pr author:" +:+ GITHUB_USERNAME +:+ " is:merged merged:>=" +:+ year_start
  +:+ " merged:<" +:+ year_end.
Definition created_query (year_start year_end : string) : string :=
  "is:issue author:" +:+ GITHUB_USERNAME +:+ " created:>=" +:+ year_start
  +:+ " created:<" +:+ year_end.
Definition reviewed_query (year_start year_end : string) : string :=
  "is:pr reviewed-by:" +:+ GITHUB_USERNAME +:+ " reviewed:>=" +:+ year_start
  +:+ " reviewed:<" +:+ year_end.
Definition assigned_query (year_start year_end : string) : string :=
  "is:issue assignee:" +:+ GITHUB_USERNAME +:+ " created:>=" +:+ year_start
  +:+ " created:<" +:+ year_end.

(** The body of [for year in range(SINCE_YEAR, current_year + 1)]. *)
Definition fetch_year (year : Z) (contributions : contribution_set)
  : M contribution_set :=
  _ ← emit (Print ("Fetching contributions for year: " +:+ str_of_int year
                   +:+ "..."));
  let year_start := str_of_int year +:+ "-01-01T00:00:00Z" in
  let year_end := str_of_int (year + 1) +:+ "-01-01T00:00:00Z" in
  prs ← get_all_pages (merged_query year_start year_end);
  contributions ← for_each prs fetch_pr contributions;
  issues ← get_all_pages (created_query year_start year_end);
  contributions ← for_each issues (add_record Issues issue_record) contributions;
  reviewed_prs ← get_all_pages (reviewed_query year_start year_end);
  contributions ← for_each reviewed_prs (add_record ReviewedPrs reviewed_record)
                           contributions;
  triaged_issues ← get_all_pages (assigned_query year_start year_end);
  for_each triaged_issues (add_record TriagedIssues triaged_record) contributions.

(** [range(lo, hi)] *)
Definition py_range (lo hi : Z) : list Z :=
  (fun i => lo + Z.of_nat i) <$> seq 0 (Z.to_nat (hi - lo)).

(** [token] is the value of [GITHUB_TOKEN] in the environment, if set;
    [current_year] is [datetime.datetime.now().year]. *)
Definition fetch_contributions (token : option string) (current_year : Z)
  : M contribution_set :=
  match token with
  | None | Some EmptyString => lift (Raise ValueError)
  | Some _ =>
      for_each (py_range SINCE_YEAR (current_year + 1)) fetch_year empty_set
  end.

(** ** [group_contributions_by_quarter] *)

(** [item.get("merged_at") or item.get("created_at")
     or item.get("reviewed_at") or item.get("triaged_at")] *)
Definition date_str_of (item : pyval) : result pyval :=
  merged_at ← py_get item "merged_at";
  if truthy merged_at then Ok merged_at else
  created_at ← py_get item "created_at";
  if truthy created_at then Ok created_at else
  reviewed_at ← py_get item "reviewed_at";
  if truthy reviewed_at then Ok reviewed_at else
  py_get item "triaged_at".

(** [f"{year}-{quarter}"] with [quarter = f"Q{(month - 1) // 3 + 1}"] *)
Definition quarter_key (date_obj : datetime) : string :=
  let quarter := "Q" +:+ str_of_int ((month date_obj - 1) / 3 + 1) in
  str_of_int (year date_obj) +:+ "-" +:+ quarter.

(** The key an item is filed under; [None] when the loop skips the item
    with [continue]. *)
Definition item_key (item : pyval) : result (option string) :=
  date_str ← date_str_of item;
  if negb (truthy date_str) then Ok None else
  date_obj ← strptime date_str;
  Ok (Some (quarter_key date_obj)).

(** [grouped[key][type_name].append(item)] on one bucket. *)
Definition bucket_append (type_name : string) (item : pyval)
    (data : contribution_set) : result contribution_set :=
  match category_of_name type_name with
  | Some c => Ok (append_to c item data)
  | None => Raise (KeyError type_name)
  end.

(** The body of [for item in items]; [grouped] is an insertion-ordered
    dict from quarter keys to buckets. *)
Definition group_item (type_name : string) (item : pyval)
    (grouped : list (string * contribution_set))
  : result (list (string * contribution_set)) :=
  k ← item_key item;
  match k with
  | None => Ok grouped
  | Some key =>
      let grouped :=
        if dict_mem key grouped then grouped
        else dict_set key empty_set grouped in
      match dict_get key grouped with
      | Some data =>
          data ← bucket_append type_name item data;
          Ok (dict_set key data grouped)
      | None => Raise (KeyError key)
      end
  end.

Fixpoint group_items (type_name : string) (items : list pyval)
    (grouped : list (string * contribution_set))
  : result (list (string * contribution_set)) :=
  match items with
  | [] => Ok grouped
  | item :: rest =>
      grouped ← group_item type_name item grouped;
      group_items type_name rest grouped
  end.

Fixpoint group_types (contributions : list (string * list pyval))
    (grouped : list (string * contribution_set))
  : result (list (string * contribution_set)) :=
  match contributions with
  | [] => Ok grouped
  | (type_name, items) :: rest =>
      grouped ← group_items type_name items grouped;
      group_types rest grouped
  end.

Definition group_contributions_by_quarter
    (contributions : list (string * list pyval))
  : result (list (string * contribution_set)) :=
  group_types contributions [].

(** ** [write_markdown_files] *)

Definition starts_with (c : ascii) (s : string) : bool :=
  match s with
  | String a _ => Ascii.eqb a c
  | EmptyString => false
  end.

Fixpoint ends_with (c : ascii) (s : string) : bool :=
  match s with
  | EmptyString => false
  | String a EmptyString => Ascii.eqb a c
  | String _ rest => ends_with c rest
  end.

(** [os.path.join(a, b)] on a POSIX system. *)
Definition path_join (a b : string) : string :=
  if starts_with "/" b then b
  else if is_empty_string a || ends_with "/" a then a +:+ b
  else a +:+ "/" +:+ b.

(** [any(data[section] for section in data)] *)
Definition has_data (data : contribution_set) : bool :=
  existsb (fun section => negb (is_nil (section_items section data)))
          [PullRequests; Issues; TriagedIssues; ReviewedPrs].

(** The dict [sections], in insertion order. *)
Definition sections : list (category * string) :=
  [(PullRequests, "Pull Requests"); (Issues, "Issues");
   (TriagedIssues, "Triaged Issues"); (ReviewedPrs, "Reviewed PRs")].

(** The description cell: [description.replace("\n", " ")], cut to 100
    characters and marked when longer. *)
Definition render_description (raw : string) : string :=
  let description := replace_newlines raw in
  if (100 <? String.length description)%nat
  then str_take 100 description +:+ "..."
  else description.

(** [v.replace("\n", " ")] exists on strings only. *)
Definition description_text (v : pyval) : result string :=
  match v with
  | PStr raw => Ok (render_description raw)
  | _ => Raise AttributeError
  end.

(** One table row, the body of [for item in items]. *)
Definition render_row (item : pyval) : result string :=
  date_str ← date_str_of item;
  date_obj ← strptime date_str;
  let formatted_date := strftime_ymd date_obj in
  raw ← py_getitem item "description";
  description ← description_text raw;
  repo ← py_getitem item "repo";
  title ← py_getitem item "title";
  url ← py_getitem item "url";
  Ok ("| " +:+ py_str repo +:+ " | [" +:+ py_str title +:+ "]("
      +:+ py_str url +:+ ") | " +:+ description +:+ " | " +:+ formatted_date
      +:+ " |" +:+ nl).

Fixpoint render_rows (items : list pyval) (markdown_content : string)
  : result string :=
  match items with
  | [] => Ok markdown_content
  | item :: rest =>
      row ← render_row item;
      render_rows rest (markdown_content +:+ row)
  end.

Definition section_heading (title : string) : string :=
  "## " +:+ title +:+ nl +:+ nl.

(** The body of [for section, title in sections.items()]. *)
Definition render_section (data : contribution_set)
    (section : category) (title : string) (markdown_content : string)
  : result string :=
  let items := section_items section data in
  let markdown_content := markdown_content +:+ section_heading title in
  if is_nil items then
    Ok (markdown_content +:+ "No contributions found for this section."
        +:+ nl +:+ nl)
  else
    let markdown_content :=
      markdown_content +:+ "| Project Name | Link | Description | Date |"
      +:+ nl in
    let markdown_content := markdown_content +:+ "|---|---|---|---|" +:+ nl in
    markdown_content ← render_rows items markdown_content;
    Ok (markdown_content +:+ nl).

Fixpoint render_sections (data : contribution_set)
    (secs : list (category * string)) (markdown_content : string)
  : result string :=
  match secs with
  | [] => Ok markdown_content
  | (section, title) :: rest =>
      markdown_content ← render_section data section title markdown_content;
      render_sections data rest markdown_content
  end.

Definition render_document (year quarter : string) (data : contribution_set)
  : result string :=
  render_sections data sections
    ("# Contributions - " +:+ quarter +:+ " " +:+ year +:+ nl +:+ nl).

Definition base_dir : string := "contributions".

(** The body of [for key, data in grouped_contributions.items()].  The
    file system is taken to accept every [makedirs] and every write. *)
Definition write_bucket (entry : string * contribution_set) (_ : unit)
  : M unit :=
  let '(key, data) := entry in
  match py_split "-" key with
  | [year; quarter] =>
      let year_dir := path_join base_dir year in
      _ ← emit (Makedirs year_dir);
      let file_path := path_join year_dir (quarter +:+ "-" +:+ year +:+ ".md") in
      if negb (has_data data) then
        emit (Print ("Skipping empty quarter: " +:+ key))
      else
        markdown_content ← lift (render_document year quarter data);
        _ ← write_file file_path markdown_content;
        emit (Print ("Written file: " +:+ file_path))
  | _ => lift (Raise ValueError)
  end.

Definition write_markdown_files (grouped : list (string * contribution_set))
  : M unit :=
  _ ← emit (Makedirs base_dir);
  for_each grouped write_bucket tt.

(** ** [main] *)

(** The three steps inside [try]. *)
Definition main_body (token : option string) (current_year : Z) : M unit :=
  contributions ← fetch_contributions token current_year;
  grouped ← lift (group_contributions_by_quarter (set_items contributions));
  _ ← write_markdown_files grouped;
  emit (Print "Contributions update completed successfully.").

(** The exit status of the process. *)
Definition main (token : option string) (current_year : Z) : M Z := fun w =>
  match main_body token current_year w with
  | Done _ w' => Done 0 w'
  | Raised e w' =>
      (_ ← emit (Print ("Failed to update contributions: " +:+ exn_str e));
       mret 1) w'
  | Starved w' => Starved w'
  end.

End Program.

(* ===================================================================== *)
(** * Vocabulary of the statements *)
(* ===================================================================== *)

(** A page the loop of [get_all_pages] accepts: no HTTP error status, and
    a payload whose ["items"] can be appended. *)
Definition successful (r : response) : Prop :=
  raises_for_status r = false /\ exists items, page_items r = Ok items.

(** The items of a page. *)
Definition items_of (r : response) : list pyval :=
  match page_items r with
  | Ok items => items
  | Raise _ => []
  end.

(** The requests for [n] pages in a row, from page [first] on. *)
Definition page_requests (query : string) (first : Z) (n : nat) : list event :=
  (fun i => Get (search_url query (first + Z.of_nat i))) <$> seq 0 n.

(** What one rate-limited attempt at [page] leaves in the trace. *)
Definition rate_limited_attempt (query : string) (page : Z) : list event :=
  Get (search_url query page) :: rate_limit_events.

(** Sample replies used to exercise the statements. *)
Definition sample_page (items : list pyval) (next : bool) : response :=
  {| status_code := 200; links_next := next;
     json := Some (PDict [("total_count", PInt 3);
                          ("incomplete_results", PBool false);
                          ("items", PList items)]) |}.

Definition sample_error (status : Z) : response :=
  {| status_code := status; links_next := false;
     json := Some (PDict [("message", PStr "error")]) |}.

Definition sample_world (script : list reply) : world :=
  {| replies := script; files := ∅; trace := [] |}.

(** Stand-ins for the library functions left open, for use on sample
    inputs: [str] on scalars, the path of a URL of the form
    scheme://host/path, and the name of an exception. *)
Definition sample_py_str (v : pyval) : string :=
  match v with
  | PStr s => s
  | PInt z => str_of_int z
  | PNone => "None"
  | PBool true => "True"
  | PBool false => "False"
  | PList _ => "[...]"
  | PDict _ => "{...}"
  end.

Fixpoint from_first_slash (s : string) : string :=
  match s with
  | EmptyString => EmptyString
  | String c rest => if Ascii.eqb c "/" then s else from_first_slash rest
  end.

Fixpoint after_double_slash (s : string) : option string :=
  match s with
  | String a ((String b rest) as tail) =>
      if Ascii.eqb a "/" && Ascii.eqb b "/" then Some rest
      else after_double_slash tail
  | _ => None
  end.

Definition sample_urlparse_path (u : string) : option string :=
  match after_double_slash u with
  | Some rest => Some (from_first_slash rest)
  | None => Some u
  end.

Definition sample_exn_str (e : exn) : string :=
  match e with
  | HTTPError status => str_of_int status +:+ " Error"
  | ConnectionError => "connection failed"
  | JSONDecodeError => "invalid JSON"
  | KeyError k => k
  | IndexError => "list index out of range"
  | TypeError => "type error"
  | AttributeError => "attribute error"
  | ValueError => "value error"
  end.

Definition sample_issue : pyval :=
  PDict [("title", PStr "Crash on start");
         ("html_url", PStr "https://github.com/octo/hello/issues/7");
         ("repository_url", PStr "https://api.github.com/repos/octo/hello");
         ("number", PInt 7);
         ("body", PNone);
         ("created_at", PStr "2023-05-11T08:30:00Z");
         ("updated_at", PStr "2023-06-01T10:00:00Z")].

Definition sample_issue_record : pyval :=
  PDict [("title", PStr "Crash on start");
         ("url", PStr "https://github.com/octo/hello/issues/7");
         ("repo", PStr "hello");
         ("description", PStr "No description provided.");
         ("created_at", PStr "2023-05-11T08:30:00Z")].

Definition sample_pr (number : Z) : pyval :=
  PDict [("title", PStr "Fix typo");
         ("html_url",
          PStr ("https://github.com/octo/hello/pull/" +:+ str_of_int number));
         ("repository_url", PStr "https://api.github.com/repos/octo/hello");
         ("number", PInt number);
         ("body", PStr "as listed by the search")].

Definition sample_pr_details : response :=
  {| status_code := 200; links_next := false;
     json := Some (PDict [("title", PStr "Fix typo");
                          ("html_url",
                           PStr "https://github.com/octo/hello/pull/12");
                          ("body", PStr "");
                          ("merged_at", PStr "2023-05-10T12:00:00Z")]) |}.

Definition sample_pr_record : pyval :=
  PDict [("title", PStr "Fix typo");
         ("url", PStr "https://github.com/octo/hello/pull/12");
         ("repo", PStr "hello");
         ("description", PStr "No description provided.");
         ("merged_at", PStr "2023-05-10T12:00:00Z")].

Section Lookup.
Variable py_str : pyval -> string.
Variable urlparse_path : string -> option string.

(** The search item [pr] names the pull request [number] of the
    repository [owner]/[repo_name]. *)
Definition locates (pr : pyval) (owner repo_name : string) (number : pyval)
  : Prop :=
  exists parts,
    repo_parts urlparse_path pr = Ok parts
    /\ second_last_item parts = Ok owner
    /\ last_item parts = Ok repo_name
    /\ py_getitem pr "number" = Ok number.

(** The detail lookup of [pr] answered by [r]: the records it adds and
    the events it leaves.  With status 200 the payload gives one record;
    with any other status it gives none and a diagnostic is printed. *)
Inductive lookup (pr : pyval) (r : response)
  : list pyval -> list event -> Prop :=
| lookup_found owner repo_name number pr_data title html_url body merged_at :
    locates pr owner repo_name number ->
    status_code r = 200 ->
    json r = Some pr_data ->
    py_getitem pr_data "title" = Ok title ->
    py_getitem pr_data "html_url" = Ok html_url ->
    py_getitem pr_data "body" = Ok body ->
    py_getitem pr_data "merged_at" = Ok merged_at ->
    lookup pr r
      [PDict [("title", title); ("url", html_url); ("repo", PStr repo_name);
              ("description", py_or body (PStr "No description provided."));
              ("merged_at", merged_at)]]
      [Get (pull_url py_str owner repo_name number)]
| lookup_missed owner repo_name number html_url :
    locates pr owner repo_name number ->
    status_code r <> 200 ->
    py_getitem pr "html_url" = Ok html_url ->
    lookup pr r []
      [Get (pull_url py_str owner repo_name number);
       Print ("Could not fetch details for " +:+ py_str html_url)].

End Lookup.

#[export] Instance category_eq_dec : EqDecision category.
Proof. solve_decision. Defined.

(** [type_name] is the key of category [c]. *)
Definition named (c : category) (type_name : string) : bool :=
  match category_of_name type_name with
  | Some c' => bool_decide (c' = c)
  | None => false
  end.

(** The input records of category [c], in the order the loops visit them. *)
Definition records_of (c : category)
    (contributions : list (string * list pyval)) : list pyval :=
  flat_map (fun entry => if named c entry.1 then entry.2 else [])
           contributions.

(** The (type name, item) pairs in the order the two loops visit them. *)
Definition entries (contributions : list (string * list pyval))
  : list (string * pyval) :=
  flat_map (fun entry => (fun item => (entry.1, item)) <$> entry.2)
           contributions.

(** [item] has a timestamp that parses, with quarter key [key]. *)
Definition key_is (key : string) (item : pyval) : bool :=
  match item_key item with
  | Ok (Some k) => String.eqb k key
  | _ => false
  end.

(** [item] has a timestamp that parses. *)
Definition has_timestamp (item : pyval) : bool :=
  match item_key item with
  | Ok (Some _) => true
  | _ => false
  end.

(** The list of category [c] in the bucket of [key]; empty when there
    is no such bucket. *)
Definition bucket_items (c : category) (key : string)
    (grouped : list (string * contribution_set)) : list pyval :=
  section_items c (default empty_set (dict_get key grouped)).

(** The lists of category [c] of all buckets, one after the other. *)
Definition all_items (c : category)
    (grouped : list (string * contribution_set)) : list pyval :=
  flat_map (fun entry => section_items c entry.2) grouped.

(** The notice of the renderer's branch for an empty bucket. *)
Definition is_skip_notice (e : event) : Prop :=
  exists key, e = Print ("Skipping empty quarter: " +:+ key).

(** A record the renderer can turn into a row: a dict with a description
    that is a string, a repository, a title, a URL, and a timestamp that
    parses. *)
Definition is_record (item : pyval) : bool :=
  match item with
  | PDict d =>
      match date_str_of item with
      | Ok (PStr s) =>
          match strptime_str s with Some _ => true | None => false end
      | _ => false
      end
      && match dict_get "description" d with
         | Some (PStr _) => true
         | _ => false
         end
      && dict_mem "repo" d && dict_mem "title" d && dict_mem "url" d
  | _ => false
  end.

Definition sample_undated_record : pyval :=
  PDict [("title", PStr "Draft");
         ("url", PStr "https://github.com/octo/hello/pull/14");
         ("repo", PStr "hello");
         ("description", PStr "No description provided.");
         ("merged_at", PNone)].

Definition sample_contributions : list (string * list pyval) :=
  [("pullRequests", [sample_pr_record; sample_undated_record]);
   ("issues", [sample_issue_record]);
   ("triagedIssues", []);
   ("reviewedPrs", [])].

Definition sample_grouped : list (string * contribution_set) :=
  [("2023-Q2",
    {| pullRequests := [sample_pr_record]; issues := [sample_issue_record];
       triagedIssues := []; reviewedPrs := [] |})].

(** [c] occurs in [s]; [s] is made of decimal digits only. *)
Fixpoint contains (c : ascii) (s : string) : bool :=
  match s with
  | EmptyString => false
  | String a rest => Ascii.eqb a c || contains c rest
  end.

Fixpoint all_digits (s : string) : bool :=
  match s with
  | EmptyString => true
  | String a rest => is_digit a && all_digits rest
  end.

(** The first line of a report. *)
Definition title_line (year quarter : string) : string :=
  "# Contributions - " +:+ quarter +:+ " " +:+ year +:+ nl +:+ nl.

(** A description of 105 characters, with a newline at position 100. *)
Definition sample_long_description : string :=
  "0123456789012345678901234567890123456789012345678901234567890123456789"
  +:+ "012345678901234567890123456789" +:+ nl +:+ "tail".

(** A page without items and without a next link. *)
Definition empty_page (r : response) : Prop :=
  successful r /\ links_next r = false /\ items_of r = [].

(** What a year leaves in the trace when each of its four searches is
    answered by one page and no detail lookup is made. *)
Definition year_events (year : Z) : list event :=
  let year_start := str_of_int year +:+ "-01-01T00:00:00Z" in
  let year_end := str_of_int (year + 1) +:+ "-01-01T00:00:00Z" in
  [Print ("Fetching contributions for year: " +:+ str_of_int year +:+ "...");
   Get (search_url (merged_query year_start year_end) 1);
   Get (search_url (created_query year_start year_end) 1);
   Get (search_url (reviewed_query year_start year_end) 1);
   Get (search_url (assigned_query year_start year_end) 1)].

(** A computation that leaves the files as they are, however it ends. *)
Definition keeps_files {A} (m : M A) : Prop :=
  forall w, files (final_world (m w)) = files w.

(** The quarter key a timestamp value leads to: none for a value Python
    counts as false, the key of the parsed date otherwise. *)
Definition key_from (v : pyval) : result (option string) :=
  if truthy v then dt ← strptime v; Ok (Some (quarter_key dt)) else Ok None.

(** The timestamp key of the records of a category. *)
Definition timestamp_key (c : category) : string :=
  match c with
  | PullRequests => "merged_at"
  | Issues => "created_at"
  | ReviewedPrs => "reviewed_at"
  | TriagedIssues => "triaged_at"
  end.

(** A record as the collection builds it: five keys in a fixed order, the
    repository name a string, the description a value that counts as
    true. *)
Definition record_shape (ts_key : string) (record : pyval) : Prop :=
  exists title url repo description ts,
    record = PDict [("title", title); ("url", url); ("repo", PStr repo);
                    ("description", description); (ts_key, ts)]
    /\ truthy description = true.

(** Every list of the set holds records of its category's shape. *)
Definition well_shaped (c : contribution_set) : Prop :=
  forall cat, Forall (record_shape (timestamp_key cat)) (section_items cat c).

(** A reply with status 403, the one kind the page loop answers by
    waiting and asking again. *)
Definition rate_limited (rp : reply) : bool :=
  match rp with
  | Reply r => status_code r =? 403
  | ConnFail => false
  end.

Definition without_rate_limits (script : list reply) : list reply :=
  List.filter (fun rp => negb (rate_limited rp)) script.

(** Two runs end the same way: with the same value or the same exception,
    the second having left of the replies what the first has left, minus
    the rate-limited ones. *)
Definition same_ending {A} (o1 o2 : outcome A) : Prop :=
  match o1, o2 with
  | Done a1 w1, Done a2 w2 =>
      a1 = a2 /\ replies w2 = without_rate_limits (replies w1)
  | Raised e1 w1, Raised e2 w2 =>
      e1 = e2 /\ replies w2 = without_rate_limits (replies w1)
  | Starved _, Starved _ => True
  | _, _ => False
  end.

(** The path [write_markdown_files] derives from a bucket's key; [None]
    for a key that does not split in two at the dash. *)
Definition bucket_path (key : string) : option string :=
  match py_split "-" key with
  | [year; quarter] =>
      Some (path_join (path_join base_dir year)
                      (quarter +:+ "-" +:+ year +:+ ".md"))
  | _ => None
  end.

(** The document [write_markdown_files] builds for a bucket. *)
Definition bucket_document (py_str : pyval -> string) (key : string)
    (data : contribution_set) : result string :=
  match py_split "-" key with
  | [year; quarter] => render_document py_str year quarter data
  | _ => Raise ValueError
  end.

(** A bucket the renderer turns into a report. *)
Definition writable (py_str : pyval -> string)
    (entry : string * contribution_set) : Prop :=
  has_data entry.2 = true
  /\ exists path content,
       bucket_path entry.1 = Some path
       /\ bucket_document py_str entry.1 entry.2 = Ok content.

(** A bucket with a record that has no description. *)
Definition sample_bad_bucket : contribution_set :=
  {| pullRequests := [PDict [("title", PStr "Rename");
                             ("url", PStr "https://github.com/octo/hello/pull/20");
                             ("repo", PStr "hello");
                             ("merged_at", PStr "2023-08-01T09:00:00Z")]];
     issues := []; triagedIssues := []; reviewedPrs := [] |}.

(** The ten digits. *)
Definition digit_chars : list ascii :=
  ["0"; "1"; "2"; "3"; "4"; "5"; "6"; "7"; "8"; "9"]%char.

(** [c'] holds what [c] holds and, after it, possibly more, in every
    category. *)
Definition extends (c c' : contribution_set) : Prop :=
  forall cat, exists added,
    section_items cat c' = section_items cat c ++ added.

(** [c] with [records] appended to its list of category [cat]. *)
Definition with_added (cat : category) (records : list pyval)
    (c : contribution_set) : contribution_set :=
  match cat with
  | PullRequests =>
      {| pullRequests := pullRequests c ++ records; issues := issues c;
         triagedIssues := triagedIssues c; reviewedPrs := reviewedPrs c |}
  | Issues =>
      {| pullRequests := pullRequests c; issues := issues c ++ records;
         triagedIssues := triagedIssues c; reviewedPrs := reviewedPrs c |}
  | TriagedIssues =>
      {| pullRequests := pullRequests c; issues := issues c;
         triagedIssues := triagedIssues c ++ records;
         reviewedPrs := reviewedPrs c |}
  | ReviewedPrs =>
      {| pullRequests := pullRequests c; issues := issues c;
         triagedIssues := triagedIssues c;
         reviewedPrs := reviewedPrs c ++ records |}
  end.

(** The paths of the files written, in the order of the writes. *)
Definition written_paths (events : list event) : list string :=
  omap (fun ev => match ev with WriteFile path => Some path | _ => None end)
       events.

(** The path of the report the renderer owes a bucket: none for a bucket
    whose lists are all empty. *)
Definition report_of (entry : string * contribution_set) : option string :=
  if has_data entry.2 then bucket_path entry.1 else None.

(** A bucket the renderer gets past: its key gives a path, and if it has
    data its document can be built. *)
Definition reportable (py_str : pyval -> string)
    (entry : string * contribution_set) : Prop :=
  exists path,
    bucket_path entry.1 = Some path
    /\ (has_data entry.2 = true ->
        exists content, bucket_document py_str entry.1 entry.2 = Ok content).

(** A grouping with a bucket without any record before a bucket with
    records, and a world in which the report of the latter exists. *)
Definition sample_mixed_grouping : list (string * contribution_set) :=
  [("2023-Q1", empty_set);
   ("2023-Q2",
    {| pullRequests := [sample_pr_record]; issues := [sample_issue_record];
       triagedIssues := []; reviewedPrs := [] |})].

Definition sample_stale_world : world :=
  {| replies := [];
     files := {[ "contributions/2023/Q2-2023.md" := "stale";
                 "contributions/2022/Q4-2022.md" := "kept" ]};
     trace := [] |}.

(* ===================================================================== *)
(** * Facts about strings and dictionaries *)
(* ===================================================================== *)

Section StringFacts.

Lemma str_app_cons (x : ascii) (a b : string) :
  String x a +:+ b = String x (a +:+ b).
Proof. reflexivity. Qed.

Lemma str_app_nil_l (a : string) : "" +:+ a = a.
Proof. reflexivity. Qed.

Lemma str_app_assoc (a b c : string) : (a +:+ b) +:+ c = a +:+ b +:+ c.
Proof.
  induction a as [|x a IH]; [done|]. by rewrite !str_app_cons, IH.
Qed.

Lemma str_app_nil_r (a : string) : a +:+ "" = a.
Proof.
  induction a as [|x a IH]; [done|]. by rewrite str_app_cons, IH.
Qed.

Lemma str_length_app (a b : string) :
  String.length (a +:+ b) = (String.length a + String.length b)%nat.
Proof.
  induction a as [|x a IH]; [done|]. rewrite str_app_cons. simpl. by rewrite IH.
Qed.

Lemma str_length_map f (s : string) :
  String.length (str_map f s) = String.length s.
Proof. induction s as [|x s IH]; simpl; [done | by rewrite IH]. Qed.

Lemma str_get_map f (s : string) (i : nat) :
  String.get i (str_map f s) = f <$> String.get i s.
Proof.
  revert i. induction s as [|x s IH]; intros [|i]; simpl; auto.
Qed.

Lemma str_length_take (n : nat) (s : string) :
  (n <= String.length s)%nat -> String.length (str_take n s) = n.
Proof.
  revert s. induction n as [|n IH]; intros [|x s]; simpl; try lia.
  intros Hn. rewrite IH; lia.
Qed.

Lemma str_take_all (n : nat) (s : string) :
  (String.length s <= n)%nat -> str_take n s = s.
Proof.
  revert s. induction n as [|n IH]; intros [|x s]; simpl; try done; try lia.
  intros Hn. rewrite IH; [done | lia].
Qed.

End StringFacts.

(* ===================================================================== *)
(** * The description cell *)
(* ===================================================================== *)

(** C4.  For a raw description of more than 100 characters the rendered
    cell has exactly 103 characters: the first 100 characters of the
    description with its newlines replaced, then the marker "...".
    Otherwise the cell is the raw description with every newline replaced
    by a space: the same length, and at every position the raw character,
    or a space where the raw character is a newline.  A table row carries
    exactly this cell between its third and fourth bar. *)
Theorem render_description_spec (py_str : pyval -> string) (raw : string) :
  ((100 < String.length raw)%nat ->
     String.length (render_description raw) = 103%nat
     /\ render_description raw = str_take 100 (replace_newlines raw) +:+ "..."
     /\ String.length (str_take 100 (replace_newlines raw)) = 100%nat)
  /\ ((String.length raw <= 100)%nat ->
        render_description raw = replace_newlines raw)
  /\ String.length (replace_newlines raw) = String.length raw
  /\ (forall i : nat,
        String.get i (replace_newlines raw)
        = (fun c => if Ascii.eqb c newline then space else c)
            <$> String.get i raw)
  /\ (forall item row,
        py_getitem item "description" = Ok (PStr raw) ->
        render_row py_str item = Ok row ->
        exists repo title url date,
          row = "| " +:+ repo +:+ " | [" +:+ title +:+ "](" +:+ url +:+ ") | "
                +:+ render_description raw +:+ " | " +:+ date +:+ " |" +:+ nl).
Proof.
  assert (Hlen : String.length (replace_newlines raw) = String.length raw)
    by apply str_length_map.
  repeat split.
  - unfold render_description. rewrite Hlen.
    destruct (Nat.ltb_spec 100 (String.length raw)); [|lia].
    rewrite str_length_app, str_length_take; simpl; lia.
  - unfold render_description. rewrite Hlen.
    by destruct (Nat.ltb_spec 100 (String.length raw)); [|lia].
  - apply str_length_take. lia.
  - intros Hle. unfold render_description. rewrite Hlen.
    by destruct (Nat.ltb_spec 100 (String.length raw)); [lia|].
  - done.
  - intros i. apply str_get_map.
  - intros item row Hdesc. unfold render_row.
    destruct (date_str_of item) as [date_str|]; simpl; [|done].
    destruct (strptime date_str) as [date_obj|]; simpl; [|done].
    rewrite Hdesc. simpl.
    destruct (py_getitem item "repo") as [repo|]; simpl; [|done].
    destruct (py_getitem item "title") as [title|]; simpl; [|done].
    destruct (py_getitem item "url") as [url|]; simpl; [|done].
    intros [= <-]. by eexists _, _, _, _.
Qed.

Lemma render_description_spec_witness :
  String.length (render_description sample_long_description) = 103%nat
  /\ render_description sample_long_description
     = str_take 100 (replace_newlines sample_long_description) +:+ "..."
  /\ String.length (str_take 100 (replace_newlines sample_long_description))
     = 100%nat.
Proof.
  apply (proj1 (render_description_spec sample_py_str sample_long_description)).
  vm_compute. lia.
Defined.

(* ===================================================================== *)
(** * Quarter keys *)
(* ===================================================================== *)

Section DictFacts.
Context {V : Type}.
Implicit Types (d : list (string * V)) (k : string) (v : V).

Lemma dict_get_set_eq k v d : dict_get k (dict_set k v d) = Some v.
Proof.
  induction d as [|[k' v'] d IH]; simpl.
  - by rewrite String.eqb_refl.
  - destruct (String.eqb_spec k k') as [->|Hne]; simpl.
    + by rewrite String.eqb_refl.
    + by destruct (String.eqb_spec k k').
Qed.

Lemma dict_get_set_ne k k' v d :
  k <> k' -> dict_get k' (dict_set k v d) = dict_get k' d.
Proof.
  intros Hne. induction d as [|[k0 v0] d IH]; simpl.
  - destruct (String.eqb_spec k' k); [congruence | done].
  - destruct (String.eqb_spec k k0) as [->|Hne0]; simpl.
    + by destruct (String.eqb_spec k' k0); [congruence|].
    + by rewrite IH.
Qed.

Lemma dict_set_twice k v v' d :
  dict_set k v' (dict_set k v d) = dict_set k v' d.
Proof.
  induction d as [|[k0 v0] d IH]; simpl.
  - by rewrite String.eqb_refl.
  - destruct (String.eqb_spec k k0) as [->|Hne]; simpl.
    + by rewrite String.eqb_refl.
    + destruct (String.eqb_spec k k0); [done|]. by rewrite IH.
Qed.

Lemma dict_mem_get k d : dict_mem k d = bool_decide (is_Some (dict_get k d)).
Proof.
  unfold dict_mem. destruct (dict_get k d); symmetry.
  - by apply bool_decide_eq_true.
  - apply bool_decide_eq_false. by intros [? ?].
Qed.

End DictFacts.

Lemma strptime_str_valid (s : string) (dt : datetime) :
  strptime_str s = Some dt -> valid_datetime dt = true.
Proof.
  unfold strptime_str. destruct (match_format s) as [dt'|]; [|done].
  destruct (valid_datetime dt') eqn:Hv; [|done]. by intros [= <-].
Qed.

Lemma strptime_str_nonempty (s : string) (dt : datetime) :
  strptime_str s = Some dt -> is_empty_string s = false.
Proof. by destruct s. Qed.

Lemma valid_datetime_month (dt : datetime) :
  valid_datetime dt = true -> 1 <= month dt <= 12.
Proof. unfold valid_datetime. rewrite !andb_true_iff, !Z.leb_le. lia. Qed.

Lemma valid_datetime_year (dt : datetime) :
  valid_datetime dt = true -> 1 <= year dt <= 9999.
Proof. unfold valid_datetime. rewrite !andb_true_iff, !Z.leb_le. lia. Qed.

Lemma item_key_parsed (item : pyval) (s : string) (dt : datetime) :
  date_str_of item = Ok (PStr s) ->
  strptime_str s = Some dt ->
  item_key item = Ok (Some (quarter_key dt)).
Proof.
  intros Hdate Hparse. unfold item_key. rewrite Hdate. simpl.
  rewrite (strptime_str_nonempty _ _ Hparse). simpl. by rewrite Hparse.
Qed.

Lemma group_item_filed (type_name : string) (c : category) (item : pyval)
    (key : string) (grouped : list (string * contribution_set)) :
  item_key item = Ok (Some key) ->
  category_of_name type_name = Some c ->
  group_item type_name item grouped
  = Ok (dict_set key
          (append_to c item (default empty_set (dict_get key grouped)))
          grouped).
Proof.
  intros Hkey Hcat. unfold group_item. rewrite Hkey. simpl.
  unfold dict_mem, bucket_append.
  destruct (dict_get key grouped) as [data|] eqn:Hget; simpl.
  - rewrite Hget, Hcat. done.
  - rewrite dict_get_set_eq, Hcat. simpl. by rewrite dict_set_twice.
Qed.

(** C5.  A record whose timestamp parses is filed under the key
    "<year>-Q<n>" with n = ((month - 1) div 3) + 1, which lies between 1
    and 4: that is the key [item_key] computes for it and the key of the
    bucket [group_item] appends it to.  Records timestamped
    2022-04-15T00:00:00Z, 2022-01-01T00:00:00Z and 2022-12-31T23:59:59Z get
    the keys 2022-Q2, 2022-Q1 and 2022-Q4. *)
Theorem quarter_key_spec (item : pyval) (s : string) (dt : datetime)
    (Hdate : date_str_of item = Ok (PStr s))
    (Hparse : strptime_str s = Some dt) :
  let n := (month dt - 1) / 3 + 1 in
  let key := str_of_int (year dt) +:+ "-Q" +:+ str_of_int n in
  item_key item = Ok (Some key)
  /\ 1 <= n <= 4
  /\ (forall type_name c grouped,
        category_of_name type_name = Some c ->
        exists grouped' data,
          group_item type_name item grouped = Ok grouped'
          /\ dict_get key grouped' = Some data
          /\ last (section_items c data) = Some item)
  /\ (s = "2022-04-15T00:00:00Z" -> key = "2022-Q2")
  /\ (s = "2022-01-01T00:00:00Z" -> key = "2022-Q1")
  /\ (s = "2022-12-31T23:59:59Z" -> key = "2022-Q4").
Proof.
  intros n key.
  assert (Hkey : item_key item = Ok (Some key))
    by exact (item_key_parsed _ _ _ Hdate Hparse).
  split; [done|]. split.
  { pose proof (valid_datetime_month _ (strptime_str_valid _ _ Hparse)).
    subst n. split.
    - assert (0 <= (month dt - 1) / 3) by (apply Z.div_pos; lia). lia.
    - assert ((month dt - 1) / 3 < 4)
        by (apply Z.div_lt_upper_bound; lia). lia. }
  split.
  { intros type_name c grouped Hcat.
    eexists _, _. split; [exact (group_item_filed _ _ _ _ _ Hkey Hcat)|].
    split; [apply dict_get_set_eq|].
    destruct c; simpl; apply last_snoc. }
  repeat split; intros ->; vm_compute in Hparse; injection Hparse as <-;
    reflexivity.
Qed.

(** The three timestamps of C5, each in a record of its own. *)
Lemma quarter_key_spec_witness :
  item_key (PDict [("title", PStr "t"); ("merged_at", PStr "2022-04-15T00:00:00Z")])
    = Ok (Some "2022-Q2")
  /\ item_key (PDict [("created_at", PStr "2022-01-01T00:00:00Z")])
     = Ok (Some "2022-Q1")
  /\ item_key (PDict [("triaged_at", PStr "2022-12-31T23:59:59Z")])
     = Ok (Some "2022-Q4").
Proof.
  split; [|split].
  - exact (proj1 (quarter_key_spec
                    (PDict [("title", PStr "t");
                            ("merged_at", PStr "2022-04-15T00:00:00Z")])
                    "2022-04-15T00:00:00Z" _ eq_refl eq_refl)).
  - exact (proj1 (quarter_key_spec
                    (PDict [("created_at", PStr "2022-01-01T00:00:00Z")])
                    "2022-01-01T00:00:00Z" _ eq_refl eq_refl)).
  - exact (proj1 (quarter_key_spec
                    (PDict [("triaged_at", PStr "2022-12-31T23:59:59Z")])
                    "2022-12-31T23:59:59Z" _ eq_refl eq_refl)).
Defined.

(* ===================================================================== *)
(** * Timestamps during grouping *)
(* ===================================================================== *)

Lemma main_aborts_on_raise py_str exn_str urlparse_path token current_year
    (w w' : world) (e : exn) :
  main_body py_str urlparse_path token current_year w = Raised e w' ->
  main py_str exn_str urlparse_path token current_year w
  = Done 1 {| replies := replies w'; files := files w';
              trace := trace w'
                       ++ [Print ("Failed to update contributions: "
                                  +:+ exn_str e)] |}.
Proof. intros Hbody. unfold main. by rewrite Hbody. Qed.

(** C3, the claim as stated fails: a record whose timestamp is present
    but does not match the format is not dropped; grouping raises
    [ValueError]. *)
Lemma malformed_timestamp_raises :
  let item := PDict [("title", PStr "Fix typo");
                     ("url", PStr "https://github.com/octo/hello/pull/1");
                     ("repo", PStr "hello");
                     ("description", PStr "No description provided.");
                     ("merged_at", PStr "2022-04-15T00:00:00+00:00")] in
  strptime_str "2022-04-15T00:00:00+00:00" = None
  /\ group_contributions_by_quarter
       [("pullRequests", [item]); ("issues", []);
        ("triagedIssues", []); ("reviewedPrs", [])]
     = Raise ValueError
  /\ ~ (exists grouped,
          group_contributions_by_quarter
            [("pullRequests", [item]); ("issues", []);
             ("triagedIssues", []); ("reviewedPrs", [])]
          = Ok grouped).
Proof.
  split; [reflexivity|]. split; [reflexivity|]. by intros [grouped Hg].
Qed.

(** C3, amended.  A record without a timestamp (every one of the four
    timestamp fields missing, [None] or empty) is dropped: the grouping is
    left as it was and nothing is raised.  A record whose timestamp
    parses is appended to the bucket of its quarter.  A record whose
    timestamp is a non-empty string that does not parse makes the grouping
    raise [ValueError], here, for the rest of its category and for the
    categories after it, and a run whose grouping raises exits with
    status 1. *)
Theorem group_item_timestamp_cases (type_name : string) (c : category)
    (item date_str : pyval) (grouped : list (string * contribution_set))
    (Hcat : category_of_name type_name = Some c)
    (Hdate : date_str_of item = Ok date_str) :
  (truthy date_str = false ->
     group_item type_name item grouped = Ok grouped)
  /\ (forall s dt,
        date_str = PStr s -> strptime_str s = Some dt ->
        group_item type_name item grouped
        = Ok (dict_set (quarter_key dt)
                (append_to c item
                   (default empty_set (dict_get (quarter_key dt) grouped)))
                grouped))
  /\ (forall s,
        date_str = PStr s -> s <> "" -> strptime_str s = None ->
        group_item type_name item grouped = Raise ValueError
        /\ (forall rest,
              group_items type_name (item :: rest) grouped = Raise ValueError)
        /\ (forall rest more,
              group_types ((type_name, item :: rest) :: more) grouped
              = Raise ValueError)
        /\ (forall py_str exn_str urlparse_path token current_year w
                   contributions w',
              fetch_contributions py_str urlparse_path token current_year w
              = Done contributions w' ->
              group_contributions_by_quarter (set_items contributions)
              = Raise ValueError ->
              main py_str exn_str urlparse_path token current_year w
              = Done 1 {| replies := replies w'; files := files w';
                          trace := trace w'
                            ++ [Print ("Failed to update contributions: "
                                       +:+ exn_str ValueError)] |})).
Proof.
  split; [|split].
  - intros Hfalsy. unfold group_item, item_key. rewrite Hdate. simpl.
    by rewrite Hfalsy.
  - intros s dt -> Hparse.
    by apply group_item_filed; [apply (item_key_parsed _ s)|].
  - intros s -> Hne Hparse.
    assert (Hitem : group_item type_name item grouped = Raise ValueError).
    { unfold group_item, item_key. rewrite Hdate. simpl.
      destruct s; [done|]. simpl. by rewrite Hparse. }
    split; [done|]. split; [|split].
    + intros rest. simpl. by rewrite Hitem.
    + intros rest more. simpl. by rewrite Hitem.
    + intros py_str exn_str urlparse_path token current_year w
             contributions w' Hfetch Hgroup.
      apply main_aborts_on_raise. unfold main_body.
      unfold mbind, M_bind. rewrite Hfetch. by rewrite Hgroup.
Qed.

Lemma group_item_timestamp_cases_witness :
  group_item "issues" (PDict [("title", PStr "t"); ("created_at", PNone)]) []
    = Ok []
  /\ group_item "issues"
       (PDict [("title", PStr "t"); ("created_at", PStr "2023-05-11T08:30:00Z")])
       []
     = Ok [("2023-Q2",
            {| pullRequests := [];
               issues := [PDict [("title", PStr "t");
                                 ("created_at", PStr "2023-05-11T08:30:00Z")]];
               triagedIssues := []; reviewedPrs := [] |})]
  /\ group_item "issues"
       (PDict [("title", PStr "t"); ("created_at", PStr "11 May 2023")]) []
     = Raise ValueError.
Proof.
  split; [|split].
  - exact (proj1 (group_item_timestamp_cases "issues" Issues
                    (PDict [("title", PStr "t"); ("created_at", PNone)])
                    PNone [] eq_refl eq_refl) eq_refl).
  - exact (proj1 (proj2 (group_item_timestamp_cases "issues" Issues
                    (PDict [("title", PStr "t");
                            ("created_at", PStr "2023-05-11T08:30:00Z")])
                    (PStr "2023-05-11T08:30:00Z") [] eq_refl eq_refl))
                 "2023-05-11T08:30:00Z" _ eq_refl eq_refl).
  - refine (proj1 (proj2 (proj2 (group_item_timestamp_cases "issues" Issues
                    (PDict [("title", PStr "t");
                            ("created_at", PStr "11 May 2023")])
                    (PStr "11 May 2023") [] eq_refl eq_refl))
                 "11 May 2023" eq_refl _ eq_refl)).
    discriminate.
Defined.

(* ===================================================================== *)
(** * The page loop *)
(* ===================================================================== *)

Section PageLoop.
Variable query : string.
Implicit Types (r : response) (script rest : list reply)
  (fs : gmap string string) (tr : list event) (results : list pyval).

Lemma loop_success r rest fs tr results page :
  successful r ->
  get_all_pages_loop query (Reply r :: rest) fs tr results page
  = if links_next r
    then get_all_pages_loop query rest fs
           (tr ++ [Get (search_url query page)])
           (results ++ items_of r) (page + 1)
    else Done (results ++ items_of r)
           {| replies := rest; files := fs;
              trace := tr ++ [Get (search_url query page)] |}.
Proof.
  intros [Hstatus [items Hitems]]. simpl. unfold items_of.
  by rewrite Hstatus, Hitems.
Qed.

Lemma loop_403 r rest fs tr results page :
  status_code r = 403 ->
  get_all_pages_loop query (Reply r :: rest) fs tr results page
  = get_all_pages_loop query rest fs
      (tr ++ rate_limited_attempt query page) results page.
Proof.
  intros Hstatus. simpl. unfold raises_for_status. rewrite Hstatus. simpl.
  unfold rate_limited_attempt. by rewrite <- app_assoc.
Qed.

Lemma loop_http_error r rest fs tr results page :
  raises_for_status r = true -> status_code r <> 403 ->
  get_all_pages_loop query (Reply r :: rest) fs tr results page
  = Raised (HTTPError (status_code r))
      {| replies := rest; files := fs;
         trace := tr ++ [Get (search_url query page)] |}.
Proof.
  intros Hstatus Hne. simpl. rewrite Hstatus.
  by destruct (Z.eqb_spec (status_code r) 403).
Qed.

Lemma page_requests_S first n :
  page_requests query first (S n)
  = Get (search_url query first) :: page_requests query (first + 1) n.
Proof.
  unfold page_requests. simpl. rewrite Z.add_0_r. f_equal.
  rewrite <- fmap_S_seq, <- list_fmap_compose. apply list_fmap_ext.
  intros _ i _. simpl. do 2 f_equal. lia.
Qed.

Lemma loop_pages pages : forall last rest fs tr results page,
  Forall (fun r => successful r /\ links_next r = true) pages ->
  successful last -> links_next last = false ->
  get_all_pages_loop query ((Reply <$> pages) ++ Reply last :: rest)
                     fs tr results page
  = Done (results ++ List.concat (items_of <$> pages ++ [last]))
      {| replies := rest; files := fs;
         trace := tr ++ page_requests query page (S (List.length pages)) |}.
Proof.
  induction pages as [|r pages IH];
    intros last rest fs tr results page Hpages Hlast Hnext.
  - change ((Reply <$> []) ++ Reply last :: rest) with (Reply last :: rest).
    rewrite (loop_success _ _ _ _ _ _ Hlast), Hnext.
    rewrite page_requests_S. change (items_of <$> [] ++ [last]) with [items_of last].
    cbn [List.concat]. by rewrite app_nil_r.
  - apply Forall_cons in Hpages as [[Hr Hrnext] Hpages].
    rewrite fmap_cons, <- app_comm_cons.
    rewrite (loop_success _ _ _ _ _ _ Hr), Hrnext.
    rewrite (IH _ _ _ _ _ _ Hpages Hlast Hnext).
    cbn [List.length]. rewrite (page_requests_S page (S (List.length pages))).
    rewrite <- app_comm_cons, fmap_cons. cbn [List.concat].
    by rewrite <- !app_assoc.
Qed.

Lemma loop_starves pages : forall fs tr results page,
  Forall (fun r => successful r /\ links_next r = true) pages ->
  get_all_pages_loop query (Reply <$> pages) fs tr results page
  = Starved {| replies := []; files := fs;
               trace := tr ++ page_requests query page (S (List.length pages)) |}.
Proof.
  induction pages as [|r pages IH]; intros fs tr results page Hpages.
  - by rewrite page_requests_S.
  - apply Forall_cons in Hpages as [[Hr Hrnext] Hpages].
    rewrite fmap_cons, (loop_success _ _ _ _ _ _ Hr), Hrnext.
    rewrite (IH _ _ _ _ Hpages).
    cbn [List.length]. rewrite (page_requests_S page (S (List.length pages))).
    by rewrite <- !app_assoc.
Qed.

Lemma loop_403s retries : forall rest fs tr results page,
  Forall (fun r => status_code r = 403) retries ->
  get_all_pages_loop query ((Reply <$> retries) ++ rest) fs tr results page
  = get_all_pages_loop query rest fs
      (tr ++ List.concat (replicate (List.length retries)
                       (rate_limited_attempt query page)))
      results page.
Proof.
  induction retries as [|r retries IH]; intros rest fs tr results page Hall.
  - simpl. by rewrite app_nil_r.
  - apply Forall_cons in Hall as [Hr Hall].
    rewrite fmap_cons, <- app_comm_cons, (loop_403 _ _ _ _ _ _ Hr).
    rewrite (IH _ _ _ _ _ Hall). cbn [List.length replicate List.concat].
    by rewrite <- !app_assoc.
Qed.

End PageLoop.

Lemma length_concat_sum {A} (ls : list (list A)) :
  List.length (List.concat ls) = sum_list (List.length <$> ls).
Proof.
  induction ls as [|l ls IH]; simpl; [done|]. by rewrite length_app, IH.
Qed.

(** C1.  When the search endpoint answers with successful pages, all but
    the last declaring a next page, [get_all_pages] returns the items of
    page 1, page 2, ... concatenated in order, so the size of the result
    is the sum of the sizes of the pages; it has then requested the pages
    1, 2, ... once each and in order, and has asked for nothing after the
    first page without a next link (the replies beyond it are left
    unused).  As long as every page declares a next page the loop does not
    return. *)
Theorem get_all_pages_concat (query : string) (pages : list response)
    (last : response) (rest : list reply) (w : world)
    (Hpages : Forall (fun r => successful r /\ links_next r = true) pages)
    (Hlast : successful last)
    (Hnext : links_next last = false)
    (Hreplies : replies w = (Reply <$> pages) ++ Reply last :: rest) :
  let results := List.concat (items_of <$> pages ++ [last]) in
  get_all_pages query w
  = Done results
      {| replies := rest; files := files w;
         trace := trace w ++ page_requests query 1 (S (List.length pages)) |}
  /\ List.length results = sum_list ((List.length ∘ items_of) <$> pages ++ [last])
  /\ (forall more : list response,
        Forall (fun r => successful r /\ links_next r = true) more ->
        forall w', replies w' = Reply <$> more ->
        get_all_pages query w'
        = Starved {| replies := []; files := files w';
                     trace := trace w'
                              ++ page_requests query 1 (S (List.length more)) |}).
Proof.
  intros results. split; [|split].
  - unfold get_all_pages. rewrite Hreplies.
    by rewrite (loop_pages query pages last rest _ _ _ _ Hpages Hlast Hnext).
  - subst results. by rewrite length_concat_sum, <- list_fmap_compose.
  - intros more Hmore w' Hw'. unfold get_all_pages. rewrite Hw'.
    by apply loop_starves.
Qed.

Lemma get_all_pages_concat_witness :
  get_all_pages "q"
    (sample_world [Reply (sample_page [PStr "a"; PStr "b"] true);
                   Reply (sample_page [PStr "c"] true);
                   Reply (sample_page [PStr "d"; PStr "e"] false);
                   Reply (sample_page [PStr "f"] false)])
  = Done [PStr "a"; PStr "b"; PStr "c"; PStr "d"; PStr "e"]
      {| replies := [Reply (sample_page [PStr "f"] false)]; files := ∅;
         trace := [Get (search_url "q" 1); Get (search_url "q" 2);
                   Get (search_url "q" 3)] |}.
Proof.
  refine (proj1 (get_all_pages_concat "q"
            [sample_page [PStr "a"; PStr "b"] true; sample_page [PStr "c"] true]
            (sample_page [PStr "d"; PStr "e"] false)
            [Reply (sample_page [PStr "f"] false)]
            (sample_world _) _ _ eq_refl eq_refl)).
  - repeat constructor; by eexists.
  - split; [reflexivity | by eexists].
Defined.

(* ===================================================================== *)
(** * Errors of the search endpoint *)
(* ===================================================================== *)

Section Propagation.
Context {A B : Type}.

Lemma bind_done (m : M A) (f : A -> M B) w a w' :
  m w = Done a w' -> (m ≫= f) w = f a w'.
Proof. intros Hm. unfold mbind, M_bind. by rewrite Hm. Qed.

Lemma bind_raised (m : M A) (f : A -> M B) w e w' :
  m w = Raised e w' -> (m ≫= f) w = Raised e w'.
Proof. intros Hm. unfold mbind, M_bind. by rewrite Hm. Qed.

End Propagation.

Lemma for_each_raised {A S} (body : A -> S -> M S) x rest s w e w' :
  body x s w = Raised e w' -> for_each (x :: rest) body s w = Raised e w'.
Proof. intros Hbody. simpl. by apply bind_raised. Qed.

Lemma for_each_app {A S} (body : A -> S -> M S) xs ys s w :
  for_each (xs ++ ys) body s w
  = (s' ← for_each xs body s; for_each ys body s') w.
Proof.
  revert s w. induction xs as [|x xs IH]; intros s w; [done|].
  simpl. unfold mbind, M_bind. destruct (body x s w); [|done..].
  apply IH.
Qed.

Lemma py_range_cons (lo hi : Z) :
  lo < hi -> py_range lo hi = lo :: py_range (lo + 1) hi.
Proof.
  intros Hlt. unfold py_range.
  replace (Z.to_nat (hi - lo)) with (S (Z.to_nat (hi - (lo + 1)))) by lia.
  simpl. rewrite Z.add_0_r. f_equal.
  rewrite <- fmap_S_seq, <- list_fmap_compose. apply list_fmap_ext.
  intros _ i _. simpl. lia.
Qed.

Section SearchErrors.
Variable py_str : pyval -> string.
Variable exn_str : exn -> string.
Variable urlparse_path : string -> option string.

(** A search that raises makes the year raise, at each of the four
    searches of the year. *)
Lemma fetch_year_search_raises (year : Z) (c : contribution_set)
    (w w_err : world) (e : exn) :
  let year_start := str_of_int year +:+ "-01-01T00:00:00Z" in
  let year_end := str_of_int (year + 1) +:+ "-01-01T00:00:00Z" in
  let w0 := {| replies := replies w; files := files w;
               trace := trace w
                 ++ [Print ("Fetching contributions for year: "
                            +:+ str_of_int year +:+ "...")] |} in
  (get_all_pages (merged_query year_start year_end) w0 = Raised e w_err
   \/ exists prs w1 c1 w2,
        get_all_pages (merged_query year_start year_end) w0 = Done prs w1
        /\ for_each prs (fetch_pr py_str urlparse_path) c w1 = Done c1 w2
        /\ (get_all_pages (created_query year_start year_end) w2
            = Raised e w_err
            \/ exists found w3 c3 w4,
                 get_all_pages (created_query year_start year_end) w2
                 = Done found w3
                 /\ for_each found
                      (add_record Issues (issue_record urlparse_path)) c1 w3
                    = Done c3 w4
                 /\ (get_all_pages (reviewed_query year_start year_end) w4
                     = Raised e w_err
                     \/ exists found' w5 c5 w6,
                          get_all_pages (reviewed_query year_start year_end) w4
                          = Done found' w5
                          /\ for_each found'
                               (add_record ReviewedPrs
                                  (reviewed_record urlparse_path)) c3 w5
                             = Done c5 w6
                          /\ get_all_pages
                               (assigned_query year_start year_end) w6
                             = Raised e w_err))) ->
  fetch_year py_str urlparse_path year c w = Raised e w_err.
Proof.
  intros year_start year_end w0 Hsites. unfold fetch_year.
  fold year_start year_end.
  rewrite (bind_done _ _ w tt w0) by done.
  destruct Hsites as [H1 | (prs & w1 & c1 & w2 & H1 & F1 & Hsites)];
    [by apply bind_raised|].
  rewrite (bind_done _ _ _ _ _ H1), (bind_done _ _ _ _ _ F1).
  destruct Hsites as [H2 | (found & w3 & c3 & w4 & H2 & F2 & Hsites)];
    [by apply bind_raised|].
  rewrite (bind_done _ _ _ _ _ H2), (bind_done _ _ _ _ _ F2).
  destruct Hsites as [H3 | (found' & w5 & c5 & w6 & H3 & F3 & H4)];
    [by apply bind_raised|].
  rewrite (bind_done _ _ _ _ _ H3), (bind_done _ _ _ _ _ F3).
  by apply bind_raised.
Qed.

(** A year that raises makes the whole collection raise. *)
Lemma fetch_contributions_year_raises (token : string) (current_year : Z)
    (before after : list Z) (year : Z) (c : contribution_set)
    (w w1 w_err : world) (e : exn) :
  token <> "" ->
  py_range SINCE_YEAR (current_year + 1) = before ++ year :: after ->
  for_each before (fetch_year py_str urlparse_path) empty_set w = Done c w1 ->
  fetch_year py_str urlparse_path year c w1 = Raised e w_err ->
  fetch_contributions py_str urlparse_path (Some token) current_year w
  = Raised e w_err.
Proof.
  intros Htoken Hrange Hbefore Hyear. unfold fetch_contributions.
  destruct token; [done|]. rewrite Hrange, for_each_app.
  rewrite (bind_done _ _ _ _ _ Hbefore). by apply for_each_raised.
Qed.

Lemma main_aborts_on_fetch_raise token current_year (w w' : world) (e : exn) :
  fetch_contributions py_str urlparse_path token current_year w = Raised e w' ->
  main py_str exn_str urlparse_path token current_year w
  = Done 1 {| replies := replies w'; files := files w';
              trace := trace w'
                       ++ [Print ("Failed to update contributions: "
                                  +:+ exn_str e)] |}.
Proof.
  intros Hfetch. apply main_aborts_on_raise. unfold main_body.
  by apply bind_raised.
Qed.

End SearchErrors.

(** C2.  A page request answered with status 403 waits 60 seconds and asks
    for the same page again, however many times in a row this happens:
    the page number and the items collected so far are unchanged, and
    each attempt leaves one request, the notice and one sleep of 60
    seconds in the trace.  A 403 followed by a successful answer for the
    same page gives exactly that page's items, after two requests for the
    one page number; the loop then goes on to the next page or returns.
    Any other HTTP error status raises at once, with no sleep and no
    further request, and the run ends with exit status 1: for every raise
    out of [fetch_contributions], and in particular when the first request
    of the run is answered with such a status. *)
Theorem rate_limit_retry (query : string) (page : Z) (results : list pyval)
    (fs : gmap string string) (tr : list event) (rest : list reply) :
  rate_limited_attempt query page
  = [Get (search_url query page);
     Print "Rate limit hit. Waiting for 60 seconds..."; Sleep 60]
  /\ (forall retries : list response,
        Forall (fun r => status_code r = 403) retries ->
        get_all_pages_loop query ((Reply <$> retries) ++ rest) fs tr
                           results page
        = get_all_pages_loop query rest fs
            (tr ++ List.concat (replicate (List.length retries)
                                  (rate_limited_attempt query page)))
            results page)
  /\ (forall r403 r : response,
        status_code r403 = 403 -> successful r ->
        let tr' := tr ++ rate_limited_attempt query page
                      ++ [Get (search_url query page)] in
        get_all_pages_loop query (Reply r403 :: Reply r :: rest) fs tr
                           results page
        = if links_next r
          then get_all_pages_loop query rest fs tr'
                 (results ++ items_of r) (page + 1)
          else Done (results ++ items_of r)
                 {| replies := rest; files := fs; trace := tr' |})
  /\ (forall r : response,
        raises_for_status r = true -> status_code r <> 403 ->
        get_all_pages_loop query (Reply r :: rest) fs tr results page
        = Raised (HTTPError (status_code r))
            {| replies := rest; files := fs;
               trace := tr ++ [Get (search_url query page)] |})
  /\ (forall py_str exn_str urlparse_path token current_year w e w',
        fetch_contributions py_str urlparse_path token current_year w
        = Raised e w' ->
        main py_str exn_str urlparse_path token current_year w
        = Done 1 {| replies := replies w'; files := files w';
                    trace := trace w'
                      ++ [Print ("Failed to update contributions: "
                                 +:+ exn_str e)] |})
  /\ (forall py_str exn_str urlparse_path token current_year w r,
        token <> "" -> SINCE_YEAR <= current_year ->
        replies w = Reply r :: rest ->
        raises_for_status r = true -> status_code r <> 403 ->
        main py_str exn_str urlparse_path (Some token) current_year w
        = Done 1
            {| replies := rest; files := files w;
               trace := trace w
                 ++ [Print "Fetching contributions for year: 2019...";
                     Get (search_url
                            (merged_query "2019-01-01T00:00:00Z"
                                          "2020-01-01T00:00:00Z") 1);
                     Print ("Failed to update contributions: "
                            +:+ exn_str (HTTPError (status_code r)))] |}).
Proof.
  split; [reflexivity|].
  split; [intros retries Hall; by apply loop_403s|].
  split; [|split; [|split]].
  - intros r403 r H403 Hr tr'.
    rewrite (loop_403 _ _ _ _ _ _ _ H403), (loop_success _ _ _ _ _ _ _ Hr).
    subst tr'. by rewrite <- !app_assoc.
  - intros r Hstatus Hne. by apply loop_http_error.
  - intros. by apply main_aborts_on_fetch_raise.
  - intros py_str exn_str urlparse_path token current_year w r
           Htoken Hyear Hreplies Hstatus Hne.
    erewrite main_aborts_on_fetch_raise; last first.
    { eapply (fetch_contributions_year_raises _ _ _ _ []
                (py_range (SINCE_YEAR + 1) (current_year + 1)) SINCE_YEAR);
        [done | apply py_range_cons; lia | done |].
      apply fetch_year_search_raises. left.
      unfold get_all_pages. cbn [replies files trace]. rewrite Hreplies.
      by apply loop_http_error. }
    cbn [replies files trace]. by rewrite <- !app_assoc.
Qed.

Lemma rate_limit_retry_witness :
  get_all_pages "q"
    (sample_world [Reply (sample_error 403);
                   Reply (sample_page [PStr "a"; PStr "b"] false)])
  = Done [PStr "a"; PStr "b"]
      {| replies := []; files := ∅;
         trace := [Get (search_url "q" 1);
                   Print "Rate limit hit. Waiting for 60 seconds..."; Sleep 60;
                   Get (search_url "q" 1)] |}.
Proof.
  refine (proj1 (proj2 (proj2 (rate_limit_retry "q" 1 [] ∅ [] [])))
            (sample_error 403) (sample_page [PStr "a"; PStr "b"] false)
            eq_refl _).
  split; [reflexivity | by eexists].
Defined.

(* ===================================================================== *)
(** * Normalised records *)
(* ===================================================================== *)

(** Case analysis on the next fallible step of a [result] computation. *)
Ltac next_step :=
  match goal with
  | |- context [mbind _ ?m] =>
      let H := fresh "Hstep" in
      destruct m eqn:H; simpl; [|discriminate]
  end.






(* ===================================================================== *)
(** * Detail lookups of merged pull requests *)
(* ===================================================================== *)

Section DetailLookups.
Variable py_str : pyval -> string.
Variable urlparse_path : string -> option string.

Lemma fetch_pr_lookup (pr : pyval) (r : response) (records : list pyval)
    (events : list event) (c : contribution_set) (w : world)
    (rest : list reply) :
  lookup py_str urlparse_path pr r records events ->
  replies w = Reply r :: rest ->
  fetch_pr py_str urlparse_path pr c w
  = Done {| pullRequests := pullRequests c ++ records; issues := issues c;
            triagedIssues := triagedIssues c; reviewedPrs := reviewedPrs c |}
      {| replies := rest; files := files w; trace := trace w ++ events |}.
Proof.
  intros Hlookup Hreplies. unfold fetch_pr.
  destruct Hlookup as
    [owner repo_name number pr_data title html_url body merged_at
       (parts & Hparts & Howner & Hrepo & Hnumber) Hstatus Hjson
       Htitle Hurl Hbody Hmerged
    | owner repo_name number html_url
       (parts & Hparts & Howner & Hrepo & Hnumber) Hstatus Hurl].
  - unfold mbind, M_bind, lift, session_get.
    rewrite Hparts, Howner, Hrepo, Hnumber, Hreplies, Hstatus.
    cbn [replies files trace Z.eqb Pos.eqb].
    unfold response_json, pr_record. rewrite Hjson.
    cbn [mbind result_bind]. rewrite Htitle, Hurl, Hbody, Hmerged.
    unfold mret, M_ret. by destruct c.
  - unfold mbind, M_bind, lift, session_get.
    rewrite Hparts, Howner, Hrepo, Hnumber, Hreplies.
    cbn [replies files trace].
    destruct (Z.eqb_spec (status_code r) 200) as [|_]; [done|].
    rewrite Hurl. unfold emit, mret, M_ret. cbn [replies files trace].
    by rewrite <- app_assoc, app_nil_r; destruct c.
Qed.

(** C7.  The loop over the merged pull requests found by the search asks
    for the details of each item once, in order, consuming one reply per
    item.  An item whose lookup is answered with status 200 adds one
    record made of the payload's title, its canonical URL, the repository
    name, the description and the merge timestamp; an item whose lookup is
    answered with any other status adds no record and prints a
    diagnostic, and the loop goes on with the items after it.  The other
    three categories are left as they were. *)
Theorem pr_details_lookup (prs : list pyval) (details : list response)
    (outs : list (list pyval * list event)) (c : contribution_set)
    (w : world) (rest : list reply)
    (Hlookups : Forall3 (fun pr r out =>
                           lookup py_str urlparse_path pr r out.1 out.2)
                        prs details outs)
    (Hreplies : replies w = (Reply <$> details) ++ rest) :
  for_each prs (fetch_pr py_str urlparse_path) c w
  = Done {| pullRequests := pullRequests c ++ List.concat (fst <$> outs);
            issues := issues c; triagedIssues := triagedIssues c;
            reviewedPrs := reviewedPrs c |}
      {| replies := rest; files := files w;
         trace := trace w ++ List.concat (snd <$> outs) |}
  /\ List.length details = List.length prs
  /\ Forall2 (fun r out =>
                (status_code r = 200 ->
                 exists record url, out = ([record], [Get url]))
                /\ (status_code r <> 200 ->
                    exists url msg, out = ([], [Get url; Print msg])))
             details outs.
Proof.
  split; [|split].
  - revert c w Hreplies.
    induction Hlookups as [|pr r [records events] prs details outs Hl _ IH];
      intros c w Hreplies.
    + cbn [for_each fmap list_fmap List.concat]. unfold mret, M_ret.
      rewrite !app_nil_r. destruct c, w. cbn in *. rewrite Hreplies.
      reflexivity.
    + rewrite fmap_cons, <- app_comm_cons in Hreplies.
      cbn [for_each].
      rewrite (bind_done _ _ _ _ _
                 (fetch_pr_lookup pr r records events c w _ Hl Hreplies)).
      rewrite IH by done. cbn [pullRequests issues triagedIssues reviewedPrs
                                 replies files trace].
      rewrite !fmap_cons. cbn [List.concat fst snd].
      by rewrite <- !app_assoc.
  - symmetry. by eapply Forall3_length_lm.
  - clear Hreplies.
    induction Hlookups as [|pr r [records events] prs details outs Hl _ IH];
      [constructor|]. constructor; [|done].
    cbn [fst snd] in Hl.
    destruct Hl; split; intros; first [congruence | by eexists _, _].
Qed.

End DetailLookups.

Lemma pr_details_lookup_witness :
  for_each [sample_pr 12; sample_pr 13]
    (fetch_pr sample_py_str sample_urlparse_path) empty_set
    (sample_world [Reply sample_pr_details; Reply (sample_error 404);
                   Reply (sample_page [] false)])
  = Done {| pullRequests := [sample_pr_record]; issues := [];
            triagedIssues := []; reviewedPrs := [] |}
      {| replies := [Reply (sample_page [] false)]; files := ∅;
         trace := [Get "https://api.github.com/repos/octo/hello/pulls/12";
                   Get "https://api.github.com/repos/octo/hello/pulls/13";
                   Print "Could not fetch details for https://github.com/octo/hello/pull/13"] |}.
Proof.
  refine (proj1 (pr_details_lookup sample_py_str sample_urlparse_path
            [sample_pr 12; sample_pr 13]
            [sample_pr_details; sample_error 404]
            [([sample_pr_record],
              [Get "https://api.github.com/repos/octo/hello/pulls/12"]);
             ([],
              [Get "https://api.github.com/repos/octo/hello/pulls/13";
               Print "Could not fetch details for https://github.com/octo/hello/pull/13"])]
            empty_set (sample_world _) [Reply (sample_page [] false)]
            _ eq_refl)).
  constructor; [|constructor; [|constructor]].
  - refine (lookup_found sample_py_str sample_urlparse_path (sample_pr 12)
              sample_pr_details "octo" "hello" (PInt 12) _
              (PStr "Fix typo") (PStr "https://github.com/octo/hello/pull/12")
              (PStr "") (PStr "2023-05-10T12:00:00Z")
              _ eq_refl eq_refl eq_refl eq_refl eq_refl eq_refl).
    eexists. repeat split; reflexivity.
  - refine (lookup_missed sample_py_str sample_urlparse_path (sample_pr 13)
              (sample_error 404) "octo" "hello" (PInt 13)
              (PStr "https://github.com/octo/hello/pull/13") _ _ eq_refl).
    + eexists. repeat split; reflexivity.
    + discriminate.
Defined.

(* ===================================================================== *)
(** * Grouping keeps the records *)
(* ===================================================================== *)

Section Grouping.
Implicit Types (g grouped : list (string * contribution_set))
  (done : list (string * pyval)) (c : category).

(** What a step of the grouping that does not raise has done. *)
Lemma group_item_ok type_name item g g' :
  group_item type_name item g = Ok g' ->
  (item_key item = Ok None /\ g' = g)
  \/ exists key c,
       item_key item = Ok (Some key)
       /\ category_of_name type_name = Some c
       /\ g' = dict_set key
                 (append_to c item (default empty_set (dict_get key g))) g.
Proof.
  intros Hok. destruct (item_key item) as [[key|]|e] eqn:Hkey.
  - right. destruct (category_of_name type_name) as [c|] eqn:Hcat.
    + rewrite (group_item_filed _ _ _ _ _ Hkey Hcat) in Hok.
      injection Hok as <-. by exists key, c.
    + exfalso. unfold group_item in Hok. rewrite Hkey in Hok. simpl in Hok.
      unfold bucket_append in Hok. rewrite Hcat in Hok.
      destruct (dict_mem key g).
      * by destruct (dict_get key g).
      * by rewrite dict_get_set_eq in Hok.
  - left. unfold group_item in Hok. rewrite Hkey in Hok. simpl in Hok.
    by injection Hok as <-.
  - unfold group_item in Hok. by rewrite Hkey in Hok.
Qed.

(** An invariant over the pairs visited so far and the grouping reached
    holds at the end if every step keeps it. *)
Lemma group_types_history
    (I : list (string * pyval) -> list (string * contribution_set) -> Prop) :
  (forall done type_name item g g',
      I done g -> group_item type_name item g = Ok g' ->
      I (done ++ [(type_name, item)]) g') ->
  forall contributions done g g',
    I done g -> group_types contributions g = Ok g' ->
    I (done ++ entries contributions) g'.
Proof.
  intros Hstep contributions.
  induction contributions as [|[type_name items] contributions IH];
    intros done g g' HI Hok.
  - simpl in *. rewrite app_nil_r. by injection Hok as <-.
  - simpl in Hok. destruct (group_items type_name items g) as [g1|] eqn:Hitems;
      simpl in Hok; [|done].
    unfold entries. cbn [flat_map fst snd]. rewrite app_assoc.
    apply (IH _ g1); [|done]. clear IH Hok.
    revert done g HI Hitems. induction items as [|item items IH];
      intros done g HI Hitems.
    + simpl in *. rewrite app_nil_r. by injection Hitems as <-.
    + simpl in Hitems.
      destruct (group_item type_name item g) as [g2|] eqn:Hitem;
        simpl in Hitems; [|done].
      rewrite fmap_cons, (cons_middle _ done), app_assoc.
      apply (IH _ g2); [|done]. by eapply Hstep.
Qed.

Lemma section_items_append c c0 item data :
  section_items c (append_to c0 item data)
  = section_items c data ++ (if bool_decide (c0 = c) then [item] else []).
Proof. destruct c, c0; simpl; by rewrite ?app_nil_r. Qed.

Lemma bucket_items_set c key k data g :
  bucket_items c key (dict_set k data g)
  = if String.eqb k key then section_items c data else bucket_items c key g.
Proof.
  unfold bucket_items. destruct (String.eqb_spec k key) as [->|Hne].
  - by rewrite dict_get_set_eq.
  - by rewrite dict_get_set_ne.
Qed.

Lemma records_of_entries c contributions :
  records_of c contributions
  = snd <$> List.filter (fun e => named c e.1) (entries contributions).
Proof.
  unfold records_of, entries.
  induction contributions as [|[type_name items] contributions IH];
    [done|].
  cbn [flat_map fst snd]. rewrite List.filter_app, fmap_app, <- IH. f_equal.
  destruct (named c type_name) eqn:Hn.
  - induction items as [|item items IHi]; [done|].
    rewrite fmap_cons. cbn [List.filter fst]. rewrite Hn, fmap_cons.
    by rewrite <- IHi.
  - induction items as [|item items IHi]; [done|].
    rewrite fmap_cons. cbn [List.filter fst]. by rewrite Hn.
Qed.

(** The bucket of [key] holds, per category, the input records of that
    category whose key is [key], in input order. *)
Lemma group_types_bucket_items c key contributions grouped :
  group_contributions_by_quarter contributions = Ok grouped ->
  bucket_items c key grouped
  = List.filter (key_is key) (records_of c contributions).
Proof.
  intros Hok. rewrite records_of_entries.
  refine (group_types_history
            (fun done g =>
               bucket_items c key g
               = List.filter (key_is key)
                   (snd <$> List.filter (fun e => named c e.1) done))
            _ contributions [] [] grouped _ Hok); [|by destruct c].
  clear. intros done type_name item g g' HI Hstep.
  rewrite List.filter_app, fmap_app, List.filter_app, <- HI.
  cbn [List.filter fst]. unfold named.
  destruct (group_item_ok _ _ _ _ Hstep)
    as [[Hkey ->] | (k & c0 & Hkey & Hcat & ->)].
  - destruct (match category_of_name type_name with
              | Some c' => bool_decide (c' = c) | None => false end);
      simpl; unfold key_is; rewrite ?Hkey; by rewrite app_nil_r.
  - rewrite Hcat, bucket_items_set, section_items_append.
    fold (bucket_items c k g).
    destruct (String.eqb_spec k key) as [->|Hne].
    + destruct (bool_decide (c0 = c)); simpl; [|by rewrite app_nil_r].
      unfold key_is. by rewrite Hkey, String.eqb_refl.
    + destruct (bool_decide (c0 = c)); simpl; [|by rewrite app_nil_r].
      unfold key_is. rewrite Hkey.
      destruct (String.eqb_spec k key); [done|]. by rewrite app_nil_r.
Qed.

Lemma section_items_empty c : section_items c empty_set = [].
Proof. by destruct c. Qed.

Lemma all_items_set c c0 k item g :
  all_items c
    (dict_set k (append_to c0 item (default empty_set (dict_get k g))) g)
  ≡ₚ all_items c g ++ (if bool_decide (c0 = c) then [item] else []).
Proof.
  unfold all_items. induction g as [|[k' data'] g IH]; cbn [dict_get dict_set].
  - cbn [flat_map snd default]. rewrite section_items_append.
    by rewrite section_items_empty, app_nil_r.
  - destruct (String.eqb_spec k k') as [->|Hne]; cbn [flat_map snd default].
    + rewrite section_items_append, <- !app_assoc.
      apply Permutation_app_head, Permutation_app_comm.
    + by rewrite IH, app_assoc.
Qed.

(** Over all buckets, each category holds the input records of that
    category that have a timestamp, as a multiset. *)
Lemma group_types_all_items c contributions grouped :
  group_contributions_by_quarter contributions = Ok grouped ->
  all_items c grouped
  ≡ₚ List.filter has_timestamp (records_of c contributions).
Proof.
  intros Hok. rewrite records_of_entries.
  refine (group_types_history
            (fun done g =>
               all_items c g
               ≡ₚ List.filter has_timestamp
                    (snd <$> List.filter (fun e => named c e.1) done))
            _ contributions [] [] grouped _ Hok); [|done].
  clear. intros done type_name item g g' HI Hstep.
  rewrite List.filter_app, fmap_app, List.filter_app, <- HI.
  cbn [List.filter fst]. unfold named.
  destruct (group_item_ok _ _ _ _ Hstep)
    as [[Hkey ->] | (k & c0 & Hkey & Hcat & ->)].
  - destruct (match category_of_name type_name with
              | Some c' => bool_decide (c' = c) | None => false end);
      simpl; unfold has_timestamp; rewrite ?Hkey; by rewrite app_nil_r.
  - rewrite Hcat, all_items_set.
    destruct (bool_decide (c0 = c)); simpl; [|done].
    unfold has_timestamp. by rewrite Hkey.
Qed.

Lemma dict_get_keys {V} (k : string) (d : list (string * V)) :
  dict_get k d = None -> k ∉ d.*1.
Proof.
  induction d as [|[k' v'] d IH]; simpl; [intros _; apply not_elem_of_nil|].
  destruct (String.eqb_spec k k') as [->|Hne]; [done|].
  intros Hget. apply not_elem_of_cons. auto.
Qed.

Lemma dict_set_keys {V} (k : string) (v : V) (d : list (string * V)) :
  (dict_set k v d).*1
  = if dict_mem k d then d.*1 else d.*1 ++ [k].
Proof.
  unfold dict_mem. induction d as [|[k' v'] d IH]; simpl; [done|].
  destruct (String.eqb_spec k k') as [->|Hne]; [done|].
  rewrite fmap_cons, IH. by destruct (dict_get k d).
Qed.

Lemma dict_set_NoDup {V} (k : string) (v : V) (d : list (string * V)) :
  NoDup d.*1 -> NoDup (dict_set k v d).*1.
Proof.
  intros Hd. rewrite dict_set_keys. unfold dict_mem.
  destruct (dict_get k d) eqn:Hget; [done|].
  apply NoDup_app. split; [done|]. split; [|apply NoDup_singleton].
  intros x Hx ->%list_elem_of_singleton. by apply (dict_get_keys k d).
Qed.

Lemma dict_set_Forall {V} (Q : V -> Prop) (k : string) (v : V)
    (d : list (string * V)) :
  Forall (fun e => Q e.2) d -> Q v -> Forall (fun e => Q e.2) (dict_set k v d).
Proof.
  intros Hd Hv. induction Hd as [|[k' v'] d Hx Hd IH]; simpl.
  - by constructor.
  - destruct (String.eqb_spec k k'); by constructor.
Qed.

Lemma has_data_append c item data : has_data (append_to c item data) = true.
Proof.
  destruct data as [l1 l2 l3 l4]. unfold has_data.
  destruct c, l1, l2, l3, l4; reflexivity.
Qed.

(** The keys of the grouping are distinct and no bucket is empty. *)
Lemma group_types_buckets contributions grouped :
  group_contributions_by_quarter contributions = Ok grouped ->
  NoDup grouped.*1 /\ Forall (fun e => has_data e.2 = true) grouped.
Proof.
  intros Hok.
  refine (group_types_history
            (fun _ g => NoDup g.*1 /\ Forall (fun e => has_data e.2 = true) g)
            _ contributions [] [] grouped _ Hok);
    [|split; [apply NoDup_nil_2 | constructor]].
  clear. intros _ type_name item g g' [Hnd Hall] Hstep.
  destruct (group_item_ok _ _ _ _ Hstep)
    as [[Hkey ->] | (k & c0 & Hkey & Hcat & ->)]; [done|].
  split; [by apply dict_set_NoDup|].
  apply (dict_set_Forall (fun data => has_data data = true)); [done|].
  apply has_data_append.
Qed.

End Grouping.

(** C10.  When grouping returns, then for each category: the bucket of a
    key holds, unchanged and in input order, exactly the input records of
    that category whose timestamp parses to that key; so a record whose
    timestamp parses is in the bucket of its own key, in the list of its
    own category, and in no bucket of another key, and whatever a bucket
    holds is an input record of the same category with that key.  Taken
    over all buckets, the lists of a category are, as a multiset, the
    input records of that category whose timestamp parses.  The keys of
    the buckets are distinct. *)
Theorem grouping_preserves_records
    (contributions : list (string * list pyval))
    (grouped : list (string * contribution_set)) (c : category)
    (Hok : group_contributions_by_quarter contributions = Ok grouped) :
  (forall key,
      bucket_items c key grouped
      = List.filter (key_is key) (records_of c contributions))
  /\ all_items c grouped
     ≡ₚ List.filter has_timestamp (records_of c contributions)
  /\ NoDup grouped.*1
  /\ (forall item s dt,
        In item (records_of c contributions) ->
        date_str_of item = Ok (PStr s) -> strptime_str s = Some dt ->
        In item (bucket_items c (quarter_key dt) grouped)
        /\ forall key, key <> quarter_key dt ->
                       ~ In item (bucket_items c key grouped))
  /\ (forall key item,
        In item (bucket_items c key grouped) ->
        In item (records_of c contributions)
        /\ item_key item = Ok (Some key)).
Proof.
  assert (Hbucket := fun key =>
            group_types_bucket_items c key contributions grouped Hok).
  split; [done|]. split; [by apply group_types_all_items|].
  split; [by eapply proj1, group_types_buckets|]. split.
  - intros item s dt Hin Hdate Hparse.
    pose proof (item_key_parsed _ _ _ Hdate Hparse) as Hkey.
    split.
    + rewrite Hbucket. apply List.filter_In. split; [done|].
      unfold key_is. by rewrite Hkey, String.eqb_refl.
    + intros key Hne. rewrite Hbucket. intros [_ Hk]%List.filter_In.
      unfold key_is in Hk. rewrite Hkey in Hk.
      by apply String.eqb_eq in Hk.
  - intros key item. rewrite Hbucket. intros [Hin Hk]%List.filter_In.
    split; [done|]. unfold key_is in Hk.
    destruct (item_key item) as [[k|]|]; try done.
    by apply String.eqb_eq in Hk as ->.
Qed.

Lemma grouping_preserves_records_witness :
  bucket_items PullRequests "2023-Q2" sample_grouped = [sample_pr_record]
  /\ all_items PullRequests sample_grouped ≡ₚ [sample_pr_record]
  /\ NoDup sample_grouped.*1.
Proof.
  pose proof (grouping_preserves_records sample_contributions sample_grouped
                PullRequests eq_refl) as (Hbucket & Hall & Hkeys & _).
  split; [exact (Hbucket "2023-Q2") | split; [exact Hall | exact Hkeys]].
Defined.

(* ===================================================================== *)
(** * The renderer on the output of the grouping *)
(* ===================================================================== *)

Section NoEmptyBucket.
Variable py_str : pyval -> string.

Lemma written_is_not_skip (path : string) :
  ~ is_skip_notice (Print ("Written file: " +:+ path)).
Proof. intros [key Heq]. rewrite !str_app_cons in Heq. congruence. Qed.

(** On a bucket with data, [write_bucket] adds no skip notice, whether it
    returns or raises. *)
Lemma write_bucket_trace (key : string) (data : contribution_set) (w : world) :
  has_data data = true ->
  exists events,
    trace (final_world (write_bucket py_str (key, data) tt w))
    = trace w ++ events
    /\ Forall (fun e => ~ is_skip_notice e) events.
Proof.
  intros Hdata. unfold write_bucket.
  destruct (py_split "-" key) as [|year [|quarter [|]]];
    try (exists []; split; [by rewrite app_nil_r | constructor]).
  unfold mbind, M_bind, emit, lift, write_file. rewrite Hdata.
  cbn [negb replies files trace].
  destruct (render_document py_str year quarter data) as [content|e].
  - eexists. cbn [final_world trace]. rewrite <- !app_assoc.
    split; [done|]. repeat constructor.
    + by intros [? ?].
    + by intros [? ?].
    + apply written_is_not_skip.
  - eexists. cbn [final_world trace]. split; [done|].
    repeat constructor. by intros [? ?].
Qed.

Lemma for_each_write_bucket_trace (grouped : list (string * contribution_set)) :
  Forall (fun e => has_data e.2 = true) grouped ->
  forall w, exists events,
    trace (final_world (for_each grouped (write_bucket py_str) tt w))
    = trace w ++ events
    /\ Forall (fun e => ~ is_skip_notice e) events.
Proof.
  induction 1 as [|[key data] grouped Hdata _ IH]; intros w.
  - exists []. split; [by rewrite app_nil_r | constructor].
  - destruct (write_bucket_trace key data w Hdata) as (ev1 & Htr1 & Hev1).
    cbn [for_each]. unfold mbind, M_bind.
    destruct (write_bucket py_str (key, data) tt w) as [[] w1|e w1|w1];
      cbn [final_world] in Htr1; [|by exists ev1..].
    destruct (IH w1) as (ev2 & Htr2 & Hev2).
    exists (ev1 ++ ev2). rewrite Htr2, Htr1, <- app_assoc.
    split; [done | by apply Forall_app].
Qed.

End NoEmptyBucket.

(** C8.  Every bucket of a grouping that [group_contributions_by_quarter]
    returns holds at least one record in some category, and on such a
    grouping the renderer never takes the branch for an empty quarter: a
    run of [write_markdown_files] adds no notice of a skipped quarter to
    the trace. *)
Theorem grouped_buckets_nonempty
    (contributions : list (string * list pyval))
    (grouped : list (string * contribution_set))
    (Hok : group_contributions_by_quarter contributions = Ok grouped) :
  Forall (fun entry =>
            has_data entry.2 = true
            /\ exists c item, In item (section_items c entry.2))
         grouped
  /\ (forall py_str w, exists events,
        trace (final_world (write_markdown_files py_str grouped w))
        = trace w ++ events
        /\ Forall (fun e => ~ is_skip_notice e) events).
Proof.
  destruct (group_types_buckets _ _ Hok) as [_ Hall]. split.
  - eapply Forall_impl; [exact Hall|]. intros [key data] Hdata.
    split; [done|]. cbn [snd] in *. unfold has_data in Hdata.
    apply existsb_exists in Hdata as (c & _ & Hc). exists c.
    destruct (section_items c data) as [|item items]; [done|].
    exists item. by left.
  - intros py_str w. unfold write_markdown_files, mbind, M_bind, emit.
    destruct (for_each_write_bucket_trace py_str grouped Hall
                {| replies := replies w; files := files w;
                   trace := trace w ++ [Makedirs base_dir] |})
      as (events & Htr & Hev).
    exists (Makedirs base_dir :: events). cbn [trace] in Htr.
    rewrite Htr, <- app_assoc. split; [done|].
    constructor; [by intros [? ?] | done].
Qed.

Lemma grouped_buckets_nonempty_witness :
  Forall (fun entry =>
            has_data entry.2 = true
            /\ exists c item, In item (section_items c entry.2))
         sample_grouped.
Proof.
  exact (proj1 (grouped_buckets_nonempty sample_contributions sample_grouped
                  eq_refl)).
Defined.

(* ===================================================================== *)
(** * One report per bucket *)
(* ===================================================================== *)

Section KeysAndPaths.

Lemma all_digits_uint (d : Decimal.uint) :
  all_digits (NilEmpty.string_of_uint d) = true.
Proof. induction d; simpl; auto. Qed.

Lemma str_of_int_digits (z : Z) :
  0 <= z -> all_digits (str_of_int z) = true /\ str_of_int z <> "".
Proof.
  intros Hz. unfold str_of_int. destruct z as [|p|p]; [done| |lia].
  simpl. destruct (Pos.to_uint p) eqn:Hp; simpl;
    (split; [|done]); rewrite ?all_digits_uint; done.
Qed.

Lemma all_digits_contains (c : ascii) (s : string) :
  is_digit c = false -> all_digits s = true -> contains c s = false.
Proof.
  intros Hc. induction s as [|a s IH]; simpl; [done|].
  intros [Ha Hs]%andb_true_iff. rewrite IH by done.
  destruct (Ascii.eqb_spec a c); [congruence | done].
Qed.

Lemma contains_app (c : ascii) (a b : string) :
  contains c (a +:+ b) = contains c a || contains c b.
Proof.
  induction a as [|x a IH]; [done|].
  rewrite str_app_cons. simpl. by rewrite IH, orb_assoc.
Qed.

Lemma split_fields_none (sep : ascii) (s : string) :
  contains sep s = false -> split_fields sep s = (s, []).
Proof.
  induction s as [|a s IH]; simpl; [done|].
  intros [Ha Hs]%orb_false_iff. by rewrite (IH Hs), Ha.
Qed.

Lemma py_split_pair (sep : ascii) (a b : string) :
  contains sep a = false -> contains sep b = false ->
  py_split sep (a +:+ String sep b) = [a; b].
Proof.
  intros Ha Hb. unfold py_split.
  assert (split_fields sep (a +:+ String sep b) = (a, [b])) as ->; [|done].
  induction a as [|x a IH].
  - rewrite str_app_nil_l. simpl.
    by rewrite (split_fields_none _ _ Hb), Ascii.eqb_refl.
  - simpl in Ha. apply orb_false_iff in Ha as [Hx Ha].
    rewrite str_app_cons. simpl. by rewrite (IH Ha), Hx.
Qed.

Lemma ends_with_app (c : ascii) (a b : string) :
  b <> "" -> ends_with c (a +:+ b) = ends_with c b.
Proof.
  intros Hb. induction a as [|x a IH]; [done|].
  rewrite str_app_cons. simpl. rewrite IH.
  destruct (a +:+ b) eqn:Hab; [|done].
  destruct a, b; done.
Qed.

Lemma ends_with_contains (c : ascii) (s : string) :
  contains c s = false -> ends_with c s = false.
Proof.
  induction s as [|a s IH]; simpl; [done|].
  intros [Ha Hs]%orb_false_iff. destruct s; [done | by apply IH].
Qed.

Lemma starts_with_contains (c : ascii) (s : string) :
  contains c s = false -> starts_with c s = false.
Proof. destruct s; simpl; [done|]. by intros [Ha _]%orb_false_iff. Qed.

(** The directory and the file of a key made of a year and a quarter
    number. *)
Lemma year_dir_path (year : string) :
  all_digits year = true -> year <> "" ->
  path_join base_dir year = "contributions/" +:+ year.
Proof.
  intros Hd Hne. unfold path_join.
  by rewrite starts_with_contains by by apply all_digits_contains.
Qed.

Lemma report_path (year file : string) :
  all_digits year = true -> year <> "" -> starts_with "/" file = false ->
  path_join ("contributions/" +:+ year) file
  = "contributions/" +:+ year +:+ "/" +:+ file.
Proof.
  intros Hd Hne Hfile. unfold path_join. rewrite Hfile.
  rewrite ends_with_app by done.
  rewrite ends_with_contains by by apply all_digits_contains.
  by rewrite !str_app_assoc.
Qed.

End KeysAndPaths.

Section Rendering.
Variable py_str : pyval -> string.

Lemma dict_mem_getitem (k : string) (d : list (string * pyval)) :
  dict_mem k d = true -> exists v, py_getitem (PDict d) k = Ok v.
Proof.
  unfold dict_mem, py_getitem. destruct (dict_get k d); [by eexists | done].
Qed.

Lemma is_record_row (item : pyval) :
  is_record item = true -> exists row, render_row py_str item = Ok row.
Proof.
  destruct item as [| | | |l|d]; try done. unfold is_record.
  rewrite !andb_true_iff. intros ((((Hdate & Hdesc) & Hrepo) & Htitle) & Hurl).
  unfold render_row.
  destruct (date_str_of (PDict d)) as [[| | |s| |]|]; try done.
  destruct (strptime_str s) as [dt|] eqn:Hparse; [|done].
  cbn [mbind result_bind strptime]. rewrite Hparse.
  destruct (dict_get "description" d) as [[| | |raw| |]|] eqn:Hraw; try done.
  assert (py_getitem (PDict d) "description" = Ok (PStr raw)) as ->
    by (unfold py_getitem; by rewrite Hraw).
  destruct (dict_mem_getitem _ _ Hrepo) as [repo ->].
  destruct (dict_mem_getitem _ _ Htitle) as [title ->].
  destruct (dict_mem_getitem _ _ Hurl) as [url ->].
  by eexists.
Qed.

Lemma render_rows_records (items : list pyval) :
  Forall (fun item => is_record item = true) items ->
  exists rows, forall acc, render_rows py_str items acc = Ok (acc +:+ rows).
Proof.
  induction 1 as [|item items Hitem _ [rows IH]].
  - exists "". intros acc. by rewrite str_app_nil_r.
  - destruct (is_record_row item Hitem) as [row Hrow].
    exists (row +:+ rows). intros acc. simpl. rewrite Hrow. simpl.
    by rewrite IH, str_app_assoc.
Qed.

Lemma render_section_records (data : contribution_set) (section : category)
    (title : string) :
  Forall (fun item => is_record item = true) (section_items section data) ->
  exists body, forall acc,
    render_section py_str data section title acc
    = Ok (acc +:+ section_heading title +:+ body).
Proof.
  intros Hitems. unfold render_section.
  destruct (section_items section data) as [|item items] eqn:Hsec.
  - eexists. intros acc. cbn [is_nil]. by rewrite !str_app_assoc.
  - destruct (render_rows_records _ Hitems) as [rows Hrows].
    eexists. intros acc. cbn [is_nil]. rewrite Hrows. simpl.
    by rewrite !str_app_assoc.
Qed.

Lemma render_document_records (year quarter : string) (data : contribution_set) :
  (forall c, Forall (fun item => is_record item = true) (section_items c data)) ->
  exists b1 b2 b3 b4,
    render_document py_str year quarter data
    = Ok (title_line year quarter
          +:+ section_heading "Pull Requests" +:+ b1
          +:+ section_heading "Issues" +:+ b2
          +:+ section_heading "Triaged Issues" +:+ b3
          +:+ section_heading "Reviewed PRs" +:+ b4).
Proof.
  intros Hall.
  destruct (render_section_records data PullRequests "Pull Requests" (Hall _))
    as [b1 H1].
  destruct (render_section_records data Issues "Issues" (Hall _)) as [b2 H2].
  destruct (render_section_records data TriagedIssues "Triaged Issues" (Hall _))
    as [b3 H3].
  destruct (render_section_records data ReviewedPrs "Reviewed PRs" (Hall _))
    as [b4 H4].
  exists b1, b2, b3, b4. unfold render_document, sections.
  cbn [render_sections]. rewrite H1. cbn [mbind result_bind].
  rewrite H2. cbn [mbind result_bind]. rewrite H3. cbn [mbind result_bind].
  rewrite H4. cbn [mbind result_bind]. fold (title_line year quarter).
  by rewrite !str_app_assoc.
Qed.

Lemma has_data_false (data : contribution_set) :
  has_data data = false <-> forall c, section_items c data = [].
Proof.
  unfold has_data. split.
  - intros H c.
    destruct data as [l1 l2 l3 l4]. destruct l1, l2, l3, l4; try done.
    by destruct c.
  - intros H. cbn [existsb].
    by rewrite (H PullRequests), (H Issues), (H TriagedIssues), (H ReviewedPrs).
Qed.

(** The body of the renderer's loop on one bucket.  A bucket whose four
    lists are all empty leaves the files as they
    were.  A bucket with a record in some category, under the key of a
    year and a quarter number and holding records, writes exactly one
    file: the file contributions/<year>/Q<n>-<year>.md, whose content is
    the title line followed by the four section headings in the order
    pull requests, issues, triaged issues, reviewed PRs, each followed by
    its body.  The write replaces whatever the path held before and
    leaves every other path alone. *)
Theorem write_bucket_file (key : string) (data : contribution_set) (w : world) :
  (has_data data = false <-> forall c, section_items c data = [])
  /\ (has_data data = false ->
      files (final_world (write_bucket py_str (key, data) tt w)) = files w)
  /\ (forall y n : Z,
        0 <= y -> 0 <= n ->
        key = str_of_int y +:+ "-Q" +:+ str_of_int n ->
        has_data data = true ->
        (forall c, Forall (fun item => is_record item = true)
                          (section_items c data)) ->
        let year := str_of_int y in
        let quarter := "Q" +:+ str_of_int n in
        let path := "contributions/" +:+ year +:+ "/" +:+ quarter +:+ "-"
                    +:+ year +:+ ".md" in
        exists b1 b2 b3 b4,
          let content :=
            "# Contributions - " +:+ quarter +:+ " " +:+ year +:+ nl +:+ nl
            +:+ "## Pull Requests" +:+ nl +:+ nl +:+ b1
            +:+ "## Issues" +:+ nl +:+ nl +:+ b2
            +:+ "## Triaged Issues" +:+ nl +:+ nl +:+ b3
            +:+ "## Reviewed PRs" +:+ nl +:+ nl +:+ b4 in
          write_bucket py_str (key, data) tt w
          = Done tt
              {| replies := replies w;
                 files := <[path := content]> (files w);
                 trace := trace w
                   ++ [Makedirs ("contributions/" +:+ year); WriteFile path;
                       Print ("Written file: " +:+ path)] |}
          /\ (<[path := content]> (files w)) !! path = Some content
          /\ (forall other, other <> path ->
                (<[path := content]> (files w)) !! other = files w !! other)).
Proof.
  split; [apply has_data_false|]. split.
  - intros Hempty. unfold write_bucket.
    destruct (py_split "-" key) as [|year [|quarter [|]]]; try done.
    unfold mbind, M_bind, emit. by rewrite Hempty.
  - intros y n Hy Hn -> Hdata Hrecords year quarter path.
    destruct (str_of_int_digits y Hy) as [Hyd Hyne].
    destruct (str_of_int_digits n Hn) as [Hnd Hnne].
    destruct (render_document_records year quarter data Hrecords)
      as (b1 & b2 & b3 & b4 & Hdoc).
    exists b1, b2, b3, b4. intros content.
    split; [|split; [apply lookup_insert_eq | by intros; apply lookup_insert_ne]].
    unfold write_bucket.
    change (str_of_int y +:+ "-Q" +:+ str_of_int n)
      with (year +:+ String "-" quarter).
    rewrite py_split_pair; first last.
    { subst quarter. rewrite str_app_cons, str_app_nil_l. simpl.
      by apply all_digits_contains. }
    { by apply all_digits_contains. }
    rewrite year_dir_path by done.
    rewrite report_path by done.
    unfold mbind, M_bind, emit, lift, write_file. rewrite Hdata, Hdoc.
    cbn [negb replies files trace]. rewrite <- !app_assoc.
    subst content path. unfold title_line, section_heading.
    by rewrite !str_app_assoc.
Qed.

End Rendering.

Lemma write_bucket_file_witness :
  exists b1 b2 b3 b4,
    files (final_world
             (write_bucket sample_py_str
                ("2023-Q2", {| pullRequests := [sample_pr_record];
                               issues := [sample_issue_record];
                               triagedIssues := []; reviewedPrs := [] |})
                tt (sample_world [])))
    !! "contributions/2023/Q2-2023.md"
    = Some ("# Contributions - Q2 2023" +:+ nl +:+ nl
            +:+ "## Pull Requests" +:+ nl +:+ nl +:+ b1
            +:+ "## Issues" +:+ nl +:+ nl +:+ b2
            +:+ "## Triaged Issues" +:+ nl +:+ nl +:+ b3
            +:+ "## Reviewed PRs" +:+ nl +:+ nl +:+ b4).
Proof.
  destruct (proj2 (proj2 (write_bucket_file sample_py_str "2023-Q2"
                            {| pullRequests := [sample_pr_record];
                               issues := [sample_issue_record];
                               triagedIssues := []; reviewedPrs := [] |}
                            (sample_world [])))
              2023 2 ltac:(lia) ltac:(lia) eq_refl eq_refl
              ltac:(intros []; repeat constructor))
    as (b1 & b2 & b3 & b4 & Hwrite & Hread & _).
  exists b1, b2, b3, b4. rewrite Hwrite. exact Hread.
Defined.

(* ===================================================================== *)
(** * Sample runs *)
(* ===================================================================== *)

Example strptime_sample :
  strptime_str "2022-04-15T00:00:00Z"
  = Some {| year := 2022; month := 4; day := 15;
            hour := 0; minute := 0; second := 0 |}.
Proof. reflexivity. Qed.

Example strptime_short_fields :
  strptime_str "2022-4-5t1:2:3z"
  = Some {| year := 2022; month := 4; day := 5;
            hour := 1; minute := 2; second := 3 |}.
Proof. reflexivity. Qed.

Example strptime_no_such_day : strptime_str "2023-02-29T00:00:00Z" = None.
Proof. reflexivity. Qed.

Example strptime_trailing : strptime_str "2022-04-15T00:00:00Z " = None.
Proof. reflexivity. Qed.

Example split_sample :
  py_split "/" "/repos/octo/hello" = [""; "repos"; "octo"; "hello"].
Proof. reflexivity. Qed.

Example strftime_sample :
  strftime_ymd {| year := 2022; month := 4; day := 5;
                  hour := 0; minute := 0; second := 0 |} = "2022-04-05".
Proof. reflexivity. Qed.

Example long_description_sample :
  render_description sample_long_description
  = "0123456789012345678901234567890123456789012345678901234567890123456789"
    +:+ "012345678901234567890123456789" +:+ "...".
Proof. reflexivity. Qed.

(** A whole run in the year 2019: four searches, one detail lookup, one
    report, exit status 0. *)
Example main_sample :
  exists w',
    main sample_py_str sample_exn_str sample_urlparse_path (Some "token") 2019
      (sample_world [Reply (sample_page [sample_pr 12] false);
                     Reply sample_pr_details;
                     Reply (sample_page [sample_issue] false);
                     Reply (sample_page [] false);
                     Reply (sample_page [] false)])
    = Done 0 w'
    /\ replies w' = []
    /\ files w'
       = files (final_world
                  (write_markdown_files sample_py_str sample_grouped
                     (sample_world []))).
Proof.
  eexists. split; [vm_compute; reflexivity|].
  split; vm_compute; reflexivity.
Qed.

Example grouping_sample :
  group_contributions_by_quarter sample_contributions = Ok sample_grouped.
Proof. reflexivity. Qed.

(** The scenario of one merged pull request of 2023-05-10 and one issue of
    2023-05-11: the run writes the single report of the second quarter of
    2023, with one row in the table of each of the two categories. *)
Example report_sample :
  files (final_world
           (write_markdown_files sample_py_str sample_grouped (sample_world [])))
  = {[ "contributions/2023/Q2-2023.md" :=
       "# Contributions - Q2 2023" +:+ nl +:+ nl
       +:+ "## Pull Requests" +:+ nl +:+ nl
       +:+ "| Project Name | Link | Description | Date |" +:+ nl
       +:+ "|---|---|---|---|" +:+ nl
       +:+ "| hello | [Fix typo](https://github.com/octo/hello/pull/12) | No description provided. | 2023-05-10 |" +:+ nl
       +:+ nl
       +:+ "## Issues" +:+ nl +:+ nl
       +:+ "| Project Name | Link | Description | Date |" +:+ nl
       +:+ "|---|---|---|---|" +:+ nl
       +:+ "| hello | [Crash on start](https://github.com/octo/hello/issues/7) | No description provided. | 2023-05-11 |" +:+ nl
       +:+ nl
       +:+ "## Triaged Issues" +:+ nl +:+ nl
       +:+ "No contributions found for this section." +:+ nl +:+ nl
       +:+ "## Reviewed PRs" +:+ nl +:+ nl
       +:+ "No contributions found for this section." +:+ nl +:+ nl ]}.
Proof. vm_compute. reflexivity. Qed.

(** A raw item without a ["body"] key at all is not normalised: the
    lookup raises. *)
Example missing_body_raises :
  issue_record sample_urlparse_path
    (PDict [("title", PStr "Crash on start");
            ("html_url", PStr "https://github.com/octo/hello/issues/7");
            ("repository_url", PStr "https://api.github.com/repos/octo/hello");
            ("created_at", PStr "2023-05-11T08:30:00Z")])
  = Raise (KeyError "body").
Proof. reflexivity. Qed.

(** A detail lookup answered with 404 in a whole run: the item is left
    out, the run goes on and ends with exit status 0. *)
Example main_skips_missing_details :
  exists w',
    main sample_py_str sample_exn_str sample_urlparse_path (Some "token") 2019
      (sample_world [Reply (sample_page [sample_pr 13; sample_pr 12] false);
                     Reply (sample_error 404);
                     Reply sample_pr_details;
                     Reply (sample_page [sample_issue] false);
                     Reply (sample_error 403);
                     Reply (sample_page [] false);
                     Reply (sample_page [] false)])
    = Done 0 w'
    /\ replies w' = []
    /\ files w'
       = files (final_world
                  (write_markdown_files sample_py_str sample_grouped
                     (sample_world []))).
Proof.
  eexists. split; [vm_compute; reflexivity|].
  split; vm_compute; reflexivity.
Qed.

(* ===================================================================== *)
(** * The collection as a whole *)
(* ===================================================================== *)

Section Collection.
Variable py_str : pyval -> string.
Variable exn_str : exn -> string.
Variable urlparse_path : string -> option string.

(** Without a token nothing is asked of the network: the collection
    raises [ValueError] in the world it started in, and the run ends with
    exit status 1 after the failure notice alone. *)
Theorem missing_token_aborts (token : option string) (current_year : Z)
    (w : world)
    (Htoken : token = None \/ token = Some "") :
  fetch_contributions py_str urlparse_path token current_year w
  = Raised ValueError w
  /\ main py_str exn_str urlparse_path token current_year w
     = Done 1 {| replies := replies w; files := files w;
                 trace := trace w
                   ++ [Print ("Failed to update contributions: "
                              +:+ exn_str ValueError)] |}.
Proof.
  assert (Hfetch : fetch_contributions py_str urlparse_path token
                     current_year w = Raised ValueError w)
    by (by destruct Htoken as [-> | ->]).
  split; [done|]. by rewrite (main_aborts_on_fetch_raise _ _ _ _ _ _ _ _ Hfetch).
Qed.

Lemma py_range_nil (lo hi : Z) : hi <= lo -> py_range lo hi = [].
Proof.
  intros Hle. unfold py_range. by replace (Z.to_nat (hi - lo)) with 0%nat by lia.
Qed.

(** Before the first year of the range there is nothing to collect: the
    collection returns the empty set without a request, and the run makes
    the output directory, writes no report and ends with exit status 0. *)
Theorem no_year_no_request (token : string) (current_year : Z) (w : world)
    (Htoken : token <> "")
    (Hyear : current_year < SINCE_YEAR) :
  fetch_contributions py_str urlparse_path (Some token) current_year w
  = Done empty_set w
  /\ main py_str exn_str urlparse_path (Some token) current_year w
     = Done 0 {| replies := replies w; files := files w;
                 trace := trace w
                   ++ [Makedirs "contributions";
                       Print "Contributions update completed successfully."] |}.
Proof.
  assert (Hfetch : fetch_contributions py_str urlparse_path (Some token)
                     current_year w = Done empty_set w).
  { unfold fetch_contributions. destruct token; [done|].
    by rewrite py_range_nil by lia. }
  split; [done|]. unfold main, main_body.
  rewrite (bind_done _ _ _ _ _ Hfetch).
  change (group_contributions_by_quarter (set_items empty_set))
    with (@Ok (list (string * contribution_set)) []).
  unfold write_markdown_files, mbind, M_bind, lift, emit.
  cbn [for_each mret M_ret replies files trace].
  by rewrite <- app_assoc.
Qed.

End Collection.

Lemma missing_token_aborts_witness :
  main sample_py_str sample_exn_str sample_urlparse_path None 2024
    (sample_world [Reply (sample_page [] false)])
  = Done 1 {| replies := [Reply (sample_page [] false)]; files := ∅;
              trace := [Print "Failed to update contributions: value error"] |}.
Proof.
  exact (proj2 (missing_token_aborts sample_py_str sample_exn_str
                  sample_urlparse_path None 2024
                  (sample_world [Reply (sample_page [] false)])
                  (or_introl eq_refl))).
Defined.

Lemma no_year_no_request_witness :
  fetch_contributions sample_py_str sample_urlparse_path (Some "token") 2018
    (sample_world [Reply (sample_page [] false)])
  = Done empty_set (sample_world [Reply (sample_page [] false)]).
Proof.
  refine (proj1 (no_year_no_request sample_py_str sample_exn_str
                   sample_urlparse_path "token" 2018
                   (sample_world [Reply (sample_page [] false)]) _ _)).
  - discriminate.
  - reflexivity.
Defined.

(* ===================================================================== *)
(** * The collection writes no file *)
(* ===================================================================== *)

Section KeepsFiles.

Lemma keeps_files_bind {A B} (m : M A) (f : A -> M B) :
  keeps_files m -> (forall a, keeps_files (f a)) -> keeps_files (m ≫= f).
Proof.
  intros Hm Hf w. unfold mbind, M_bind. specialize (Hm w).
  destruct (m w) as [a w1|e w1|w1]; cbn [final_world] in *; [|done..].
  by rewrite Hf.
Qed.

Lemma keeps_files_ret {A} (a : A) : keeps_files (mret a).
Proof. by intros w. Qed.

Lemma keeps_files_lift {A} (r : result A) : keeps_files (lift r).
Proof. intros w. by destruct r. Qed.

Lemma keeps_files_emit (e : event) : keeps_files (emit e).
Proof. by intros w. Qed.

Lemma keeps_files_session_get (url : string) : keeps_files (session_get url).
Proof. intros w. unfold session_get. by destruct (replies w) as [|[|r] rest]. Qed.

Lemma keeps_files_for_each {A S} (xs : list A) (body : A -> S -> M S) (s : S) :
  (forall x s', keeps_files (body x s')) -> keeps_files (for_each xs body s).
Proof.
  intros Hbody. revert s. induction xs as [|x xs IH]; intros s.
  - apply keeps_files_ret.
  - cbn [for_each]. by apply keeps_files_bind.
Qed.

Lemma loop_keeps_files (query : string) (script : list reply) :
  forall fs tr results page,
    files (final_world (get_all_pages_loop query script fs tr results page))
    = fs.
Proof.
  induction script as [|[|r] script IH]; intros fs tr results page;
    cbn [get_all_pages_loop]; [done..|].
  destruct (raises_for_status r).
  - destruct (status_code r =? 403); [apply IH | done].
  - destruct (page_items r); [|done].
    destruct (links_next r); [apply IH | done].
Qed.

Lemma keeps_files_get_all_pages (query : string) :
  keeps_files (get_all_pages query).
Proof. intros w. apply loop_keeps_files. Qed.

Variable py_str : pyval -> string.
Variable exn_str : exn -> string.
Variable urlparse_path : string -> option string.

Lemma keeps_files_fetch_pr pr c : keeps_files (fetch_pr py_str urlparse_path pr c).
Proof.
  unfold fetch_pr.
  repeat first
    [ apply keeps_files_bind; [|intros ?]
    | apply keeps_files_lift | apply keeps_files_session_get
    | apply keeps_files_emit | apply keeps_files_ret
    | match goal with |- keeps_files (if ?b then _ else _) => destruct b end ].
Qed.

Lemma keeps_files_add_record cat normalise item c :
  keeps_files (add_record cat normalise item c).
Proof.
  unfold add_record.
  apply keeps_files_bind; [apply keeps_files_lift | intros; apply keeps_files_ret].
Qed.

Lemma keeps_files_fetch_year year c :
  keeps_files (fetch_year py_str urlparse_path year c).
Proof.
  unfold fetch_year.
  repeat first
    [ apply keeps_files_fetch_pr | apply keeps_files_add_record
    | apply keeps_files_emit | apply keeps_files_get_all_pages
    | apply keeps_files_for_each; intros ? ?
    | apply keeps_files_bind; [|intros ?]
    | progress cbv zeta ].
Qed.

Lemma keeps_files_fetch_contributions token current_year :
  keeps_files (fetch_contributions py_str urlparse_path token current_year).
Proof.
  unfold fetch_contributions. destruct token as [[|? ?]|];
    try apply keeps_files_lift.
  apply keeps_files_for_each. intros. apply keeps_files_fetch_year.
Qed.

(** The collection never writes a file, however it ends; so a run that
    fails while collecting, or while grouping what it collected, ends
    with exit status 1 and with the files exactly as they were before the
    run. *)
Theorem failure_leaves_files (token : option string) (current_year : Z)
    (w : world) :
  files (final_world
           (fetch_contributions py_str urlparse_path token current_year w))
  = files w
  /\ (forall e w1,
        fetch_contributions py_str urlparse_path token current_year w
        = Raised e w1 ->
        exists w',
          main py_str exn_str urlparse_path token current_year w = Done 1 w'
          /\ files w' = files w /\ replies w' = replies w1)
  /\ (forall contributions w1 e,
        fetch_contributions py_str urlparse_path token current_year w
        = Done contributions w1 ->
        group_contributions_by_quarter (set_items contributions) = Raise e ->
        exists w',
          main py_str exn_str urlparse_path token current_year w = Done 1 w'
          /\ files w' = files w /\ replies w' = replies w1).
Proof.
  pose proof (keeps_files_fetch_contributions token current_year w) as Hkeep.
  split; [done|]. split.
  - intros e w1 Hfetch. rewrite Hfetch in Hkeep. cbn [final_world] in Hkeep.
    eexists. split; [by apply main_aborts_on_fetch_raise|]. by split.
  - intros contributions w1 e Hfetch Hgroup.
    rewrite Hfetch in Hkeep. cbn [final_world] in Hkeep.
    assert (Hbody : main_body py_str urlparse_path token current_year w
                    = Raised e w1).
    { unfold main_body. rewrite (bind_done _ _ _ _ _ Hfetch). by rewrite Hgroup. }
    eexists. split; [by apply main_aborts_on_raise|]. by split.
Qed.

End KeepsFiles.

Lemma failure_leaves_files_witness :
  exists w',
    main sample_py_str sample_exn_str sample_urlparse_path (Some "token") 2019
      {| replies := [Reply (sample_page [] false); Reply (sample_error 500)];
         files := {[ "contributions/2018/Q4-2018.md" := "kept" ]};
         trace := [] |}
    = Done 1 w'
    /\ files w' = {[ "contributions/2018/Q4-2018.md" := "kept" ]}
    /\ replies w' = [].
Proof.
  edestruct (proj1 (proj2 (failure_leaves_files sample_py_str sample_exn_str
                             sample_urlparse_path (Some "token") 2019
                             {| replies := [Reply (sample_page [] false);
                                            Reply (sample_error 500)];
                                files := {[ "contributions/2018/Q4-2018.md"
                                            := "kept" ]};
                                trace := [] |})))
    as (w' & Hmain & Hfiles & Hreplies); [vm_compute; reflexivity|].
  exists w'. split; [exact Hmain | split; [exact Hfiles | exact Hreplies]].
Defined.

(* ===================================================================== *)
(** * The order of the searches *)
(* ===================================================================== *)

Section SearchOrder.
Variable py_str : pyval -> string.
Variable urlparse_path : string -> option string.

Lemma get_all_pages_empty (query : string) (r : response) (rest : list reply)
    (w : world) :
  empty_page r -> replies w = Reply r :: rest ->
  get_all_pages query w
  = Done [] {| replies := rest; files := files w;
               trace := trace w ++ [Get (search_url query 1)] |}.
Proof.
  intros (Hok & Hnext & Hitems) Hreplies. unfold get_all_pages.
  by rewrite Hreplies, (loop_success _ _ _ _ _ _ _ Hok), Hnext, Hitems.
Qed.

Lemma fetch_year_empty (year : Z) (c : contribution_set)
    (r1 r2 r3 r4 : response) (rest : list reply) (w : world) :
  empty_page r1 -> empty_page r2 -> empty_page r3 -> empty_page r4 ->
  replies w = Reply r1 :: Reply r2 :: Reply r3 :: Reply r4 :: rest ->
  fetch_year py_str urlparse_path year c w
  = Done c {| replies := rest; files := files w;
              trace := trace w ++ year_events year |}.
Proof.
  intros H1 H2 H3 H4 Hreplies.
  unfold fetch_year, mbind, M_bind, emit. cbv zeta.
  erewrite (get_all_pages_empty _ r1); [|done|exact Hreplies].
  cbn [for_each mret M_ret].
  erewrite (get_all_pages_empty _ r2); [|done|reflexivity].
  cbn [for_each mret M_ret].
  erewrite (get_all_pages_empty _ r3); [|done|reflexivity].
  cbn [for_each mret M_ret].
  erewrite (get_all_pages_empty _ r4); [|done|reflexivity].
  cbn [for_each mret M_ret replies files trace]. unfold year_events.
  by rewrite <- !app_assoc.
Qed.

Lemma fetch_years_empty (years : list Z) :
  forall (pages : list response) (c : contribution_set) (rest : list reply)
         (w : world),
    Forall empty_page pages ->
    List.length pages = (4 * List.length years)%nat ->
    replies w = (Reply <$> pages) ++ rest ->
    for_each years (fetch_year py_str urlparse_path) c w
    = Done c {| replies := rest; files := files w;
                trace := trace w ++ flat_map year_events years |}.
Proof.
  induction years as [|year years IH]; intros pages c rest w Hall Hlen Hreplies.
  - destruct pages; [|done]. cbn in *. rewrite app_nil_r.
    destruct w; cbn in *. by subst.
  - destruct pages as [|r1 [|r2 [|r3 [|r4 pages]]]]; try (cbn in Hlen; lia).
    apply Forall_cons in Hall as [H1 Hall].
    apply Forall_cons in Hall as [H2 Hall].
    apply Forall_cons in Hall as [H3 Hall].
    apply Forall_cons in Hall as [H4 Hall].
    rewrite !fmap_cons, <- !app_comm_cons in Hreplies.
    assert (Hlen' : List.length pages = (4 * List.length years)%nat)
      by (cbn in Hlen; lia).
    cbn [for_each].
    rewrite (bind_done _ _ _ _ _
               (fetch_year_empty year c r1 r2 r3 r4 _ w H1 H2 H3 H4 Hreplies)).
    rewrite (IH pages c rest) by done.
    cbn [replies files trace flat_map]. by rewrite <- !app_assoc.
Qed.

(** When every search is answered by one empty page, the collection makes
    exactly four requests per year, for the years from [SINCE_YEAR] to the
    current year in ascending order and, within a year, in the order
    merged pull requests, created issues, reviewed pull requests, assigned
    issues, each for page 1; it makes no detail lookup, collects nothing
    and leaves the replies beyond those unused. *)
Theorem empty_answers_requests (token : string) (current_year : Z)
    (pages : list response) (rest : list reply) (w : world)
    (Htoken : token <> "")
    (Hpages : Forall empty_page pages)
    (Hlen : List.length pages
            = (4 * List.length (py_range SINCE_YEAR (current_year + 1)))%nat)
    (Hreplies : replies w = (Reply <$> pages) ++ rest) :
  fetch_contributions py_str urlparse_path (Some token) current_year w
  = Done empty_set
      {| replies := rest; files := files w;
         trace := trace w
           ++ flat_map year_events (py_range SINCE_YEAR (current_year + 1)) |}.
Proof.
  unfold fetch_contributions. destruct token; [done|].
  by apply (fetch_years_empty _ pages).
Qed.

End SearchOrder.

Lemma empty_answers_requests_witness :
  fetch_contributions sample_py_str sample_urlparse_path (Some "token") 2020
    (sample_world (replicate 9 (Reply (sample_page [] false))))
  = Done empty_set
      {| replies := [Reply (sample_page [] false)]; files := ∅;
         trace := year_events 2019 ++ year_events 2020 |}.
Proof.
  refine (empty_answers_requests sample_py_str sample_urlparse_path "token"
            2020 (replicate 8 (sample_page [] false))
            [Reply (sample_page [] false)] (sample_world _) _ _ eq_refl eq_refl).
  - discriminate.
  - repeat constructor; by eexists.
Defined.

(* ===================================================================== *)
(** * From raw items to grouped records *)
(* ===================================================================== *)

Section RecordFields.
Variable urlparse_path : string -> option string.

Lemma item_key_single (ts_key : string) (title url repo description v : pyval) :
  In ts_key ["merged_at"; "created_at"; "reviewed_at"; "triaged_at"] ->
  item_key (PDict [("title", title); ("url", url); ("repo", repo);
                   ("description", description); (ts_key, v)])
  = key_from v.
Proof.
  intros Hkey. unfold item_key, key_from, date_str_of.
  destruct (truthy v) eqn:Hv;
    repeat (destruct Hkey as [<- | Hkey]); try done;
    cbn; rewrite ?Hv; cbn; by rewrite ?Hv.
Qed.

Lemma pr_record_key (repo_name : string) (raw record : pyval) :
  pr_record repo_name raw = Ok record ->
  exists v, py_getitem raw "merged_at" = Ok v /\ item_key record = key_from v.
Proof.
  unfold pr_record. do 4 next_step. intros [= <-]. eexists. split; [done|].
  apply (item_key_single "merged_at"). cbn. tauto.
Qed.

Lemma search_record_key (date_key date_field : string) (raw record : pyval) :
  In date_key ["merged_at"; "created_at"; "reviewed_at"; "triaged_at"] ->
  search_record urlparse_path date_key date_field raw = Ok record ->
  exists v, py_getitem raw date_field = Ok v /\ item_key record = key_from v.
Proof.
  intros Hkey. unfold search_record. do 6 next_step. intros [= <-].
  eexists. split; [done|].
  by apply (item_key_single date_key).
Qed.

(** The quarter of a normalised record is decided by one field of the raw
    item: [merged_at] of the detail payload for a merged pull request,
    [created_at] for a created issue, [updated_at] for a reviewed pull
    request and for a triaged issue.  When that field is [None] or empty
    the record has no key and grouping drops it; otherwise its key is the
    quarter of the parsed field, and a field that does not parse makes
    grouping raise. *)
Theorem record_quarter_field (raw record : pyval) :
  ((exists repo_name, pr_record repo_name raw = Ok record) ->
   exists v, py_getitem raw "merged_at" = Ok v
             /\ item_key record = key_from v)
  /\ (issue_record urlparse_path raw = Ok record ->
      exists v, py_getitem raw "created_at" = Ok v
                /\ item_key record = key_from v)
  /\ (reviewed_record urlparse_path raw = Ok record ->
      exists v, py_getitem raw "updated_at" = Ok v
                /\ item_key record = key_from v)
  /\ (triaged_record urlparse_path raw = Ok record ->
      exists v, py_getitem raw "updated_at" = Ok v
                /\ item_key record = key_from v).
Proof.
  split; [|split; [|split]].
  - intros [repo_name H]. by eapply pr_record_key.
  - apply search_record_key. cbn. tauto.
  - apply search_record_key. cbn. tauto.
  - apply search_record_key. cbn. tauto.
Qed.

End RecordFields.

Lemma record_quarter_field_witness :
  exists v,
    py_getitem sample_issue "created_at" = Ok v
    /\ item_key sample_issue_record = key_from v.
Proof.
  exact (proj1 (proj2 (record_quarter_field sample_urlparse_path sample_issue
                         sample_issue_record)) eq_refl).
Defined.

(* ===================================================================== *)
(** * The shape of the collected records *)
(* ===================================================================== *)

Section Inversion.
Context {A B : Type}.

Lemma bind_Done_inv (m : M A) (f : A -> M B) w b w' :
  (m ≫= f) w = Done b w' -> exists a w1, m w = Done a w1 /\ f a w1 = Done b w'.
Proof.
  unfold mbind, M_bind. destruct (m w) as [a w1|e w1|w1]; [|done..].
  intros Hf. by exists a, w1.
Qed.

Lemma lift_Done_inv (r : result A) w a w' :
  lift r w = Done a w' -> r = Ok a /\ w' = w.
Proof. destruct r; [|done]. by intros [= <- <-]. Qed.

End Inversion.

Lemma for_each_invariant {A S} (P : S -> Prop) (body : A -> S -> M S) :
  (forall x s w s' w', P s -> body x s w = Done s' w' -> P s') ->
  forall xs s w s' w', P s -> for_each xs body s w = Done s' w' -> P s'.
Proof.
  intros Hbody xs. induction xs as [|x xs IH]; intros s w s' w' Hs Hdone.
  - by injection Hdone as <- _.
  - cbn [for_each] in Hdone.
    apply bind_Done_inv in Hdone as (s1 & w1 & Hx & Hxs).
    eapply IH; [|exact Hxs]. by eapply Hbody.
Qed.

Section RecordShape.
Variable py_str : pyval -> string.
Variable urlparse_path : string -> option string.

Lemma py_or_truthy (a b : pyval) :
  truthy b = true -> truthy (py_or a b) = true.
Proof. intros Hb. unfold py_or. by destruct (truthy a) eqn:Ha. Qed.

Lemma pr_record_shape (repo_name : string) (raw record : pyval) :
  pr_record repo_name raw = Ok record -> record_shape "merged_at" record.
Proof.
  unfold pr_record. do 4 next_step. intros [= <-].
  eexists _, _, _, _, _. split; [done|]. by apply py_or_truthy.
Qed.

Lemma search_record_shape (date_key date_field : string) (raw record : pyval) :
  search_record urlparse_path date_key date_field raw = Ok record ->
  record_shape date_key record.
Proof.
  unfold search_record. do 6 next_step. intros [= <-].
  eexists _, _, _, _, _. split; [done|]. by apply py_or_truthy.
Qed.

Lemma well_shaped_append (cat : category) (record : pyval)
    (c : contribution_set) :
  well_shaped c -> record_shape (timestamp_key cat) record ->
  well_shaped (append_to cat record c).
Proof.
  intros Hc Hrecord cat'. rewrite section_items_append.
  apply Forall_app. split; [apply Hc|].
  case_bool_decide as Heq; [|constructor]. subst. by repeat constructor.
Qed.

Lemma fetch_pr_well_shaped pr c w c' w' :
  well_shaped c -> fetch_pr py_str urlparse_path pr c w = Done c' w' ->
  well_shaped c'.
Proof.
  intros Hc. unfold fetch_pr. intros Hdone.
  repeat (apply bind_Done_inv in Hdone as (? & ? & _ & Hdone)).
  destruct (status_code _ =? 200).
  - apply bind_Done_inv in Hdone as (pr_data & ? & _ & Hdone).
    apply bind_Done_inv in Hdone as (record & ? & Hrecord & Hdone).
    apply lift_Done_inv in Hrecord as [Hrecord _].
    injection Hdone as <- _.
    apply (well_shaped_append PullRequests); [done|].
    by eapply pr_record_shape.
  - apply bind_Done_inv in Hdone as (? & ? & _ & Hdone).
    apply bind_Done_inv in Hdone as (? & ? & _ & Hdone).
    by injection Hdone as <- _.
Qed.

Lemma add_record_well_shaped cat date_field item c w c' w' :
  well_shaped c ->
  add_record cat
    (search_record urlparse_path (timestamp_key cat) date_field) item c w
  = Done c' w' ->
  well_shaped c'.
Proof.
  intros Hc. unfold add_record. intros Hdone.
  apply bind_Done_inv in Hdone as (record & ? & Hrecord & Hdone).
  apply lift_Done_inv in Hrecord as [Hrecord _]. injection Hdone as <- _.
  apply well_shaped_append; [done|]. by eapply search_record_shape.
Qed.

Lemma fetch_year_well_shaped year c w c' w' :
  well_shaped c -> fetch_year py_str urlparse_path year c w = Done c' w' ->
  well_shaped c'.
Proof.
  intros Hc. unfold fetch_year. intros Hdone. cbv zeta in Hdone.
  apply bind_Done_inv in Hdone as (? & ? & _ & Hdone).
  apply bind_Done_inv in Hdone as (prs & ? & _ & Hdone).
  apply bind_Done_inv in Hdone as (c1 & ? & Hprs & Hdone).
  apply bind_Done_inv in Hdone as (found & ? & _ & Hdone).
  apply bind_Done_inv in Hdone as (c2 & ? & Hissues & Hdone).
  apply bind_Done_inv in Hdone as (found' & ? & _ & Hdone).
  apply bind_Done_inv in Hdone as (c3 & ? & Hreviewed & Hdone).
  apply bind_Done_inv in Hdone as (found'' & ? & _ & Htriaged).
  assert (H1 : well_shaped c1).
  { eapply (for_each_invariant well_shaped); [|exact Hc|exact Hprs].
    intros. by eapply fetch_pr_well_shaped. }
  assert (H2 : well_shaped c2).
  { eapply (for_each_invariant well_shaped); [|exact H1|exact Hissues].
    intros. by eapply (add_record_well_shaped Issues). }
  assert (H3 : well_shaped c3).
  { eapply (for_each_invariant well_shaped); [|exact H2|exact Hreviewed].
    intros. by eapply (add_record_well_shaped ReviewedPrs). }
  eapply (for_each_invariant well_shaped); [|exact H3|exact Htriaged].
  intros. by eapply (add_record_well_shaped TriagedIssues).
Qed.

(** Whatever the network answers, every record of a collection that
    returns has the shape of its category: the five keys title, url,
    repo, description and the category's timestamp key (merged_at,
    created_at, reviewed_at or triaged_at), in that order, with a string
    for the repository name and a description that is never [None],
    empty or otherwise false. *)
Theorem collected_records_shape (token : option string) (current_year : Z)
    (w w' : world) (contributions : contribution_set)
    (Hdone : fetch_contributions py_str urlparse_path token current_year w
             = Done contributions w') :
  forall cat,
    Forall (record_shape (timestamp_key cat)) (section_items cat contributions).
Proof.
  unfold fetch_contributions in Hdone.
  destruct token as [[|? ?]|]; try done.
  eapply (for_each_invariant well_shaped); [| |exact Hdone].
  - intros. by eapply fetch_year_well_shaped.
  - intros cat. rewrite section_items_empty. constructor.
Qed.

End RecordShape.

Lemma collected_records_shape_witness :
  Forall (record_shape "merged_at") [sample_pr_record]
  /\ Forall (record_shape "created_at") [sample_issue_record].
Proof.
  assert (Hshape := collected_records_shape sample_py_str sample_urlparse_path
            (Some "token") 2019
            (sample_world [Reply (sample_page [sample_pr 12] false);
                           Reply sample_pr_details;
                           Reply (sample_page [sample_issue] false);
                           Reply (sample_page [] false);
                           Reply (sample_page [] false)])
            (final_world
               (fetch_contributions sample_py_str sample_urlparse_path
                  (Some "token") 2019
                  (sample_world [Reply (sample_page [sample_pr 12] false);
                                 Reply sample_pr_details;
                                 Reply (sample_page [sample_issue] false);
                                 Reply (sample_page [] false);
                                 Reply (sample_page [] false)])))
            {| pullRequests := [sample_pr_record];
               issues := [sample_issue_record];
               triagedIssues := []; reviewedPrs := [] |}).
  split.
  - refine (Hshape _ PullRequests). vm_compute. reflexivity.
  - refine (Hshape _ Issues). vm_compute. reflexivity.
Defined.

(* ===================================================================== *)
(** * More on the page loop *)
(* ===================================================================== *)

Section PageLoopMore.
Variable query : string.

(** Rate limiting changes nothing but the trace: with the 403 replies
    taken out of the script, the loop ends the same way, with the same
    items or the same exception, from any state. *)
Theorem rate_limits_are_transparent (script : list reply) :
  forall (fs : gmap string string) (tr tr' : list event)
         (results : list pyval) (page : Z),
    same_ending
      (get_all_pages_loop query script fs tr results page)
      (get_all_pages_loop query (without_rate_limits script) fs tr'
                          results page).
Proof.
  induction script as [|[|r] script IH]; intros fs tr tr' results page.
  - done.
  - done.
  - unfold without_rate_limits. cbn [List.filter rate_limited].
    destruct (Z.eqb_spec (status_code r) 403) as [H403|Hne]; cbn [negb].
    + rewrite (loop_403 _ _ _ _ _ _ _ H403). apply IH.
    + cbn [get_all_pages_loop]. destruct (raises_for_status r).
      * destruct (Z.eqb_spec (status_code r) 403); done.
      * destruct (page_items r); [|done].
        destruct (links_next r); [apply IH | done].
Qed.

Lemma loop_pages_prefix (pages : list response) :
  forall (script : list reply) fs tr results page,
    Forall (fun r => successful r /\ links_next r = true) pages ->
    get_all_pages_loop query ((Reply <$> pages) ++ script) fs tr results page
    = get_all_pages_loop query script fs
        (tr ++ page_requests query page (List.length pages))
        (results ++ List.concat (items_of <$> pages))
        (page + Z.of_nat (List.length pages)).
Proof.
  induction pages as [|r pages IH]; intros script fs tr results page Hpages.
  - cbn [fmap list_fmap app List.length List.concat]. unfold page_requests.
    cbn [seq fmap list_fmap]. by rewrite !app_nil_r, Z.add_0_r.
  - apply Forall_cons in Hpages as [[Hr Hnext] Hpages].
    rewrite fmap_cons, <- app_comm_cons.
    rewrite (loop_success _ _ _ _ _ _ _ Hr), Hnext, (IH _ _ _ _ _ Hpages).
    cbn [List.length]. rewrite page_requests_S, fmap_cons.
    cbn [List.concat]. rewrite <- !app_assoc.
    f_equal. lia.
Qed.

(** Only status 403 is retried.  After any number of pages, a request
    that fails at the connection, or whose answer has no error status but
    no usable payload (not JSON, no "items", "items" not iterable), raises
    at once: no sleep, no second attempt, the replies after it unused,
    and the items of the pages before it are not returned. *)
Theorem page_failures_are_final (pages : list response) (rest : list reply)
    (w : world)
    (Hpages : Forall (fun r => successful r /\ links_next r = true) pages) :
  let w' := {| replies := rest; files := files w;
               trace := trace w
                 ++ page_requests query 1 (S (List.length pages)) |} in
  (replies w = (Reply <$> pages) ++ ConnFail :: rest ->
   get_all_pages query w = Raised ConnectionError w')
  /\ (forall r e,
        replies w = (Reply <$> pages) ++ Reply r :: rest ->
        raises_for_status r = false -> page_items r = Raise e ->
        get_all_pages query w = Raised e w')
  /\ (forall r,
        raises_for_status r = false ->
        (json r = None -> page_items r = Raise JSONDecodeError)
        /\ (forall d, json r = Some (PDict d) -> dict_get "items" d = None ->
            page_items r = Raise (KeyError "items"))
        /\ (forall d, json r = Some (PDict d) ->
            dict_get "items" d = Some PNone ->
            page_items r = Raise TypeError)).
Proof.
  intros w'. subst w'.
  assert (Hreq : forall n,
             page_requests query 1 n
             ++ [Get (search_url query (1 + Z.of_nat n))]
             = page_requests query 1 (S n)).
  { intros n. unfold page_requests. by rewrite seq_S, fmap_app. }
  split; [|split].
  - intros Hreplies. unfold get_all_pages.
    rewrite Hreplies, (loop_pages_prefix _ _ _ _ _ _ Hpages).
    cbn [get_all_pages_loop]. by rewrite <- app_assoc, Hreq.
  - intros r e Hreplies Hstatus Hitems. unfold get_all_pages.
    rewrite Hreplies, (loop_pages_prefix _ _ _ _ _ _ Hpages).
    cbn [get_all_pages_loop]. rewrite Hstatus, Hitems.
    by rewrite <- app_assoc, Hreq.
  - intros r Hstatus. unfold page_items, response_json. split; [|split].
    + by intros ->.
    + intros d -> Hd. cbn. by rewrite Hd.
    + intros d -> Hd. cbn. by rewrite Hd.
Qed.

End PageLoopMore.

Lemma rate_limits_are_transparent_witness :
  same_ending
    (get_all_pages "q"
       (sample_world [Reply (sample_error 403);
                      Reply (sample_page [PStr "a"] true);
                      Reply (sample_error 403); Reply (sample_error 403);
                      Reply (sample_page [PStr "b"] false);
                      Reply (sample_error 403)]))
    (get_all_pages "q"
       (sample_world [Reply (sample_page [PStr "a"] true);
                      Reply (sample_page [PStr "b"] false)])).
Proof.
  exact (rate_limits_are_transparent "q"
           [Reply (sample_error 403); Reply (sample_page [PStr "a"] true);
            Reply (sample_error 403); Reply (sample_error 403);
            Reply (sample_page [PStr "b"] false); Reply (sample_error 403)]
           ∅ [] [] [] 1).
Defined.

Lemma page_failures_are_final_witness :
  get_all_pages "q"
    (sample_world [Reply (sample_page [PStr "a"] true);
                   Reply {| status_code := 200; links_next := true;
                            json := None |};
                   Reply (sample_page [PStr "b"] false)])
  = Raised JSONDecodeError
      {| replies := [Reply (sample_page [PStr "b"] false)]; files := ∅;
         trace := [Get (search_url "q" 1); Get (search_url "q" 2)] |}.
Proof.
  refine (proj1 (proj2 (page_failures_are_final "q"
                          [sample_page [PStr "a"] true]
                          [Reply (sample_page [PStr "b"] false)]
                          (sample_world _) _))
            {| status_code := 200; links_next := true; json := None |}
            JSONDecodeError eq_refl eq_refl eq_refl).
  repeat constructor. by eexists.
Defined.

(* ===================================================================== *)
(** * The repository name *)
(* ===================================================================== *)

Section RepoName.
Variable py_str : pyval -> string.
Variable urlparse_path : string -> option string.

Lemma split_fields_app (sep : ascii) (a b : string) :
  split_fields sep (a +:+ String sep b)
  = ((split_fields sep a).1,
     (split_fields sep a).2 ++ py_split sep b).
Proof.
  unfold py_split. induction a as [|x a IH].
  - rewrite str_app_nil_l. cbn [split_fields].
    rewrite Ascii.eqb_refl. by destruct (split_fields sep b).
  - rewrite str_app_cons. cbn [split_fields]. rewrite IH.
    destruct (split_fields sep a) as [field fields]. cbn [fst snd].
    by destruct (Ascii.eqb x sep).
Qed.

Lemma py_split_app (sep : ascii) (a b : string) :
  py_split sep (a +:+ String sep b) = py_split sep a ++ py_split sep b.
Proof.
  unfold py_split at 1 2. rewrite split_fields_app.
  by destruct (split_fields sep a).
Qed.

Lemma py_split_none (sep : ascii) (s : string) :
  contains sep s = false -> py_split sep s = [s].
Proof. intros Hs. unfold py_split. by rewrite split_fields_none. Qed.

(** The repository name is the last segment of the path of the item's
    [repository_url] and the owner the segment before it, whatever comes
    before them.  A path without any slash has one segment only: it is
    taken whole as the repository name of an issue or a reviewed pull
    request, while a merged pull request, which needs the owner for its
    detail lookup, raises [IndexError] before any request is made. *)
Theorem repo_name_is_last_segment (item : pyval) (u : string)
    (Hurl : py_getitem item "repository_url" = Ok (PStr u)) :
  (forall before owner name : string,
      urlparse_path u = Some (before +:+ "/" +:+ owner +:+ "/" +:+ name) ->
      contains "/" owner = false -> contains "/" name = false ->
      exists parts,
        repo_parts urlparse_path item = Ok parts
        /\ last_item parts = Ok name
        /\ second_last_item parts = Ok owner)
  /\ (forall path : string,
        urlparse_path u = Some path -> contains "/" path = false ->
        repo_parts urlparse_path item = Ok [path]
        /\ last_item [path] = Ok path
        /\ forall c w,
             fetch_pr py_str urlparse_path item c w = Raised IndexError w).
Proof.
  split.
  - intros before owner name Hpath Howner Hname.
    unfold repo_parts. rewrite Hurl. cbn [mbind result_bind]. rewrite Hpath.
    eexists. split; [done|].
    change (before +:+ "/" +:+ owner +:+ "/" +:+ name)
      with (before +:+ String "/" (owner +:+ String "/" name)).
    rewrite py_split_app, py_split_app.
    rewrite (py_split_none _ _ Howner), (py_split_none _ _ Hname).
    unfold last_item, second_last_item.
    by rewrite !reverse_app.
  - intros path Hpath Hnone.
    assert (Hparts : repo_parts urlparse_path item = Ok [path]).
    { unfold repo_parts. rewrite Hurl. cbn [mbind result_bind].
      by rewrite Hpath, (py_split_none _ _ Hnone). }
    split; [done|]. split; [done|]. intros c w.
    unfold fetch_pr, mbind, M_bind, lift. by rewrite Hparts.
Qed.

End RepoName.

Lemma repo_name_is_last_segment_witness :
  exists parts,
    repo_parts sample_urlparse_path sample_issue = Ok parts
    /\ last_item parts = Ok "hello"
    /\ second_last_item parts = Ok "octo".
Proof.
  exact (proj1 (repo_name_is_last_segment sample_py_str sample_urlparse_path
                  sample_issue "https://api.github.com/repos/octo/hello"
                  eq_refl)
           "/repos" "octo" "hello" eq_refl eq_refl eq_refl).
Defined.

(* ===================================================================== *)
(** * More on grouping *)
(* ===================================================================== *)

Section GroupingMore.

Lemma dict_get_Some_In {V} (k : string) (v : V) (d : list (string * V)) :
  dict_get k d = Some v -> In (k, v) d.
Proof.
  induction d as [|[k' v'] d IH]; cbn [dict_get]; [done|].
  destruct (String.eqb_spec k k') as [->|Hne].
  - intros [= ->]. by left.
  - intros Hget. right. by apply IH.
Qed.

Lemma dict_get_is_Some {V} (k : string) (d : list (string * V)) :
  k ∈ d.*1 -> is_Some (dict_get k d).
Proof.
  induction d as [|[k' v'] d IH]; cbn [dict_get fmap list_fmap fst].
  - by intros ?%elem_of_nil.
  - destruct (String.eqb_spec k k') as [->|Hne]; [by eexists|].
    intros [?|?]%elem_of_cons; [done | by apply IH].
Qed.

(** The grouping has a bucket for a quarter exactly when some input
    record of one of the four categories has that quarter's key: no
    quarter with a record is left out, and no bucket stands for a quarter
    without one. *)
Theorem bucket_iff_record (contributions : list (string * list pyval))
    (grouped : list (string * contribution_set))
    (Hok : group_contributions_by_quarter contributions = Ok grouped) :
  forall key,
    key ∈ grouped.*1
    <-> exists c item,
          In item (records_of c contributions)
          /\ item_key item = Ok (Some key).
Proof.
  intros key.
  destruct (group_types_buckets _ _ Hok) as [_ Hdata]. split.
  - intros [data Hget]%dict_get_is_Some.
    pose proof (dict_get_Some_In _ _ _ Hget) as Hin.
    rewrite List.Forall_forall in Hdata. specialize (Hdata _ Hin).
    cbn [snd] in Hdata. unfold has_data in Hdata.
    apply existsb_exists in Hdata as (c & _ & Hc). exists c.
    pose proof (group_types_bucket_items c key _ _ Hok) as Hbucket.
    unfold bucket_items in Hbucket. rewrite Hget in Hbucket.
    cbn [default from_option id] in Hbucket.
    destruct (section_items c data) as [|item items]; [done|].
    exists item.
    assert (Hitem : In item (List.filter (key_is key)
                               (records_of c contributions)))
      by (rewrite <- Hbucket; apply in_eq).
    apply List.filter_In in Hitem as [Hitem Hkey]. split; [done|].
    unfold key_is in Hkey. destruct (item_key item) as [[k|]|]; try done.
    by apply String.eqb_eq in Hkey as ->.
  - intros (c & item & Hin & Hkey).
    pose proof (group_types_bucket_items c key _ _ Hok) as Hbucket.
    assert (Hitem : In item (bucket_items c key grouped)).
    { rewrite Hbucket. apply List.filter_In. split; [done|].
      unfold key_is. by rewrite Hkey, String.eqb_refl. }
    unfold bucket_items in Hitem.
    destruct (dict_get key grouped) as [data|] eqn:Hget.
    + apply dict_get_Some_In in Hget.
      apply list_elem_of_fmap. exists (key, data). split; [done|].
      by apply list_elem_of_In.
    + cbn [default from_option] in Hitem.
      by rewrite section_items_empty in Hitem.
Qed.

(** What makes a step of the grouping raise, besides a timestamp that
    does not parse: an item that is not a dict ([AttributeError]); a
    timestamp that counts as true but is not a string ([TypeError]); a
    record with a quarter key filed under a name that is not one of the
    four categories ([KeyError] of that name).  Under such a name a record
    without a timestamp is still passed over in silence. *)
Theorem group_item_errors (type_name : string) (item : pyval)
    (g : list (string * contribution_set)) :
  ((forall d, item <> PDict d) ->
   group_item type_name item g = Raise AttributeError)
  /\ (forall v,
        date_str_of item = Ok v -> truthy v = true ->
        (forall s, v <> PStr s) ->
        group_item type_name item g = Raise TypeError)
  /\ (forall key,
        item_key item = Ok (Some key) ->
        category_of_name type_name = None ->
        group_item type_name item g = Raise (KeyError type_name))
  /\ (item_key item = Ok None -> group_item type_name item g = Ok g).
Proof.
  split; [|split; [|split]].
  - intros Hitem. unfold group_item, item_key, date_str_of.
    destruct item; try done. by destruct (Hitem d).
  - intros v Hdate Hv Hstr. unfold group_item, item_key.
    rewrite Hdate. cbn [mbind result_bind]. rewrite Hv. cbn [negb].
    destruct v; try done. by destruct (Hstr s).
  - intros key Hkey Hcat. unfold group_item. rewrite Hkey.
    cbn [mbind result_bind]. unfold bucket_append. rewrite Hcat.
    destruct (dict_mem key g) eqn:Hmem.
    + unfold dict_mem in Hmem. by destruct (dict_get key g).
    + by rewrite dict_get_set_eq.
  - intros Hkey. unfold group_item. by rewrite Hkey.
Qed.

End GroupingMore.

Lemma bucket_iff_record_witness :
  "2023-Q2" ∈ sample_grouped.*1
  <-> exists c item,
        In item (records_of c sample_contributions)
        /\ item_key item = Ok (Some "2023-Q2").
Proof.
  exact (bucket_iff_record sample_contributions sample_grouped eq_refl
           "2023-Q2").
Defined.

Lemma group_item_errors_witness :
  group_item "drafts" sample_issue_record [] = Raise (KeyError "drafts")
  /\ group_item "drafts" sample_undated_record [] = Ok [].
Proof.
  split.
  - exact (proj1 (proj2 (proj2 (group_item_errors "drafts" sample_issue_record
                                  [])))
             "2023-Q2" eq_refl eq_refl).
  - exact (proj2 (proj2 (proj2 (group_item_errors "drafts"
                                  sample_undated_record [])))
             eq_refl).
Defined.

(* ===================================================================== *)
(** * More on the description cell and the report paths *)
(* ===================================================================== *)

Section CellsAndPaths.

Lemma contains_take (c : ascii) (n : nat) (s : string) :
  contains c s = false -> contains c (str_take n s) = false.
Proof.
  revert s. induction n as [|n IH]; intros [|a s]; cbn; try done.
  intros [Ha Hs]%orb_false_iff. by rewrite Ha, IH.
Qed.

Lemma replace_newlines_clean (s : string) :
  contains newline (replace_newlines s) = false.
Proof.
  unfold replace_newlines. induction s as [|a s IH]; cbn; [done|].
  rewrite IH. by destruct (Ascii.eqb_spec a newline) as [->|Hne];
    [|destruct (Ascii.eqb_spec a newline)].
Qed.

(** The description cell never holds a newline, so a description cannot
    break its table row over several lines, and it never holds more than
    103 characters. *)
Theorem description_cell_one_line (raw : string) :
  contains newline (render_description raw) = false
  /\ (String.length (render_description raw) <= 103)%nat.
Proof.
  unfold render_description.
  destruct (Nat.ltb_spec 100 (String.length (replace_newlines raw))).
  - split.
    + rewrite contains_app, contains_take; [done|].
      apply replace_newlines_clean.
    + rewrite str_length_app, str_length_take; cbn; lia.
  - split; [apply replace_newlines_clean | lia].
Qed.

Lemma bucket_path_digits (year number : string) :
  all_digits year = true -> year <> "" -> all_digits number = true ->
  bucket_path (year +:+ "-Q" +:+ number)
  = Some ("contributions/" +:+ year +:+ "/Q" +:+ number +:+ "-" +:+ year
          +:+ ".md").
Proof.
  intros Hy Hne Hn. unfold bucket_path.
  change (year +:+ "-Q" +:+ number)
    with (year +:+ String "-" ("Q" +:+ number)).
  rewrite py_split_pair; first last.
  { rewrite str_app_cons, str_app_nil_l. cbn. by apply all_digits_contains. }
  { by apply all_digits_contains. }
  rewrite year_dir_path by done. by rewrite report_path.
Qed.

Lemma report_path_inj (year year' number number' : string) :
  all_digits year = true -> all_digits year' = true ->
  all_digits number = true -> all_digits number' = true ->
  "contributions/" +:+ year +:+ "/Q" +:+ number +:+ "-" +:+ year +:+ ".md"
  = "contributions/" +:+ year' +:+ "/Q" +:+ number' +:+ "-" +:+ year'
    +:+ ".md" ->
  year = year' /\ number = number'.
Proof.
  intros Hy Hy' Hn Hn' Heq. apply (inj (String.append "contributions/")) in Heq.
  assert (Hsplit : forall y n,
             all_digits y = true -> all_digits n = true ->
             py_split "/" (y +:+ String "/" ("Q" +:+ n +:+ "-" +:+ y +:+ ".md"))
             = [y; "Q" +:+ n +:+ "-" +:+ y +:+ ".md"]).
  { intros y n Hyd Hnd. apply py_split_pair.
    - by apply all_digits_contains.
    - rewrite !contains_app.
      rewrite (all_digits_contains "/" n), (all_digits_contains "/" y); done. }
  apply (f_equal (py_split "/")) in Heq.
  change (?y +:+ "/Q" +:+ ?r) with (y +:+ String "/" ("Q" +:+ r)) in Heq.
  rewrite !Hsplit in Heq by done.
  injection Heq as -> Heq. split; [done|].
  rewrite !str_app_nil_l in Heq.
  apply (f_equal (py_split "-")) in Heq.
  change (?n +:+ "-" +:+ ?r) with (n +:+ String "-" r) in Heq.
  rewrite !py_split_pair in Heq;
    try (by apply all_digits_contains);
    try (rewrite contains_app, (all_digits_contains "-" year'); done).
  by injection Heq as ->.
Qed.

Lemma quarter_key_digits (dt : datetime) :
  valid_datetime dt = true ->
  exists year number,
    quarter_key dt = year +:+ "-Q" +:+ number
    /\ all_digits year = true /\ year <> "" /\ all_digits number = true.
Proof.
  intros Hvalid. pose proof (valid_datetime_year _ Hvalid).
  pose proof (valid_datetime_month _ Hvalid).
  exists (str_of_int (year dt)), (str_of_int ((month dt - 1) / 3 + 1)).
  split; [done|].
  destruct (str_of_int_digits (year dt)) as [? ?]; [lia|].
  destruct (str_of_int_digits ((month dt - 1) / 3 + 1)) as [? ?].
  { assert (0 <= (month dt - 1) / 3) by (apply Z.div_pos; lia). lia. }
  done.
Qed.

(** Each quarter has a report path of its own: the keys of two valid
    dates lead to paths of the form contributions/<year>/Q<n>-<year>.md,
    and the two paths are equal only when the two keys are.  So within a
    run no report is written over the report of another quarter. *)
Theorem distinct_quarters_distinct_paths (dt1 dt2 : datetime)
    (H1 : valid_datetime dt1 = true) (H2 : valid_datetime dt2 = true) :
  exists path1 path2,
    bucket_path (quarter_key dt1) = Some path1
    /\ bucket_path (quarter_key dt2) = Some path2
    /\ (path1 = path2 -> quarter_key dt1 = quarter_key dt2).
Proof.
  destruct (quarter_key_digits dt1 H1) as (y1 & n1 & -> & Hy1 & Hne1 & Hn1).
  destruct (quarter_key_digits dt2 H2) as (y2 & n2 & -> & Hy2 & Hne2 & Hn2).
  rewrite !bucket_path_digits by done. eexists _, _.
  split; [done|]. split; [done|]. intros Heq.
  by apply report_path_inj in Heq as [-> ->].
Qed.

End CellsAndPaths.

Lemma distinct_quarters_distinct_paths_witness :
  exists path1 path2,
    bucket_path "2023-Q2" = Some path1
    /\ bucket_path "2024-Q2" = Some path2
    /\ (path1 = path2 -> "2023-Q2" = "2024-Q2").
Proof.
  exact (distinct_quarters_distinct_paths
           {| year := 2023; month := 5; day := 10;
              hour := 0; minute := 0; second := 0 |}
           {| year := 2024; month := 4; day := 1;
              hour := 0; minute := 0; second := 0 |}
           eq_refl eq_refl).
Defined.

(* ===================================================================== *)
(** * Rendering a whole grouping *)
(* ===================================================================== *)

Section WholeRendering.
Variable py_str : pyval -> string.

Lemma write_bucket_written (key : string) (data : contribution_set)
    (path content : string) (w : world) :
  has_data data = true ->
  bucket_path key = Some path ->
  bucket_document py_str key data = Ok content ->
  exists w',
    write_bucket py_str (key, data) tt w = Done tt w'
    /\ files w' = <[path := content]> (files w)
    /\ replies w' = replies w.
Proof.
  unfold bucket_path, bucket_document, write_bucket.
  intros Hdata Hpath Hdoc.
  destruct (py_split "-" key) as [|year [|quarter [|]]]; try done.
  injection Hpath as <-.
  unfold mbind, M_bind, emit, lift, write_file. rewrite Hdata, Hdoc.
  cbn [negb replies files trace]. by eexists.
Qed.

Lemma write_bucket_raised (entry : string * contribution_set) (w w' : world)
    (e : exn) :
  write_bucket py_str entry tt w = Raised e w' ->
  files w' = files w /\ replies w' = replies w.
Proof.
  destruct entry as [key data]. unfold write_bucket.
  destruct (py_split "-" key) as [|year [|quarter [|]]];
    try (by intros [= _ <-]).
  unfold mbind, M_bind, emit, lift, write_file.
  cbn [replies files trace].
  destruct (has_data data); cbn [negb]; [|done].
  destruct (render_document py_str year quarter data); [done|].
  by intros [= _ <-].
Qed.

Lemma for_each_writable (l : list (string * contribution_set)) :
  forall w,
    Forall (writable py_str) l ->
    NoDup (bucket_path <$> l.*1) ->
    exists w',
      for_each l (write_bucket py_str) tt w = Done tt w'
      /\ replies w' = replies w
      /\ (forall key data,
            In (key, data) l ->
            exists path content,
              bucket_path key = Some path
              /\ bucket_document py_str key data = Ok content
              /\ files w' !! path = Some content)
      /\ (forall p,
            (forall key, In key l.*1 -> bucket_path key <> Some p) ->
            files w' !! p = files w !! p).
Proof.
  induction l as [|[key data] l IH]; intros w Hall Hnodup.
  - exists w. split; [done|]. split; [done|]. split; [by intros ? ? []|done].
  - apply Forall_cons in Hall as [(Hdata & path & content & Hpath & Hdoc) Hall].
    cbn [fst snd] in Hdata, Hpath, Hdoc.
    cbn [fmap list_fmap fst] in Hnodup.
    apply NoDup_cons in Hnodup as [Hfresh Hnodup].
    destruct (write_bucket_written key data path content w Hdata Hpath Hdoc)
      as (w1 & Hw1 & Hfiles1 & Hreplies1).
    destruct (IH w1 Hall Hnodup) as (w' & Hw' & Hreplies & Hwritten & Hother).
    exists w'. cbn [for_each]. rewrite (bind_done _ _ _ _ _ Hw1).
    split; [done|]. split; [congruence|]. split.
    + intros key' data' [[= <- <-] | Hin]; [|by apply Hwritten].
      exists path, content. split; [done|]. split; [done|].
      rewrite Hother, Hfiles1; [apply lookup_insert_eq|].
      intros key' Hin' Heq. apply Hfresh. rewrite Hpath, <- Heq.
      apply list_elem_of_fmap. exists key'. split; [done|].
      by apply list_elem_of_In.
    + intros p Hp. rewrite Hother, Hfiles1.
      * apply lookup_insert_ne. intros ->. by apply (Hp key); [left|].
      * intros key' Hin'. apply Hp. by right.
Qed.

Lemma item_key_quarter (item : pyval) (key : string) :
  item_key item = Ok (Some key) ->
  exists dt, valid_datetime dt = true /\ key = quarter_key dt.
Proof.
  unfold item_key. destruct (date_str_of item) as [v|]; [|done].
  cbn [mbind result_bind]. destruct (truthy v); [|done]. cbn [negb].
  destruct v; try done. cbn [strptime].
  destruct (strptime_str s) as [dt|] eqn:Hparse; [|done].
  intros [= <-]. exists dt. split; [by eapply strptime_str_valid | done].
Qed.

Lemma group_types_keys (contributions : list (string * list pyval))
    (grouped : list (string * contribution_set)) :
  group_contributions_by_quarter contributions = Ok grouped ->
  Forall (fun key => exists dt, valid_datetime dt = true /\ key = quarter_key dt)
         grouped.*1.
Proof.
  intros Hok.
  refine (group_types_history
            (fun _ g =>
               Forall (fun key => exists dt, valid_datetime dt = true
                                             /\ key = quarter_key dt) g.*1)
            _ contributions [] [] grouped _ Hok); [|constructor].
  clear. intros _ type_name item g g' Hg Hstep.
  destruct (group_item_ok _ _ _ _ Hstep)
    as [[Hkey ->] | (k & c0 & Hkey & Hcat & ->)]; [done|].
  rewrite dict_set_keys. destruct (dict_mem k g); [done|].
  apply Forall_app. split; [done|]. repeat constructor.
  by eapply item_key_quarter.
Qed.

Lemma dict_get_NoDup_In {V} (k : string) (v : V) (d : list (string * V)) :
  NoDup d.*1 -> In (k, v) d -> dict_get k d = Some v.
Proof.
  induction d as [|[k' v'] d IH]; [done|].
  cbn [fmap list_fmap fst]. intros [Hfresh Hnodup]%NoDup_cons.
  cbn [dict_get]. intros [[= -> ->] | Hin].
  - by rewrite String.eqb_refl.
  - destruct (String.eqb_spec k k') as [->|Hne]; [|by apply IH].
    exfalso. apply Hfresh. apply list_elem_of_fmap. exists (k', v).
    split; [done|]. by apply list_elem_of_In.
Qed.

Lemma NoDup_bucket_paths (keys : list string) :
  NoDup keys ->
  Forall (fun key => exists dt, valid_datetime dt = true /\ key = quarter_key dt)
         keys ->
  NoDup (bucket_path <$> keys).
Proof.
  intros Hnodup Hkeys. induction Hnodup as [|key keys Hfresh Hnodup IH].
  - constructor.
  - apply Forall_cons in Hkeys as [(dt & Hdt & ->) Hkeys].
    rewrite fmap_cons. apply NoDup_cons. split; [|by apply IH].
    intros (key' & Heq & Hin)%list_elem_of_fmap. apply Hfresh.
    rewrite Forall_forall in Hkeys.
    destruct (Hkeys _ Hin) as (dt' & Hdt' & ->).
    destruct (quarter_key_digits dt Hdt) as (y & n & Hk & Hy & Hne & Hn).
    destruct (quarter_key_digits dt' Hdt') as (y' & n' & Hk' & Hy' & Hne' & Hn').
    rewrite Hk, Hk' in *.
    rewrite !bucket_path_digits in Heq by done. apply (inj Some) in Heq.
    by apply report_path_inj in Heq as [-> ->].
Qed.

(** Rendering what grouping returns.  When every input record with a
    timestamp is a record the renderer can turn into a row,
    [write_markdown_files] returns normally on the grouping, without
    touching the network; afterwards the path of every bucket holds that
    bucket's document, and every path that is not the path of a bucket
    holds what it held before. *)
Theorem grouping_output_renders
    (contributions : list (string * list pyval))
    (grouped : list (string * contribution_set)) (w : world)
    (Hok : group_contributions_by_quarter contributions = Ok grouped)
    (Hrecords : forall c item,
        In item (records_of c contributions) ->
        has_timestamp item = true -> is_record item = true) :
  exists w',
    write_markdown_files py_str grouped w = Done tt w'
    /\ replies w' = replies w
    /\ (forall key data,
          In (key, data) grouped ->
          exists path content,
            bucket_path key = Some path
            /\ bucket_document py_str key data = Ok content
            /\ files w' !! path = Some content)
    /\ (forall p,
          (forall key, In key grouped.*1 -> bucket_path key <> Some p) ->
          files w' !! p = files w !! p).
Proof.
  destruct (group_types_buckets _ _ Hok) as [Hnodup Hdata].
  pose proof (group_types_keys _ _ Hok) as Hkeys.
  assert (Hall : Forall (writable py_str) grouped).
  { apply List.Forall_forall. intros [key data] Hin.
    rewrite List.Forall_forall in Hdata. split; [by apply (Hdata _ Hin)|].
    cbn [fst snd].
    assert (Hkey : key ∈ grouped.*1).
    { apply list_elem_of_fmap. exists (key, data). split; [done|].
      by apply list_elem_of_In. }
    rewrite Forall_forall in Hkeys.
    destruct (Hkeys _ Hkey) as (dt & Hdt & ->).
    destruct (quarter_key_digits dt Hdt) as (y & n & Hk & Hy & Hne & Hn).
    assert (Hitems : forall c,
               Forall (fun item => is_record item = true)
                      (section_items c data)).
    { intros c. pose proof (group_types_bucket_items c (quarter_key dt) _ _ Hok)
        as Hbucket.
      unfold bucket_items in Hbucket.
      rewrite (dict_get_NoDup_In _ _ _ Hnodup Hin) in Hbucket.
      cbn [default from_option id] in Hbucket. rewrite Hbucket.
      apply List.Forall_forall. intros item [Hitem Hkis]%List.filter_In.
      apply (Hrecords c); [done|]. unfold key_is in Hkis.
      unfold has_timestamp. by destruct (item_key item) as [[?|]|]. }
    rewrite Hk, bucket_path_digits by done.
    eexists _. unfold bucket_document.
    change (y +:+ "-Q" +:+ n) with (y +:+ String "-" ("Q" +:+ n)).
    rewrite py_split_pair; first last.
    { rewrite str_app_cons, str_app_nil_l. cbn. by apply all_digits_contains. }
    { by apply all_digits_contains. }
    destruct (render_document_records py_str y ("Q" +:+ n) data Hitems)
      as (b1 & b2 & b3 & b4 & ->).
    by eexists. }
  destruct (for_each_writable grouped
              {| replies := replies w; files := files w;
                 trace := trace w ++ [Makedirs base_dir] |}
              Hall (NoDup_bucket_paths _ Hnodup Hkeys))
    as (w' & Hw' & Hreplies & Hwritten & Hother).
  exists w'. split; [|done].
  unfold write_markdown_files, mbind, M_bind, emit. exact Hw'.
Qed.

(** Rendering is not all-or-nothing.  When the buckets before one render
    and that one raises (its key does not split in two at the dash, or
    one of its records cannot be turned into a row), the whole rendering
    raises there: the reports of the buckets before it stay written, no
    report is written for it or for any bucket after it. *)
Theorem rendering_stops_at_failure
    (before after : list (string * contribution_set))
    (key : string) (data : contribution_set) (e : exn) (w w1 : world)
    (Hbefore : write_markdown_files py_str before w = Done tt w1)
    (Hbad : (bucket_document py_str key data = Raise e
             /\ (has_data data = true \/ bucket_path key = None))) :
  exists w2,
    write_markdown_files py_str (before ++ (key, data) :: after) w
    = Raised e w2
    /\ files w2 = files w1
    /\ replies w2 = replies w1.
Proof.
  assert (exists w2, write_bucket py_str (key, data) tt w1 = Raised e w2)
    as [w2 Hw2].
  { destruct Hbad as [Hdoc Hcase]. unfold bucket_document in Hdoc.
    unfold bucket_path in Hcase. unfold write_bucket.
    destruct (py_split "-" key) as [|year [|quarter [|]]];
      try (injection Hdoc as <-; by eexists).
    destruct Hcase as [Hdata|?]; [|done].
    unfold mbind, M_bind, emit, lift. rewrite Hdata, Hdoc. by eexists. }
  exists w2. split; [|by eapply write_bucket_raised].
  unfold write_markdown_files in *.
  apply bind_Done_inv in Hbefore as ([] & w0 & Hemit & Hbefore).
  rewrite (bind_done _ _ _ _ _ Hemit), for_each_app.
  rewrite (bind_done _ _ _ _ _ Hbefore). by apply for_each_raised.
Qed.

End WholeRendering.

Lemma grouping_output_renders_witness :
  exists w',
    write_markdown_files sample_py_str sample_grouped (sample_world [])
    = Done tt w'
    /\ replies w' = []
    /\ (forall key data,
          In (key, data) sample_grouped ->
          exists path content,
            bucket_path key = Some path
            /\ bucket_document sample_py_str key data = Ok content
            /\ files w' !! path = Some content)
    /\ (forall p,
          (forall key, In key sample_grouped.*1 -> bucket_path key <> Some p) ->
          files w' !! p = (∅ : gmap string string) !! p).
Proof.
  refine (grouping_output_renders sample_py_str sample_contributions
            sample_grouped (sample_world []) eq_refl _).
  intros c item Hin Hts. destruct c; cbn in Hin;
    repeat (destruct Hin as [<- | Hin];
            [first [reflexivity | vm_compute in Hts; discriminate]|]);
    destruct Hin.
Defined.

Lemma rendering_stops_at_failure_witness :
  exists w1 w2,
    write_markdown_files sample_py_str sample_grouped (sample_world [])
    = Done tt w1
    /\ write_markdown_files sample_py_str
         (sample_grouped ++ [("2023-Q3", sample_bad_bucket)]) (sample_world [])
       = Raised (KeyError "description") w2
    /\ files w2 = files w1.
Proof.
  pose (w1 := final_world (write_markdown_files sample_py_str sample_grouped
                             (sample_world []))).
  assert (Hbefore : write_markdown_files sample_py_str sample_grouped
                      (sample_world []) = Done tt w1)
    by (vm_compute; reflexivity).
  destruct (rendering_stops_at_failure sample_py_str sample_grouped []
              "2023-Q3" sample_bad_bucket (KeyError "description")
              (sample_world []) w1 Hbefore)
    as (w2 & Hwhole & Hfiles & _).
  { split; [reflexivity | left; reflexivity]. }
  exists w1, w2. split; [exact Hbefore | split; [exact Hwhole | exact Hfiles]].
Defined.

(* ===================================================================== *)
(** * The date column *)
(* ===================================================================== *)

Section DateColumn.

Lemma is_digit_cases (c : ascii) : is_digit c = true -> In c digit_chars.
Proof.
  destruct c as [[] [] [] [] [] [] [] []]; intros H;
    try discriminate H; cbn; tauto.
Qed.

Lemma digit_is_no_literal (c lit : ascii) :
  is_digit c = true -> is_digit lit = false -> Ascii.eqb c lit = false.
Proof.
  intros Hc Hlit. destruct (Ascii.eqb_spec c lit) as [->|]; congruence.
Qed.

Lemma zero_pad_2_check :
  forallb (fun a => forallb (fun b =>
    String.eqb (zero_pad 2 (10 * digit_val a + digit_val b))
               (String a (String b EmptyString)))
    digit_chars) digit_chars = true.
Proof. vm_compute. reflexivity. Qed.

Lemma zero_pad_4_check :
  forallb (fun a => forallb (fun b => forallb (fun c => forallb (fun d =>
    String.eqb (zero_pad 4 (1000 * digit_val a + 100 * digit_val b
                            + 10 * digit_val c + digit_val d))
               (String a (String b (String c (String d EmptyString)))))
    digit_chars) digit_chars) digit_chars) digit_chars = true.
Proof. vm_compute. reflexivity. Qed.

Lemma zero_pad_2_digits (a b : ascii) :
  is_digit a = true -> is_digit b = true ->
  zero_pad 2 (10 * digit_val a + digit_val b) = String a (String b EmptyString).
Proof.
  intros Ha%is_digit_cases Hb%is_digit_cases.
  pose proof zero_pad_2_check as H.
  rewrite forallb_forall in H. specialize (H a Ha).
  rewrite forallb_forall in H. specialize (H b Hb).
  by apply String.eqb_eq.
Qed.

Lemma zero_pad_4_digits (a b c d : ascii) :
  is_digit a = true -> is_digit b = true ->
  is_digit c = true -> is_digit d = true ->
  zero_pad 4 (1000 * digit_val a + 100 * digit_val b
              + 10 * digit_val c + digit_val d)
  = String a (String b (String c (String d EmptyString))).
Proof.
  intros Ha%is_digit_cases Hb%is_digit_cases Hc%is_digit_cases
         Hd%is_digit_cases.
  pose proof zero_pad_4_check as H.
  rewrite forallb_forall in H. specialize (H a Ha).
  rewrite forallb_forall in H. specialize (H b Hb).
  rewrite forallb_forall in H. specialize (H c Hc).
  rewrite forallb_forall in H. specialize (H d Hd).
  by apply String.eqb_eq.
Qed.

(** The date fields of a string that matches the format, with what each
    of them left to read. *)
Lemma match_format_date (s : string) (dt : datetime) :
  match_format s = Some dt ->
  exists r1 r2 r3 r4 r5 r6,
    p_year s = Some (year dt, r1)
    /\ p_lit "-" "-" r1 = Some (tt, r2)
    /\ p_month r2 = Some (month dt, r3)
    /\ p_lit "-" "-" r3 = Some (tt, r4)
    /\ p_day r4 = Some (day dt, r5)
    /\ p_lit "T" "t" r5 = Some (tt, r6).
Proof.
  unfold match_format, p_bind.
  destruct (p_year s) as [[y r1]|] eqn:Hy; [|done].
  destruct (p_lit "-" "-" r1) as [[[] r2]|] eqn:Hl1; [|done].
  destruct (p_month r2) as [[m r3]|] eqn:Hm; [|done].
  destruct (p_lit "-" "-" r3) as [[[] r4]|] eqn:Hl2; [|done].
  destruct (p_day r4) as [[d r5]|] eqn:Hd; [|done].
  destruct (p_lit "T" "t" r5) as [[[] r6]|] eqn:Hl3; [|done].
  destruct (p_hour r6) as [[h r7]|]; [|done].
  destruct (p_lit ":" ":" r7) as [[[] r8]|]; [|done].
  destruct (p_minute r8) as [[mi r9]|]; [|done].
  destruct (p_lit ":" ":" r9) as [[[] r10]|]; [|done].
  destruct (p_second r10) as [[sec r11]|]; [|done].
  destruct (p_lit "Z" "z" r11) as [[[] r12]|]; [|done].
  destruct r12; [|done]. intros [= <-]. cbn [year month day].
  by exists r1, r2, r3, r4, r5, r6.
Qed.

(** A two-digit field followed by a literal that is not a digit is read
    whole. *)
Lemma p_field_two_digits two one (a b lit alt : ascii) (rest r r' : string)
    (v : Z) :
  is_digit b = true -> is_digit lit = false -> is_digit alt = false ->
  p_field two one (String a (String b rest)) = Some (v, r) ->
  p_lit lit alt r = Some (tt, r') ->
  v = 10 * digit_val a + digit_val b /\ r = rest.
Proof.
  intros Hb Hlit Halt. unfold p_field.
  destruct (two a b); [by intros [= <- <-]|].
  destruct (one a); [|done]. intros [= <- <-]. unfold p_lit.
  by rewrite (digit_is_no_literal b lit), (digit_is_no_literal b alt).
Qed.

(** The date column shows the date part of the timestamp.  For a
    timestamp that parses and whose date is written with a four-digit
    year from 1000 on and two digits each for month and day, the
    formatted date is the first ten characters of the timestamp, and a
    row rendered from a record with this timestamp ends with them. *)
Theorem date_column_is_date_part (py_str : pyval -> string)
    (y1 y2 y3 y4 m1 m2 d1 d2 : ascii) (rest : string) (dt : datetime)
    (Hdigits : Forall (fun c => is_digit c = true)
                      [y1; y2; y3; y4; m1; m2; d1; d2])
    (Hparse :
       strptime_str
         (String y1 (String y2 (String y3 (String y4 (String "-"
           (String m1 (String m2 (String "-"
             (String d1 (String d2 rest))))))))))
       = Some dt)
    (Hfrom : 1000 <= year dt) :
  let date := String y1 (String y2 (String y3 (String y4 (String "-"
                (String m1 (String m2 (String "-"
                  (String d1 (String d2 EmptyString))))))))) in
  strftime_ymd dt = date
  /\ (forall item row,
        date_str_of item
        = Ok (PStr (String y1 (String y2 (String y3 (String y4 (String "-"
                     (String m1 (String m2 (String "-"
                       (String d1 (String d2 rest))))))))))) ->
        render_row py_str item = Ok row ->
        exists cells, row = cells +:+ " | " +:+ date +:+ " |" +:+ nl).
Proof.
  intros date.
  repeat match goal with
         | H : Forall _ (_ :: _) |- _ => apply Forall_cons in H as [? H]
         end.
  assert (Hdate : strftime_ymd dt = date).
  { unfold strptime_str in Hparse.
    destruct (match_format _) as [dt'|] eqn:Hmatch; [|done].
    destruct (valid_datetime dt'); [|done]. injection Hparse as ->.
    apply match_format_date in Hmatch
      as (r1 & r2 & r3 & r4 & r5 & r6 & Hy & Hl1 & Hm & Hl2 & Hd & Hl3).
    unfold p_year in Hy.
    repeat match goal with
           | H : is_digit ?c = true, H' : context [is_digit ?c] |- _ =>
               rewrite H in H'
           end.
    cbn [andb] in Hy. injection Hy as Hyear <-.
    cbn in Hl1. injection Hl1 as <-.
    unfold p_month in Hm.
    eapply (p_field_two_digits _ _ _ _ "-" "-") in Hm as [Hmonth ->];
      [|done|done|done|exact Hl2].
    cbn in Hl2. injection Hl2 as <-.
    unfold p_day in Hd.
    destruct (p_field _ _ (String d1 (String d2 rest))) as [[v r]|] eqn:Hfield.
    - injection Hd as -> ->.
      eapply (p_field_two_digits _ _ _ _ "T" "t") in Hfield as [Hday _];
        [|done|done|done|exact Hl3].
      unfold strftime_ymd. rewrite <- Hyear, Hmonth, Hday.
      rewrite zero_pad_4_digits, !zero_pad_2_digits by done. done.
    - exfalso. rewrite (digit_is_no_literal d1 space) in Hd by done.
      discriminate Hd. }
  split; [done|].
  intros item row Hitem. unfold render_row. rewrite Hitem.
  cbn [mbind result_bind strptime]. rewrite Hparse.
  cbn [mbind result_bind]. rewrite Hdate.
  destruct (py_getitem item "description") as [raw|]; [|done].
  cbn [mbind result_bind].
  destruct (description_text raw) as [description|]; [|done].
  cbn [mbind result_bind].
  destruct (py_getitem item "repo") as [repo|]; [|done].
  destruct (py_getitem item "title") as [title|]; [|done].
  destruct (py_getitem item "url") as [url|]; [|done].
  cbn [mbind result_bind]. intros [= <-].
  exists ("| " +:+ py_str repo +:+ " | [" +:+ py_str title +:+ "]("
          +:+ py_str url +:+ ") | " +:+ description).
  by rewrite !str_app_assoc.
Qed.

End DateColumn.

Lemma date_column_is_date_part_witness :
  strftime_ymd {| year := 2023; month := 5; day := 10;
                  hour := 12; minute := 0; second := 0 |}
  = "2023-05-10".
Proof.
  exact (proj1 (date_column_is_date_part sample_py_str
                  "2" "0" "2" "3" "0" "5" "1" "0" "T12:00:00Z"
                  {| year := 2023; month := 5; day := 10;
                     hour := 12; minute := 0; second := 0 |}
                  ltac:(repeat constructor) eq_refl ltac:(cbn; lia))).
Defined.

(* ===================================================================== *)
(** * How the collection grows *)
(* ===================================================================== *)

Section Growth.
Variable py_str : pyval -> string.
Variable urlparse_path : string -> option string.

Lemma with_added_nil cat c : with_added cat [] c = c.
Proof. destruct cat, c; cbn; by rewrite app_nil_r. Qed.

Lemma with_added_append cat record records c :
  with_added cat records (append_to cat record c)
  = with_added cat (record :: records) c.
Proof. destruct cat; cbn; by rewrite <- app_assoc. Qed.

(** The three loops over search items that need no detail lookup add one
    record per item, in order and without looking for duplicates, and
    touch neither the network nor the trace.  They stop at the first item
    that cannot be normalised (a missing field raises [KeyError]), with
    the world as it was. *)
Theorem search_items_collected (cat : category)
    (normalise : pyval -> result pyval) (items : list pyval)
    (c : contribution_set) (w : world) :
  (forall records,
      Forall2 (fun item record => normalise item = Ok record) items records ->
      for_each items (add_record cat normalise) c w
      = Done (with_added cat records c) w)
  /\ (forall good bad rest records e,
        items = good ++ bad :: rest ->
        Forall2 (fun item record => normalise item = Ok record) good records ->
        normalise bad = Raise e ->
        for_each items (add_record cat normalise) c w = Raised e w).
Proof.
  assert (Hgood : forall xs records c0,
             Forall2 (fun item record => normalise item = Ok record) xs records ->
             for_each xs (add_record cat normalise) c0 w
             = Done (with_added cat records c0) w).
  { intros xs records c0 Hall. revert c0.
    induction Hall as [|item record xs records Hitem _ IH]; intros c0.
    - cbn [for_each]. by rewrite with_added_nil.
    - assert (Hstep : add_record cat normalise item c0 w
                      = Done (append_to cat record c0) w)
        by (unfold add_record, mbind, M_bind, lift; by rewrite Hitem).
      cbn [for_each]. rewrite (bind_done _ _ _ _ _ Hstep).
      by rewrite IH, with_added_append. }
  split; [intros records Hall; by apply Hgood|].
  intros good bad rest records e -> Hall Hbad.
  rewrite for_each_app, (bind_done _ _ _ _ _ (Hgood _ _ _ Hall)).
  apply for_each_raised. unfold add_record, mbind, M_bind, lift.
  by rewrite Hbad.
Qed.

Lemma extends_refl c : extends c c.
Proof. intros cat. exists []. by rewrite app_nil_r. Qed.

Lemma extends_append c c' cat record :
  extends c c' -> extends c (append_to cat record c').
Proof.
  intros Hc cat'. destruct (Hc cat') as [added Hadded].
  rewrite section_items_append, Hadded, <- app_assoc. by eexists.
Qed.

Lemma fetch_pr_extends c0 pr c w c' w' :
  extends c0 c -> fetch_pr py_str urlparse_path pr c w = Done c' w' ->
  extends c0 c'.
Proof.
  intros Hc. unfold fetch_pr. intros Hdone.
  repeat (apply bind_Done_inv in Hdone as (? & ? & _ & Hdone)).
  destruct (status_code _ =? 200).
  - apply bind_Done_inv in Hdone as (pr_data & ? & _ & Hdone).
    apply bind_Done_inv in Hdone as (record & ? & _ & Hdone).
    injection Hdone as <- _.
    by apply (extends_append c0 c PullRequests record).
  - apply bind_Done_inv in Hdone as (? & ? & _ & Hdone).
    apply bind_Done_inv in Hdone as (? & ? & _ & Hdone).
    by injection Hdone as <- _.
Qed.

Lemma add_record_extends c0 cat normalise item c w c' w' :
  extends c0 c -> add_record cat normalise item c w = Done c' w' ->
  extends c0 c'.
Proof.
  intros Hc. unfold add_record. intros Hdone.
  apply bind_Done_inv in Hdone as (record & ? & _ & Hdone).
  injection Hdone as <- _. by apply (extends_append c0 c cat record).
Qed.

Lemma fetch_year_extends c0 year c w c' w' :
  extends c0 c -> fetch_year py_str urlparse_path year c w = Done c' w' ->
  extends c0 c'.
Proof.
  intros Hc. unfold fetch_year. intros Hdone. cbv zeta in Hdone.
  apply bind_Done_inv in Hdone as (? & ? & _ & Hdone).
  apply bind_Done_inv in Hdone as (prs & ? & _ & Hdone).
  apply bind_Done_inv in Hdone as (c1 & ? & Hprs & Hdone).
  apply bind_Done_inv in Hdone as (found & ? & _ & Hdone).
  apply bind_Done_inv in Hdone as (c2 & ? & Hissues & Hdone).
  apply bind_Done_inv in Hdone as (found' & ? & _ & Hdone).
  apply bind_Done_inv in Hdone as (c3 & ? & Hreviewed & Hdone).
  apply bind_Done_inv in Hdone as (found'' & ? & _ & Htriaged).
  assert (H1 : extends c0 c1).
  { eapply (for_each_invariant (extends c0)); [|exact Hc|exact Hprs].
    intros. by eapply fetch_pr_extends. }
  assert (H2 : extends c0 c2).
  { eapply (for_each_invariant (extends c0)); [|exact H1|exact Hissues].
    intros. by eapply add_record_extends. }
  assert (H3 : extends c0 c3).
  { eapply (for_each_invariant (extends c0)); [|exact H2|exact Hreviewed].
    intros. by eapply add_record_extends. }
  eapply (for_each_invariant (extends c0)); [|exact H3|exact Htriaged].
  intros. by eapply add_record_extends.
Qed.

(** The collection only ever appends.  A year that returns leaves every
    record collected before it in place and in order, followed by the
    records it added; and so does any run of years.  Records of an
    earlier year therefore come before those of a later year, and none is
    removed or replaced. *)
Theorem collection_is_append_only (years : list Z) (c c' : contribution_set)
    (w w' : world)
    (Hdone : for_each years (fetch_year py_str urlparse_path) c w
             = Done c' w') :
  forall cat, exists added,
    section_items cat c' = section_items cat c ++ added.
Proof.
  eapply (for_each_invariant (extends c)); [|apply extends_refl|exact Hdone].
  intros. by eapply fetch_year_extends.
Qed.

End Growth.

Lemma search_items_collected_witness :
  for_each [sample_issue; sample_issue]
    (add_record Issues (issue_record sample_urlparse_path)) empty_set
    (sample_world [])
  = Done {| pullRequests := [];
            issues := [sample_issue_record; sample_issue_record];
            triagedIssues := []; reviewedPrs := [] |}
      (sample_world []).
Proof.
  refine (proj1 (search_items_collected Issues
                   (issue_record sample_urlparse_path)
                   [sample_issue; sample_issue] empty_set (sample_world []))
            [sample_issue_record; sample_issue_record] _).
  repeat constructor.
Defined.

Lemma collection_is_append_only_witness :
  exists added,
    section_items Issues
      {| pullRequests := [sample_undated_record];
         issues := [sample_issue_record];
         triagedIssues := []; reviewedPrs := [] |}
    = section_items Issues
        {| pullRequests := [sample_undated_record]; issues := [];
           triagedIssues := []; reviewedPrs := [] |} ++ added.
Proof.
  refine (collection_is_append_only sample_py_str sample_urlparse_path [2019]
            _ _
            (sample_world [Reply (sample_page [] false);
                           Reply (sample_page [sample_issue] false);
                           Reply (sample_page [] false);
                           Reply (sample_page [] false)])
            _ _ Issues).
  vm_compute. reflexivity.
Defined.

(* ===================================================================== *)
(** * The renderer, bucket by bucket *)
(* ===================================================================== *)

Section RendererReports.
Variable py_str : pyval -> string.

Lemma written_paths_app (ev1 ev2 : list event) :
  written_paths (ev1 ++ ev2) = written_paths ev1 ++ written_paths ev2.
Proof. apply omap_app. Qed.

(** One pass of the loop body on a bucket the renderer gets past. *)
Lemma write_bucket_report (key : string) (data : contribution_set)
    (path : string) (w : world) :
  bucket_path key = Some path ->
  (has_data data = true ->
   exists content, bucket_document py_str key data = Ok content) ->
  exists w' events,
    write_bucket py_str (key, data) tt w = Done tt w'
    /\ replies w' = replies w
    /\ trace w' = trace w ++ events
    /\ written_paths events = (if has_data data then [path] else [])
    /\ (has_data data = false -> files w' = files w)
    /\ (forall content,
          has_data data = true ->
          bucket_document py_str key data = Ok content ->
          files w' = <[path := content]> (files w)).
Proof.
  unfold bucket_path, bucket_document, write_bucket.
  destruct (py_split "-" key) as [|year [|quarter [|]]]; try done.
  intros [= <-] Hdoc. unfold mbind, M_bind, emit, lift, write_file.
  cbn [replies files trace]. destruct (has_data data); cbn [negb].
  - destruct (Hdoc eq_refl) as [content Hcontent]. rewrite Hcontent.
    cbn [replies files trace]. eexists _, _. split; [done|]. split; [done|].
    split; [by rewrite <- !app_assoc|]. split; [done|]. split; [done|].
    by intros ? _ [= <-].
  - cbn [replies files trace]. eexists _, _. split; [done|]. split; [done|].
    split; [by rewrite <- !app_assoc|]. done.
Qed.

Lemma report_of_path (entry : string * contribution_set) (path : string) :
  report_of entry = Some path -> bucket_path entry.1 = Some path.
Proof. unfold report_of. by destruct (has_data entry.2). Qed.

Lemma not_reported_later (l : list (string * contribution_set))
    (key path : string) :
  bucket_path key = Some path ->
  bucket_path key ∉ bucket_path <$> l.*1 ->
  path ∉ omap report_of l.
Proof.
  intros Hpath Hfresh (entry & Hin & Hreport%report_of_path)%list_elem_of_omap.
  apply Hfresh. rewrite Hpath, <- Hreport.
  apply list_elem_of_fmap. exists entry.1. split; [done|].
  apply list_elem_of_fmap. by exists entry.
Qed.

Lemma for_each_reports (l : list (string * contribution_set)) :
  forall w,
    Forall (reportable py_str) l ->
    NoDup (bucket_path <$> l.*1) ->
    exists w' events,
      for_each l (write_bucket py_str) tt w = Done tt w'
      /\ replies w' = replies w
      /\ trace w' = trace w ++ events
      /\ written_paths events = omap report_of l
      /\ NoDup (omap report_of l)
      /\ (forall key data content,
            In (key, data) l -> has_data data = true ->
            bucket_document py_str key data = Ok content ->
            exists path,
              bucket_path key = Some path /\ files w' !! path = Some content)
      /\ (forall p, p ∉ omap report_of l -> files w' !! p = files w !! p).
Proof.
  induction l as [|[key data] l IH]; intros w Hall Hnodup.
  - exists w, []. rewrite app_nil_r. cbn [omap list_omap].
    split; [done|]. split; [done|]. split; [done|]. split; [done|].
    split; [apply NoDup_nil_2|]. split; [by intros ? ? ? []|done].
  - apply Forall_cons in Hall as [(path & Hpath & Hdoc) Hall].
    cbn [fst snd] in Hpath, Hdoc. cbn [fmap list_fmap fst] in Hnodup.
    apply NoDup_cons in Hnodup as [Hfresh Hnodup].
    pose proof (not_reported_later l key path Hpath Hfresh) as Hlater.
    destruct (write_bucket_report key data path w Hpath Hdoc)
      as (w1 & ev1 & Hw1 & Hreplies1 & Htrace1 & Hpaths1 & Hskip & Hwrite).
    destruct (IH w1 Hall Hnodup)
      as (w' & ev2 & Hw' & Hreplies & Htrace & Hpaths & Hnd & Hwritten & Hother).
    assert (Hhead : omap report_of ((key, data) :: l)
                    = (if has_data data then [path] else [])
                      ++ omap report_of l).
    { cbn [omap list_omap]. unfold report_of at 1. cbn [fst snd].
      rewrite Hpath. by destruct (has_data data). }
    exists w', (ev1 ++ ev2). cbn [for_each]. rewrite (bind_done _ _ _ _ _ Hw1).
    split; [done|]. split; [congruence|].
    split; [by rewrite Htrace, Htrace1, app_assoc|].
    split; [by rewrite written_paths_app, Hpaths1, Hpaths, Hhead|].
    rewrite Hhead. split; [|split].
    + destruct (has_data data); [|done]. by apply NoDup_cons.
    + intros key' data' content [[= <- <-] | Hin] Hdata Hcontent;
        [|by eapply Hwritten].
      exists path. split; [done|].
      rewrite Hother by done. rewrite (Hwrite _ Hdata Hcontent).
      apply lookup_insert_eq.
    + intros p Hp. rewrite Hother.
      * destruct (has_data data) eqn:Hdata.
        -- destruct (Hdoc eq_refl) as [content Hcontent].
           rewrite (Hwrite _ eq_refl Hcontent). apply lookup_insert_ne.
           intros ->. apply Hp. by left.
        -- by rewrite Hskip.
      * intros Hin. apply Hp. apply elem_of_app. by right.
Qed.

Lemma NoDup_bucket_paths_digits (keys : list string) :
  NoDup keys ->
  Forall (fun key => exists y n : Z,
            0 <= y /\ 0 <= n
            /\ key = str_of_int y +:+ "-Q" +:+ str_of_int n) keys ->
  NoDup (bucket_path <$> keys).
Proof.
  intros Hnodup Hkeys. induction Hnodup as [|key keys Hfresh Hnodup IH].
  - constructor.
  - apply Forall_cons in Hkeys as [(y & n & Hy & Hn & ->) Hkeys].
    rewrite fmap_cons. apply NoDup_cons. split; [|by apply IH].
    intros (key' & Heq & Hin)%list_elem_of_fmap. apply Hfresh.
    rewrite Forall_forall in Hkeys.
    destruct (Hkeys _ Hin) as (y' & n' & Hy' & Hn' & ->).
    destruct (str_of_int_digits y Hy) as [? ?].
    destruct (str_of_int_digits n Hn) as [? ?].
    destruct (str_of_int_digits y' Hy') as [? ?].
    destruct (str_of_int_digits n' Hn') as [? ?].
    rewrite !bucket_path_digits in Heq by done. apply (inj Some) in Heq.
    apply report_path_inj in Heq as [Heqy Heqn]; [|done..].
    by rewrite Heqy, Heqn.
Qed.

(** C6.  The renderer on a grouping whose buckets have distinct keys, each
    the key of a year and a quarter number, and hold records.
    [write_markdown_files] returns, and the files it has written are, in
    order and once each, the reports of the buckets that hold a record in
    some category.  A bucket whose four lists are all empty gets no file:
    its path is not among the paths written and holds what it held
    before.  A bucket with a record in some category gets exactly one
    file, at contributions/<year>/Q<n>-<year>.md, whose content is the
    title line followed by the four section headings in the order pull
    requests, issues, triaged issues, reviewed PRs, each followed by its
    body; the content replaces whatever the path held before.  No other
    path is touched. *)
Theorem write_markdown_files_reports
    (grouped : list (string * contribution_set)) (w : world)
    (Hkeys : Forall (fun entry => exists y n : Z,
                       0 <= y /\ 0 <= n
                       /\ entry.1 = str_of_int y +:+ "-Q" +:+ str_of_int n)
                    grouped)
    (Hnodup : NoDup grouped.*1)
    (Hrecords : Forall (fun entry => forall c,
                          Forall (fun item => is_record item = true)
                                 (section_items c entry.2))
                       grouped) :
  exists w' events,
    write_markdown_files py_str grouped w = Done tt w'
    /\ trace w' = trace w ++ events
    /\ written_paths events = omap report_of grouped
    /\ NoDup (written_paths events)
    /\ (forall key data,
          In (key, data) grouped ->
          (forall c, section_items c data = []) ->
          exists path,
            bucket_path key = Some path
            /\ (path ∉ written_paths events)
            /\ files w' !! path = files w !! path)
    /\ (forall (y n : Z) data,
          0 <= y -> 0 <= n ->
          In (str_of_int y +:+ "-Q" +:+ str_of_int n, data) grouped ->
          (exists c item, In item (section_items c data)) ->
          let year := str_of_int y in
          let quarter := "Q" +:+ str_of_int n in
          let path := "contributions/" +:+ year +:+ "/" +:+ quarter +:+ "-"
                      +:+ year +:+ ".md" in
          exists b1 b2 b3 b4,
            path ∈ written_paths events
            /\ files w' !! path
               = Some ("# Contributions - " +:+ quarter +:+ " " +:+ year
                       +:+ nl +:+ nl
                       +:+ "## Pull Requests" +:+ nl +:+ nl +:+ b1
                       +:+ "## Issues" +:+ nl +:+ nl +:+ b2
                       +:+ "## Triaged Issues" +:+ nl +:+ nl +:+ b3
                       +:+ "## Reviewed PRs" +:+ nl +:+ nl +:+ b4))
    /\ (forall p, p ∉ written_paths events -> files w' !! p = files w !! p).
Proof.
  assert (Hsplit : forall y n : Z, 0 <= y -> 0 <= n ->
             py_split "-" (str_of_int y +:+ "-Q" +:+ str_of_int n)
             = [str_of_int y; "Q" +:+ str_of_int n]
             /\ bucket_path (str_of_int y +:+ "-Q" +:+ str_of_int n)
                = Some ("contributions/" +:+ str_of_int y +:+ "/Q"
                        +:+ str_of_int n +:+ "-" +:+ str_of_int y +:+ ".md")).
  { intros y n Hy Hn.
    destruct (str_of_int_digits y Hy) as [? ?].
    destruct (str_of_int_digits n Hn) as [? ?].
    split; [|by apply bucket_path_digits].
    change (str_of_int y +:+ "-Q" +:+ str_of_int n)
      with (str_of_int y +:+ String "-" ("Q" +:+ str_of_int n)).
    apply py_split_pair; [by apply all_digits_contains|].
    rewrite str_app_cons, str_app_nil_l. cbn. by apply all_digits_contains. }
  assert (Hall : Forall (reportable py_str) grouped).
  { apply List.Forall_forall. intros [key data] Hin.
    rewrite List.Forall_forall in Hkeys, Hrecords.
    destruct (Hkeys _ Hin) as (y & n & Hy & Hn & Hkey). cbn [fst] in Hkey.
    specialize (Hrecords _ Hin). cbn [snd] in Hrecords. subst key.
    destruct (Hsplit y n Hy Hn) as [Hparts Hpath].
    eexists. split; [exact Hpath|]. intros _. cbn [fst snd].
    unfold bucket_document. rewrite Hparts.
    destruct (render_document_records py_str (str_of_int y)
                ("Q" +:+ str_of_int n) data Hrecords)
      as (b1 & b2 & b3 & b4 & ->).
    by eexists. }
  assert (Hpaths : NoDup (bucket_path <$> grouped.*1)).
  { apply NoDup_bucket_paths_digits; [done|].
    by apply Forall_fmap. }
  destruct (for_each_reports grouped
              {| replies := replies w; files := files w;
                 trace := trace w ++ [Makedirs base_dir] |} Hall Hpaths)
    as (w' & events & Hw' & _ & Htrace & Hwritten & Hnd & Hreports & Hother).
  cbn [replies files trace] in Htrace, Hother.
  exists w', (Makedirs base_dir :: events).
  assert (Hpaths' : written_paths (Makedirs base_dir :: events)
                    = omap report_of grouped) by exact Hwritten.
  rewrite Hpaths'.
  split; [unfold write_markdown_files, mbind, M_bind, emit; exact Hw'|].
  split; [by rewrite Htrace, <- app_assoc|]. split; [done|]. split; [done|].
  split; [|split; [|done]].
  - intros key data Hin Hempty.
    apply has_data_false in Hempty.
    rewrite List.Forall_forall in Hall.
    destruct (Hall _ Hin) as (path & Hpath & _). cbn [fst] in Hpath.
    exists path. split; [done|].
    assert (Hnot : path ∉ omap report_of grouped).
    { intros (entry & Hentry & Hreport)%list_elem_of_omap.
      pose proof (report_of_path _ _ Hreport) as Hpath'.
      assert (Hsame : entry.1 = key).
      { apply list_elem_of_In in Hentry.
        rewrite List.Forall_forall in Hkeys.
        destruct (Hkeys _ Hentry) as (y1 & n1 & Hy1 & Hn1 & Hk1).
        destruct (Hkeys _ Hin) as (y2 & n2 & Hy2 & Hn2 & Hk2).
        cbn [fst] in Hk2. rewrite Hk1, Hk2 in *.
        rewrite (proj2 (Hsplit y1 n1 Hy1 Hn1)) in Hpath'.
        rewrite (proj2 (Hsplit y2 n2 Hy2 Hn2)) in Hpath.
        destruct (str_of_int_digits y1 Hy1) as [? ?].
        destruct (str_of_int_digits n1 Hn1) as [? ?].
        destruct (str_of_int_digits y2 Hy2) as [? ?].
        destruct (str_of_int_digits n2 Hn2) as [? ?].
        rewrite <- Hpath in Hpath'. apply (inj Some) in Hpath'.
        apply report_path_inj in Hpath' as [-> ->]; done. }
      destruct entry as [key' data']. cbn [fst] in Hsame. subst key'.
      apply list_elem_of_In in Hentry.
      assert (data' = data).
      { pose proof (dict_get_NoDup_In _ _ _ Hnodup Hentry) as H1.
        pose proof (dict_get_NoDup_In _ _ _ Hnodup Hin) as H2. congruence. }
      subst data'. unfold report_of in Hreport. cbn [snd] in Hreport.
      by rewrite Hempty in Hreport. }
    split; [done | by apply Hother].
  - intros y n data Hy Hn Hin (c & item & Hitem) year quarter path.
    assert (Hdata : has_data data = true).
    { destruct (has_data data) eqn:Hd; [done|].
      pose proof (proj1 (has_data_false data) Hd c) as Hnone.
      by rewrite Hnone in Hitem. }
    rewrite List.Forall_forall in Hrecords.
    pose proof (Hrecords _ Hin) as Hrec. cbn [snd] in Hrec.
    destruct (Hsplit y n Hy Hn) as [Hparts Hpath].
    destruct (render_document_records py_str year quarter data Hrec)
      as (b1 & b2 & b3 & b4 & Hdoc).
    exists b1, b2, b3, b4.
    assert (Hbucket : bucket_document py_str
                        (str_of_int y +:+ "-Q" +:+ str_of_int n) data
                      = Ok (title_line year quarter
                            +:+ section_heading "Pull Requests" +:+ b1
                            +:+ section_heading "Issues" +:+ b2
                            +:+ section_heading "Triaged Issues" +:+ b3
                            +:+ section_heading "Reviewed PRs" +:+ b4))
      by (unfold bucket_document; by rewrite Hparts).
    destruct (Hreports _ _ _ Hin Hdata Hbucket) as (path' & Hpath' & Hfile).
    rewrite Hpath in Hpath'. apply (inj Some) in Hpath'. subst path'.
    split.
    + apply list_elem_of_omap.
      exists (str_of_int y +:+ "-Q" +:+ str_of_int n, data).
      split; [by apply list_elem_of_In|].
      unfold report_of. cbn [fst snd]. rewrite Hdata. exact Hpath.
    + subst path quarter year. refine (eq_trans Hfile _). f_equal.
      unfold title_line, section_heading. by rewrite !str_app_assoc.
Qed.

End RendererReports.

Lemma write_markdown_files_reports_witness :
  exists w' events b1 b2 b3 b4,
    write_markdown_files sample_py_str sample_mixed_grouping sample_stale_world
    = Done tt w'
    /\ trace w' = events
    /\ written_paths events = ["contributions/2023/Q2-2023.md"]
    /\ files w' !! "contributions/2023/Q1-2023.md" = None
    /\ files w' !! "contributions/2022/Q4-2022.md" = Some "kept"
    /\ files w' !! "contributions/2023/Q2-2023.md"
       = Some ("# Contributions - Q2 2023" +:+ nl +:+ nl
               +:+ "## Pull Requests" +:+ nl +:+ nl +:+ b1
               +:+ "## Issues" +:+ nl +:+ nl +:+ b2
               +:+ "## Triaged Issues" +:+ nl +:+ nl +:+ b3
               +:+ "## Reviewed PRs" +:+ nl +:+ nl +:+ b4).
Proof.
  destruct (write_markdown_files_reports sample_py_str sample_mixed_grouping
              sample_stale_world)
    as (w' & events & Hrun & Htrace & Hpaths & _ & Hempty & Hfull & Hother).
  - repeat constructor.
    + exists 2023, 1. by repeat split.
    + exists 2023, 2. by repeat split.
  - by apply (bool_decide_unpack _).
  - repeat constructor; intros []; repeat constructor.
  - destruct (Hempty "2023-Q1" empty_set (or_introl eq_refl)
                ltac:(by intros []))
      as (path1 & Hpath1 & _ & Hfile1).
    change (bucket_path "2023-Q1")
      with (Some "contributions/2023/Q1-2023.md") in Hpath1.
    apply (inj Some) in Hpath1. subst path1.
    destruct (Hfull 2023 2 _ ltac:(lia) ltac:(lia)
                (or_intror (or_introl eq_refl))
                (ex_intro _ PullRequests
                   (ex_intro _ sample_pr_record (or_introl eq_refl))))
      as (b1 & b2 & b3 & b4 & _ & Hfile2).
    exists w', (trace w'), b1, b2, b3, b4.
    split; [exact Hrun|]. split; [reflexivity|].
    split; [rewrite Htrace; exact Hpaths|].
    split; [rewrite Hfile1; reflexivity|].
    split; [rewrite Hother; [reflexivity|]|exact Hfile2].
    rewrite Hpaths. by apply (bool_decide_unpack _).
Defined.
